(** * Geode installer: a model of [Manager.cpp]

    The development embeds the [Manager] class of the installer: the
    registry of installations and its JSON state file, the zip extraction,
    the release download callbacks and the install / uninstall transitions
    on a game directory.  Methods become functions over an explicit
    manager state, file system and Windows registry; the callbacks of the
    asynchronous download become functions producing the list of
    observable actions. *)

From Stdlib Require Import ZArith String Ascii List Sorted.
From Stdlib Require Import Floats.SpecFloat.
From stdpp Require Import gmap strings list fin_maps sorting lexico pretty.

Local Open Scope string_scope.
Local Open Scope Z_scope.
Local Open Scope list_scope.

(** ** Platforms

    [Manager.cpp] is compiled for one of two targets; the macros below are
    the ones its first lines define. *)

Inductive Platform := Windows | MacOS.

Definition PLATFORM_ASSET_IDENTIFIER (os : Platform) : string :=
  match os with Windows => "win" | MacOS => "mac" end.

Definition PLATFORM_NAME (os : Platform) : string :=
  match os with Windows => "Windows" | MacOS => "MacOS" end.

Definition INSTALL_DATA_JSON : string := "installer.json".

(** ** Results *)

Inductive Result (A : Type) :=
| Ok (v : A)
| Err (msg : string).
Arguments Ok {A} v.
Arguments Err {A} msg.

Definition is_ok {A} (r : Result A) : bool :=
  match r with Ok _ => true | Err _ => false end.

(** ** Paths

    A [ghc::filesystem::path] is kept as its sequence of components.
    [operator/] with a relative name appends components, [parent_path]
    drops the last one and [filename] is the last one.  [string()] joins
    the components with the generic separator and the constructor from a
    string splits on it, dropping the empty components that redundant
    separators produce.  The sequence does not record a trailing
    separator or whether the path is absolute, and [.] and [..] are
    components like any other, where the system would resolve them. *)

Abbreviation path := (list string).

Definition separator : ascii := "/"%char.

Definition path_string (p : path) : string := String.concat "/" p.

Fixpoint split (s : string) : list string :=
  match s with
  | EmptyString => [EmptyString]
  | String c s' =>
      if Ascii.eqb c separator then EmptyString :: split s'
      else match split s' with
           | [] => [String c EmptyString]
           | h :: t => String c h :: t
           end
  end.

Definition nonempty (s : string) : bool :=
  match s with EmptyString => false | _ => true end.

Definition string_path (s : string) : path := List.filter nonempty (split s).

Definition parent_path (p : path) : path := removelast p.

Definition filename (p : path) : string := List.last p "".

(** A component is well formed when it is not empty and holds no
    separator; these are the components a path can have. *)

Fixpoint no_separator (s : string) : bool :=
  match s with
  | EmptyString => true
  | String c s' => negb (Ascii.eqb c separator) && no_separator s'
  end.

Definition component_ok (s : string) : bool := nonempty s && no_separator s.

Definition path_ok (p : path) : bool := forallb component_ok p.

(** *** The order on paths

    [path::operator<] compares lexicographically, component by component;
    components compare as strings. *)

#[global] Instance string_lexico : Lexico string := strict String.le.

#[global] Instance string_lexico_po : StrictOrder (@lexico string _).
Proof. unfold lexico, string_lexico. apply _. Qed.

#[global] Instance string_lexico_trichotomy : TrichotomyT (@lexico string _).
Proof.
  refine (fun s1 s2 =>
    match decide (s1 = s2) with
    | left e => inleft (right e)
    | right n =>
        match decide (String.le s1 s2) with
        | left l => inleft (left _)
        | right nl => inright _
        end
    end).
  - split; [exact l|]. intros l'. apply n. by apply (anti_symm String.le).
  - split; [|exact nl]. by destruct (total String.le s1 s2).
Defined.

Definition path_lt (p q : path) : Prop := lexico p q.

#[global] Instance path_lt_dec : RelDecision path_lt :=
  fun p q => decide (lexico p q).

#[global] Instance path_lt_po : StrictOrder path_lt.
Proof. change (StrictOrder (@lexico path _)). apply _. Qed.

Lemma path_lt_trichotomy (p q : path) : path_lt p q \/ p = q \/ path_lt q p.
Proof. unfold path_lt. destruct (trichotomyT lexico p q) as [[?|?]|?]; auto. Qed.

(** ** Installations and the set of them *)

Record Installation := { m_path : path; m_exe : string }.

#[global] Instance Installation_eq_dec : EqDecision Installation.
Proof. solve_decision. Defined.

(** Modelled from the spec: [Installation::operator<] is declared in
    Manager.hpp, which is not part of the sources at hand; the ordering
    key of the set is the path. *)
Definition Installation_lt (a b : Installation) : Prop :=
  path_lt (m_path a) (m_path b).

#[global] Instance Installation_lt_dec : RelDecision Installation_lt :=
  fun a b => decide (path_lt (m_path a) (m_path b)).

(** [std::set<Installation>] is the strictly increasing sequence of its
    members.  [insert] walks to the position of the new element and, as
    [std::set::insert] does, leaves the set alone when it finds a member
    equivalent to it (neither less than the other). *)

Fixpoint set_insert (x : Installation) (s : list Installation) : list Installation :=
  match s with
  | [] => [x]
  | y :: s' =>
      if decide (Installation_lt x y) then x :: y :: s'
      else if decide (Installation_lt y x) then y :: set_insert x s'
      else y :: s'
  end.

Definition set_ok (s : list Installation) : Prop :=
  StronglySorted Installation_lt s.

(** The set obtained from the empty one by a sequence of insertions. *)
Definition set_of (xs : list Installation) : list Installation :=
  fold_left (fun s x => set_insert x s) xs [].


(** ** JSON values

    The values of [nlohmann::json] and the operations [Manager.cpp] uses
    on them.  A number keeps its literal, which the code never reads. *)

#[warnings="-register-all"]
Inductive json :=
| JNull
| JBool (b : bool)
| JNumber (literal : string)
| JString (s : string)
| JArray (items : list json)
| JObject (members : list (string * json)).

Inductive json_exception :=
| parse_error (what_arg : string)
| type_error (id : Z) (what_arg : string).

Definition what (e : json_exception) : string :=
  match e with
  | parse_error w => w
  | type_error id w => "[json.exception.type_error." +:+ pretty id +:+ "] " +:+ w
  end.

Definition type_name (j : json) : string :=
  match j with
  | JNull => "null"
  | JBool _ => "boolean"
  | JNumber _ => "number"
  | JString _ => "string"
  | JArray _ => "array"
  | JObject _ => "object"
  end.

(** Code that may throw a JSON exception. *)
Definition throws (A : Type) : Type := json_exception + A.

#[global] Instance throws_ret : MRet throws := fun A a => inr a.
#[global] Instance throws_bind : MBind throws := fun A B k m =>
  match m with inl e => inl e | inr a => k a end.

Fixpoint assoc (key : string) (members : list (string * json)) : option json :=
  match members with
  | [] => None
  | (k, v) :: rest => if decide (k = key) then Some v else assoc key rest
  end.

(** [j.contains(key)] *)
Definition contains (j : json) (key : string) : bool :=
  match j with
  | JObject members => bool_decide (is_Some (assoc key members))
  | _ => false
  end.

(** [j[key]] on a value that is not const: a missing member reads as
    null (the library inserts it), null reads as an empty object, and
    any other kind of value throws. *)
Definition json_at (j : json) (key : string) : throws json :=
  match j with
  | JObject members => inr (default JNull (assoc key members))
  | JNull => inr JNull
  | _ => inl (type_error 305
            ("cannot use operator[] with a string argument with " +:+ type_name j))
  end.

Definition is_null (j : json) : bool :=
  match j with JNull => true | _ => false end.

(** [j.get<std::string>()] *)
Definition get_string (j : json) : throws string :=
  match j with
  | JString s => inr s
  | _ => inl (type_error 302 ("type must be string, but is " +:+ type_name j))
  end.

(** The elements a range-based [for] over [j] visits: the items of an
    array, the values of an object, nothing for null and the value itself
    for a primitive. *)
Definition json_items (j : json) : list json :=
  match j with
  | JArray items => items
  | JObject members => snd <$> members
  | JNull => []
  | _ => [j]
  end.

(** ** File contents

    The bytes of a file, as [nlohmann::json::parse] sees them: either the
    text of a JSON document, kept as the value it parses to, or bytes the
    parser rejects, with the message of its exception.  [dump] produces
    the text of its argument, which parses back to it. *)

Inductive content :=
| Json (j : json)
| NotJson (bytes : string) (parser_message : string).

Definition json_parse (c : content) : throws json :=
  match c with
  | Json j => inr j
  | NotJson _ w => inl (parse_error w)
  end.

Definition json_dump (j : json) : content := Json j.

(** ** The file system *)

Inductive node :=
| Dir (mode : Z)
| File (data : content).

Abbreviation filesystem := (gmap path node).

(** The root directory always exists.  The empty path of the code, which
    names nothing, has the same sequence of components; what is stated
    about a directory that could be the empty path excludes it. *)
Definition lookup_node (fs : filesystem) (p : path) : option node :=
  match p with
  | [] => Some (Dir 511)
  | _ => fs !! p
  end.

(** [ghc::filesystem::exists] *)
Definition fs_exists (fs : filesystem) (p : path) : bool :=
  bool_decide (is_Some (lookup_node fs p)).

(** [wxDirExists] *)
Definition wxDirExists (fs : filesystem) (p : path) : bool :=
  match lookup_node fs p with Some (Dir _) => true | _ => false end.

(** [wxFileName::Mkdir(dir, mode, wxPATH_MKDIR_FULL)]: walks down the
    components of [dir], creating each directory that does not exist, and
    gives up at the first one it cannot create (a file is in the way). *)
Fixpoint Mkdir_from (cur : path) (dirs : list string) (mode : Z)
    (fs : filesystem) : bool * filesystem :=
  match dirs with
  | [] => (true, fs)
  | d :: dirs' =>
      let currPath := cur ++ [d] in
      match fs !! currPath with
      | Some (Dir _) => Mkdir_from currPath dirs' mode fs
      | Some (File _) => (false, fs)
      | None => Mkdir_from currPath dirs' mode (<[currPath := Dir mode]> fs)
      end
  end.

Definition Mkdir (dir : path) (mode : Z) (fs : filesystem) : bool * filesystem :=
  Mkdir_from [] dir mode fs.

(** Opening a file for writing ([wxFileOutputStream], [std::wofstream])
    succeeds when its directory exists and the name is not the one of a
    directory. *)
Definition can_create (fs : filesystem) (p : path) : bool :=
  match p with
  | [] => false
  | _ => wxDirExists fs (parent_path p) && negb (wxDirExists fs p)
  end.

Definition write_file (p : path) (data : content) (fs : filesystem) : filesystem :=
  <[p := File data]> fs.

(** File system calls of ghc::filesystem that report failure by throwing. *)
Inductive thrown (A : Type) :=
| Return (v : A)
| Throw (filesystem_error : string).
Arguments Return {A} v.
Arguments Throw {A} filesystem_error.

(** [ghc::filesystem::create_directories(p)]: true when a directory was
    created, false when all of them were there, an exception when one
    cannot be created. *)
Definition create_directories (p : path) (fs : filesystem) : thrown bool * filesystem :=
  match Mkdir p 511 fs with
  | (true, fs') => (Return (negb (wxDirExists fs p)), fs')
  | (false, fs') => (Throw ("create_directories: " +:+ path_string p), fs')
  end.

(** [ghc::filesystem::remove_all(p)]: [p] and everything below it. *)
Definition remove_all (p : path) (fs : filesystem) : filesystem :=
  filter (fun kv => ~ p `prefix_of` kv.1) fs.

Definition has_children (fs : filesystem) (p : path) : bool :=
  bool_decide (filter (fun kv => p <> kv.1 /\ p `prefix_of` kv.1) fs <> (∅ : filesystem)).

(** [ghc::filesystem::remove(p)]: a file or an empty directory; a
    directory that is not empty makes it throw. *)
Definition remove (p : path) (fs : filesystem) : thrown bool * filesystem :=
  match fs !! p with
  | None => (Return false, fs)
  | Some (File _) => (Return true, delete p fs)
  | Some (Dir _) =>
      if has_children fs p
      then (Throw ("remove: " +:+ path_string p), fs)
      else (Return true, delete p fs)
  end.

(** ** Zip archives

    What [wxFileInputStream] and [wxZipInputStream] deliver for the file
    at [zipLocation]: whether each stream opened, and the entries in the
    order [GetNextEntry] returns them.  [CanRead] is the answer of the zip
    stream once positioned on the entry. *)

Record wxZipEntry := {
  GetName : path;
  IsDir : bool;
  GetMode : Z;
  CanRead : bool;
  entry_data : content
}.

Record archive := {
  fis_IsOk : bool;
  zip_IsOk : bool;
  entries : list wxZipEntry
}.

Definition dquote : string := String (Ascii.ascii_of_nat 34) EmptyString.

(** The first half of the loop body of [unzipTo]: the directory of the
    entry ([fn.GetPath()]) is created, with its missing ancestors, unless
    it is there; the result of [Mkdir] is not looked at. *)
Definition ensure_dir (targetLocation : path) (entry : wxZipEntry)
    (fs : filesystem) : filesystem :=
  let path := targetLocation ++ GetName entry in
  let fn_GetPath := if IsDir entry then path else parent_path path in
  if wxDirExists fs fn_GetPath then fs
  else (Mkdir fn_GetPath (GetMode entry) fs).2.

Definition read_error (entry : wxZipEntry) : string :=
  "Unable to read the zip entry " +:+ dquote +:+
  path_string (GetName entry) +:+ dquote.

Definition write_error (path : path) : string :=
  "Unable to create file " +:+ dquote +:+ path_string path +:+ dquote.

(** One turn of the loop of [unzipTo]; [None] is [continue] or the end of
    the body, [Some msg] is [return Err(msg)]. *)
Definition unzip_entry (targetLocation : path) (entry : wxZipEntry)
    (fs : filesystem) : option string * filesystem :=
  let path := targetLocation ++ GetName entry in
  let fs := ensure_dir targetLocation entry fs in
  if IsDir entry then (None, fs)
  else if negb (CanRead entry) then (Some (read_error entry), fs)
  else if negb (can_create fs path) then (Some (write_error path), fs)
  else (None, write_file path (entry_data entry) fs).

Fixpoint unzip_entries (targetLocation : path) (es : list wxZipEntry)
    (fs : filesystem) : Result unit * filesystem :=
  match es with
  | [] => (Ok (), fs)
  | entry :: rest =>
      match unzip_entry targetLocation entry fs with
      | (Some msg, fs') => (Err msg, fs')
      | (None, fs') => unzip_entries targetLocation rest fs'
      end
  end.

(** [Manager::unzipTo] *)
Definition unzipTo (zip : archive) (targetLocation : path)
    (fs : filesystem) : Result unit * filesystem :=
  if negb (fis_IsOk zip) then (Err "Unable to open zip", fs)
  else if negb (zip_IsOk zip) then (Err "Unable to read zip", fs)
  else unzip_entries targetLocation (entries zip) fs.

(** ** The manager, the Windows registry and the world around them *)

Record Manager := {
  m_sdkDirectory : path;
  m_sdkInstalled : bool;
  m_dataDirectory : path;
  m_installations : list Installation;
  m_dataLoaded : bool
}.

(** Modelled from the spec: the member initialisers of [Manager] are in
    Manager.hpp, which is not part of the sources at hand; a Registry that
    has not loaded anything holds no installation, has no SDK and has not
    found prior state. *)
Definition fresh (m : Manager) : Prop :=
  m_installations m = [] /\ m_sdkInstalled m = false /\ m_dataLoaded m = false.

(** A fresh manager, its two paths default-constructed. *)
Definition Manager_new : Manager := {|
  m_sdkDirectory := [];
  m_sdkInstalled := false;
  m_dataDirectory := [];
  m_installations := [];
  m_dataLoaded := false
|}.

(** The key [HKLM\Software\GeodeSDK]: the value [InstallInfo] when the
    key has it, and whether the process may create the key and set the
    value. *)
Record wxRegKey := {
  InstallInfo : option string;
  Create_ok : bool;
  SetValue_ok : bool
}.

Record World := {
  mgr : Manager;
  disk : filesystem;
  HKLM_GeodeSDK : wxRegKey
}.

Definition with_mgr (m : Manager) (w : World) : World :=
  {| mgr := m; disk := disk w; HKLM_GeodeSDK := HKLM_GeodeSDK w |}.

Definition with_disk (fs : filesystem) (w : World) : World :=
  {| mgr := mgr w; disk := fs; HKLM_GeodeSDK := HKLM_GeodeSDK w |}.

Definition with_InstallInfo (v : string) (w : World) : World :=
  {| mgr := mgr w; disk := disk w;
     HKLM_GeodeSDK := {| InstallInfo := Some v;
                         Create_ok := Create_ok (HKLM_GeodeSDK w);
                         SetValue_ok := SetValue_ok (HKLM_GeodeSDK w) |} |}.

(** The folders the platform reports: Program Files (Windows) or
    Application Support (macOS), and [wxStandardPaths::GetUserLocalDataDir]. *)
Record Env := {
  os : Platform;
  SpecialFolder : path;
  UserLocalDataDir : path
}.

Definition getDefaultSDKDirectory (env : Env) : path :=
  SpecialFolder env ++ ["GeodeSDK"].

Definition getDefaultDataDirectory (env : Env) : path :=
  match os env with
  | Windows => parent_path (UserLocalDataDir env) ++ ["GeodeSDK"]
  | MacOS => getDefaultSDKDirectory env
  end.

Definition getInstallations (m : Manager) : list Installation := m_installations m.

Definition isSDKInstalled (m : Manager) : bool := m_sdkInstalled m.

Definition isFirstTime (m : Manager) : bool := negb (m_dataLoaded m).

(** *** loadData *)

Definition set_dirs (data sdk : path) (m : Manager) : Manager :=
  {| m_sdkDirectory := sdk; m_sdkInstalled := m_sdkInstalled m;
     m_dataDirectory := data; m_installations := m_installations m;
     m_dataLoaded := m_dataLoaded m |}.

Definition set_dataDirectory_loaded (data : path) (m : Manager) : Manager :=
  {| m_sdkDirectory := m_sdkDirectory m; m_sdkInstalled := m_sdkInstalled m;
     m_dataDirectory := data; m_installations := m_installations m;
     m_dataLoaded := true |}.

Definition set_dataLoaded (m : Manager) : Manager :=
  {| m_sdkDirectory := m_sdkDirectory m; m_sdkInstalled := m_sdkInstalled m;
     m_dataDirectory := m_dataDirectory m; m_installations := m_installations m;
     m_dataLoaded := true |}.

Definition set_sdk (sdk : path) (m : Manager) : Manager :=
  {| m_sdkDirectory := sdk; m_sdkInstalled := true;
     m_dataDirectory := m_dataDirectory m; m_installations := m_installations m;
     m_dataLoaded := m_dataLoaded m |}.

Definition insert_installation (i : Installation) (m : Manager) : Manager :=
  {| m_sdkDirectory := m_sdkDirectory m; m_sdkInstalled := m_sdkInstalled m;
     m_dataDirectory := m_dataDirectory m;
     m_installations := set_insert i (m_installations m);
     m_dataLoaded := m_dataLoaded m |}.

(** The body of the [try] block works on the members in place: what it
    changed before an exception stays changed. *)

Definition load_sdk (j : json) (m : Manager) : Manager * throws unit :=
  if contains j "sdk" then
    match json_at j "sdk" with
    | inl e => (m, inl e)
    | inr sdk =>
        if is_null sdk then (m, inr ())
        else match get_string sdk with
             | inl e => (m, inl e)
             | inr s => (set_sdk (string_path s) m, inr ())
             end
    end
  else (m, inr ()).

Definition read_installation (i : json) : throws Installation :=
  p ← json_at i "path" ≫= get_string;
  e ← json_at i "exe" ≫= get_string;
  mret {| m_path := string_path p; m_exe := e |}.

Fixpoint load_installations (items : list json) (m : Manager) : Manager * throws unit :=
  match items with
  | [] => (m, inr ())
  | i :: rest =>
      match read_installation i with
      | inl e => (m, inl e)
      | inr inst => load_installations rest (insert_installation inst m)
      end
  end.

Definition load_json (j : json) (m : Manager) : Manager * throws unit :=
  match load_sdk j m with
  | (m, inl e) => (m, inl e)
  | (m, inr _) =>
      match json_at j "installations" with
      | inl e => (m, inl e)
      | inr arr => load_installations (json_items arr) m
      end
  end.

Definition load_file (data : content) (m : Manager) : Manager * throws unit :=
  match json_parse data with
  | inl e => (m, inl e)
  | inr j => load_json j m
  end.

(** The first lines of [loadData]: the default directories, then the
    pointer in the Windows registry. *)
Definition locate (env : Env) (w : World) : Manager :=
  let m := set_dirs (getDefaultDataDirectory env) (getDefaultSDKDirectory env) (mgr w) in
  match os env with
  | Windows =>
      match InstallInfo (HKLM_GeodeSDK w) with
      | Some value => set_dataDirectory_loaded (string_path value) m
      | None => m
      end
  | MacOS => set_dataLoaded m
  end.

Definition installJsonPath (m : Manager) : path :=
  m_dataDirectory m ++ [INSTALL_DATA_JSON].

Definition load_error (e : json_exception) : string :=
  "Unable to load installation info: " +:+ what e.

(** [Manager::loadData] *)
Definition loadData (env : Env) (w : World) : Result unit * World :=
  let m := locate env w in
  match disk w !! installJsonPath m with
  | None => (Ok (), with_mgr m w)
  | Some (Dir _) => (Err "Unable to load installation info", with_mgr m w)
  | Some (File data) =>
      match load_file data m with
      | (m, inl e) => (Err (load_error e), with_mgr m w)
      | (m, inr _) => (Ok (), with_mgr m w)
      end
  end.

(** *** saveData *)

Definition installation_json (i : Installation) : json :=
  JObject [("exe", JString (m_exe i)); ("path", JString (path_string (m_path i)))].

Definition save_json (m : Manager) : json :=
  JObject
    (("installations", JArray (installation_json <$> m_installations m))
     :: (if m_sdkInstalled m
         then [("sdk", JString (path_string (m_sdkDirectory m)))]
         else [])).

(** The registry part of [saveData], compiled in on Windows only. *)
Definition save_registry (env : Env) (w : World) : Result unit * World :=
  match os env with
  | Windows =>
      if negb (Create_ok (HKLM_GeodeSDK w)) then
        (Err ("Unable to create Registry Key - " +:+
              "the installer wont be able to uninstall Geode!"), w)
      else if negb (SetValue_ok (HKLM_GeodeSDK w)) then
        (Err ("Unable to save Registry Key - " +:+
              "the installer wont be able to uninstall Geode!"), w)
      else (Ok (), with_InstallInfo (path_string (m_dataDirectory (mgr w))) w)
  | MacOS => (Ok (), w)
  end.

Definition save_file (env : Env) (w : World) : Result unit * World :=
  let installJsonPath := installJsonPath (mgr w) in
  if negb (can_create (disk w) installJsonPath) then
    (Err ("Can't save file at " +:+ path_string installJsonPath), w)
  else
    save_registry env
      (with_disk (write_file installJsonPath (json_dump (save_json (mgr w))) (disk w)) w).

(** [Manager::saveData] *)
Definition saveData (env : Env) (w : World) : thrown (Result unit) * World :=
  let dir := m_dataDirectory (mgr w) in
  if fs_exists (disk w) dir then
    let '(r, w') := save_file env w in (Return r, w')
  else
    match create_directories dir (disk w) with
    | (Throw e, fs) => (Throw e, with_disk fs w)
    | (Return false, fs) =>
        (Return (Err ("Unable to create GeodeSDK directory at " +:+ path_string dir)),
         with_disk fs w)
    | (Return true, fs) =>
        let '(r, w') := save_file env (with_disk fs w) in (Return r, w')
    end.

(** *** Installing and uninstalling the loader

    The bodies below are the ones compiled on Windows; on the other
    target [installLoaderFor] stops the build and [uninstallFrom] is a
    placeholder. *)

(** [Manager::installLoaderFor] *)
Definition installLoaderFor (gdExePath : path) (zip : archive)
    (w : World) : Result Installation * World :=
  let inst := {| m_path := parent_path gdExePath; m_exe := filename gdExePath |} in
  match unzipTo zip (m_path inst) (disk w) with
  | (Err e, fs) => (Err ("Loader unzip error: " +:+ e), with_disk fs w)
  | (Ok _, fs) =>
      (Ok inst, with_mgr (insert_installation inst (mgr w)) (with_disk fs w))
  end.

Definition remove_if_exists (p : path) (fs : filesystem) : thrown bool * filesystem :=
  if fs_exists fs p then remove p fs else (Return false, fs).

(** [Manager::uninstallFrom] *)
Definition uninstallFrom (inst : Installation) (w : World)
    : thrown (Result unit) * World :=
  let path := m_path inst in
  let fs := disk w in
  let fs :=
    if fs_exists fs (path ++ ["geode"]) then remove_all (path ++ ["geode"]) fs
    else fs in
  match remove_if_exists (path ++ ["XInput9_1_0.dll"]) fs with
  | (Throw e, fs) => (Throw e, with_disk fs w)
  | (Return _, fs) =>
      match remove_if_exists (path ++ ["Geode.dll"]) fs with
      | (Throw e, fs) => (Throw e, with_disk fs w)
      | (Return _, fs) => (Return (Ok ()), with_disk fs w)
      end
  end.

(** *** Removing the data and the SDK

    [remove_all] returns the number of entries it removed; the two
    callers below test it against zero. *)

Definition remove_all_count (p : path) (fs : filesystem) : nat :=
  size (filter (fun kv => p `prefix_of` kv.1) fs).

(** The text [deleteData] and [uninstallSDK] share: the directory is
    removed when it exists. *)
Definition delete_directory (dir : path) (w : World) : Result unit * World :=
  if fs_exists (disk w) dir then
    if (remove_all_count dir (disk w) =? 0)%nat then
      (Err "Unable to delete Geode directory", with_disk (remove_all dir (disk w)) w)
    else (Ok (), with_disk (remove_all dir (disk w)) w)
  else (Ok (), w).

(** The key after [wxRegKey::DeleteSelf]. *)
Definition without_InstallInfo (w : World) : World :=
  {| mgr := mgr w; disk := disk w;
     HKLM_GeodeSDK := {| InstallInfo := None;
                         Create_ok := Create_ok (HKLM_GeodeSDK w);
                         SetValue_ok := SetValue_ok (HKLM_GeodeSDK w) |} |}.

(** [Manager::deleteData]; [DeleteSelf_ok] tells whether the process may
    delete the key. *)
Definition deleteData (env : Env) (DeleteSelf_ok : bool) (w : World)
    : Result unit * World :=
  match os env with
  | Windows =>
      if negb DeleteSelf_ok then (Err "Unable to delete registry key", w)
      else delete_directory (m_dataDirectory (mgr w)) (without_InstallInfo w)
  | MacOS => delete_directory (m_dataDirectory (mgr w)) w
  end.

(** [Manager::uninstallSDK] *)
Definition uninstallSDK (w : World) : Result unit * World :=
  delete_directory (m_sdkDirectory (mgr w)) w.

(** *** Plain file names

    A name [operator/] appends as it is and the system takes as the name
    of an entry: one component, with no separator of either kind and no
    drive colon, that is neither [.] nor [..]. *)

Fixpoint lacks (c : ascii) (s : string) : bool :=
  match s with
  | EmptyString => true
  | String c' s' => negb (Ascii.eqb c' c) && lacks c s'
  end.

Definition plain_name (s : string) : bool :=
  component_ok s && lacks "\"%char s && lacks ":"%char s
  && negb (String.eqb s ".") && negb (String.eqb s "..").

(** *** Installing the API

    [ghc::filesystem::copy_file(from, to, copy_options::overwrite_existing)]
    copies a regular file over a file or to a new name in a directory
    that exists.  It returns false without an error when [from] is there
    but is not a regular file, and throws when [from] is missing, when
    [to] is [from] or a directory, and when the file cannot be created. *)
Definition copy_file (from to : path) (fs : filesystem) : thrown bool * filesystem :=
  match lookup_node fs from with
  | None => (Throw ("copy_file: " +:+ path_string from), fs)
  | Some (Dir _) => (Return false, fs)
  | Some (File data) =>
      if bool_decide (from = to) then (Throw ("copy_file: " +:+ path_string to), fs)
      else if negb (can_create fs to) then
        (Throw ("copy_file: " +:+ path_string to), fs)
      else (Return true, write_file to data fs)
  end.

(** The [try] block of [installAPIFor]. *)
Definition copy_api (zipLocation target : path) (w : World) : Result unit * World :=
  match copy_file zipLocation target (disk w) with
  | (Throw e, fs) => (Err ("Unable to copy Geode API: " +:+ e), with_disk fs w)
  | (Return false, fs) => (Err "Unable to copy Geode API", with_disk fs w)
  | (Return true, fs) => (Ok (), with_disk fs w)
  end.

(** [Manager::installAPIFor].  The target is right for a [filename] that
    is a plain name; for an absolute one [operator/] gives [filename]
    itself, and [..] in it is resolved by the system, neither of which
    the appended components express. *)
Definition installAPIFor (inst : Installation) (zipLocation : path)
    (filename : string) (w : World) : thrown (Result unit) * World :=
  let targetDir := m_path inst ++ ["geode"; "mods"] in
  let target := targetDir ++ string_path filename in
  if fs_exists (disk w) targetDir then
    let '(r, w') := copy_api zipLocation target w in (Return r, w')
  else
    match create_directories targetDir (disk w) with
    | (Throw e, fs) => (Throw e, with_disk fs w)
    | (Return false, fs) =>
        (Return (Err ("Unable to create Geode mods directory under " +:+
                      path_string targetDir)),
         with_disk fs w)
    | (Return true, fs) =>
        let '(r, w') := copy_api zipLocation target (with_disk fs w) in (Return r, w')
    end.

(** *** Deleting the save data

    [path::replace_extension()] cuts the last component at its last dot,
    unless that dot is its first character or the component is [..]. *)

Fixpoint last_dot (s : string) : option nat :=
  match s with
  | EmptyString => None
  | String c s' =>
      match last_dot s' with
      | Some n => Some (S n)
      | None => if Ascii.eqb c "."%char then Some 0%nat else None
      end
  end.

Definition stem (name : string) : string :=
  if bool_decide (name = "..") then name
  else match last_dot name with
       | Some (S n) => substring 0 (S n) name
       | _ => name
       end.

Definition replace_extension (p : path) : path :=
  match p with
  | [] => []
  | _ => parent_path p ++ [stem (filename p)]
  end.

(** [Manager::deleteSaveDataFrom], the body compiled on Windows.  The
    directory is right for an [m_exe] whose stem is a plain name; an
    absolute [m_exe] replaces the directory of the local data, and a stem
    [..] is resolved by the system to the directory above. *)
Definition deleteSaveDataFrom (env : Env) (inst : Installation) (w : World)
    : Result unit * World :=
  let path :=
    parent_path (UserLocalDataDir env)
    ++ replace_extension (string_path (m_exe inst)) ++ ["geode"] in
  if fs_exists (disk w) path then (Ok (), with_disk (remove_all path (disk w)) w)
  else (Err "Save data directory not found!", w).

(** *** Other mod loaders

    The values of the [OMF_] flags are declared in Manager.hpp, which is
    not part of the sources at hand; they are taken as a parameter. *)

Record OtherModFlags := {
  OMF_None : Z;
  OMF_MHv6 : Z;
  OMF_MHv7 : Z;
  OMF_GDHM : Z;
  OMF_Some : Z
}.

Definition or_if (c : bool) (flag flags : Z) : Z :=
  if c then Z.lor flags flag else flags.

(** [Manager::doesDirectoryContainOtherMods] *)
Definition doesDirectoryContainOtherMods (env : Env) (F : OtherModFlags)
    (path : path) (w : World) : Z :=
  let flags := OMF_None F in
  match os env with
  | Windows =>
      let ex name := fs_exists (disk w) (path ++ [name]) in
      let flags := or_if (ex "absoluteldr.dll") (OMF_MHv6 F) flags in
      let flags := or_if (ex "hackproldr.dll") (OMF_MHv7 F) flags in
      let flags := or_if (ex "ToastedMarshmellow.dll") (OMF_GDHM F) flags in
      let flags :=
        or_if (ex "Geode.dll" || ex "quickldr.dll" || ex "GDDLLLoader.dll" ||
               ex "ModLdr.dll" || ex "minhook.dll" || ex "XInput9_1_0.dll")
              (OMF_Some F) flags in
      flags
  | MacOS => flags
  end.

(** The names the Windows branch looks for. *)
Definition marker_files : list string :=
  ["absoluteldr.dll"; "hackproldr.dll"; "ToastedMarshmellow.dll"; "Geode.dll";
   "quickldr.dll"; "GDDLLLoader.dll"; "ModLdr.dll"; "minhook.dll";
   "XInput9_1_0.dll"].

(** ** Web requests

    A response, the event a request raises, and what the code does in
    reaction, as the list of its observable actions: calls of the
    functions the caller passed in and requests started.  A started
    request carries the handler [webRequest] bound for its events. *)

Inductive State :=
| State_Idle
| State_Unauthorized
| State_Active
| State_Completed
| State_Failed
| State_Cancelled.

Record wxWebResponse := {
  IsOk : bool;
  GetStatus : Z;
  AsString : content
}.

Record wxWebRequestEvent := {
  GetState : State;
  GetResponse : wxWebResponse;
  GetBytesReceived : Z;
  GetBytesExpectedToReceive : Z
}.

#[warnings="-register-all"]
Inductive action :=
| OnError (msg : string)
| OnProgress (text : string) (percent : Z)
| OnFinish (res : wxWebResponse)
| RequestStarted (url : string) (downloadFile : bool)
    (handler : wxWebRequestEvent -> list action).

(** A [std::function] that may be null. *)
Definition DownloadErrorFunc := option (string -> list action).
Definition DownloadProgressFunc := option (string -> Z -> list action).
Definition DownloadFinishFunc := option (wxWebResponse -> list action).

Definition call_error (errorFunc : DownloadErrorFunc) (msg : string) : list action :=
  match errorFunc with Some f => f msg | None => [] end.

Definition call_progress (progressFunc : DownloadProgressFunc)
    (text : string) (percent : Z) : list action :=
  match progressFunc with Some f => f text percent | None => [] end.

Definition call_finish (finishFunc : DownloadFinishFunc)
    (res : wxWebResponse) : list action :=
  match finishFunc with Some f => f res | None => [] end.

(** Callbacks that do nothing but get recorded. *)
Definition record_error : DownloadErrorFunc := Some (fun msg => [OnError msg]).
Definition record_progress : DownloadProgressFunc :=
  Some (fun text percent => [OnProgress text percent]).
Definition record_finish : DownloadFinishFunc := Some (fun res => [OnFinish res]).

(** *** The percentage

    [static_cast<int>(static_cast<double>(received) / expected * 100.0)]
    in IEEE 754 binary64 arithmetic.  The conversion to [int] truncates;
    for a value with no [int] (not a number, infinite, out of range) the
    language leaves it open and the conversion instruction of the
    processor gives the least [int]. *)

Definition prec : Z := 53.
Definition emax : Z := 1024.

Definition to_double (z : Z) : spec_float := binary_normalize prec emax z 0 false.

Definition INT_MIN : Z := - 2 ^ 31.
Definition INT_MAX : Z := 2 ^ 31 - 1.

Definition truncate (f : spec_float) : option Z :=
  match f with
  | S754_zero _ => Some 0
  | S754_finite s m e =>
      let a := if 0 <=? e then Z.shiftl (Zpos m) e else Z.shiftr (Zpos m) (- e) in
      Some (if s then - a else a)
  | _ => None
  end.

Definition double_to_int (f : spec_float) : Z :=
  match truncate f with
  | Some z => if (INT_MIN <=? z) && (z <=? INT_MAX) then z else INT_MIN
  | None => INT_MIN
  end.

Definition downloading_percent (received expected : Z) : Z :=
  double_to_int
    (SFmul prec emax
       (SFdiv prec emax (to_double received) (to_double expected))
       (to_double 100)).

(** *** webRequest *)

(** The handler [webRequest] binds to [wxEVT_WEBREQUEST_STATE]. *)
Definition webRequest_handler (errorFunc : DownloadErrorFunc)
    (progressFunc : DownloadProgressFunc) (finishFunc : DownloadFinishFunc)
    (evt : wxWebRequestEvent) : list action :=
  match GetState evt with
  | State_Completed =>
      let res := GetResponse evt in
      if negb (IsOk res) then call_error errorFunc "Web request returned not OK"
      else if negb (GetStatus res =? 200) then
        call_error errorFunc ("Web request returned " +:+ pretty (GetStatus res))
      else call_finish finishFunc res
  | State_Active =>
      match progressFunc with
      | None => []
      | Some f =>
          if GetBytesExpectedToReceive evt =? -1 then f "Beginning download" 0
          else f "Downloading"
                 (downloading_percent (GetBytesReceived evt)
                    (GetBytesExpectedToReceive evt))
      end
  | State_Idle => call_progress progressFunc "Waiting" 0
  | State_Unauthorized => call_error errorFunc "Unauthorized to do web request"
  | State_Failed => call_error errorFunc "Web request failed"
  | State_Cancelled => call_error errorFunc "Web request cancelled"
  end.

(** [Manager::webRequest]; [CreateRequest] tells for which addresses the
    web session hands out a usable request. *)
Definition webRequest (CreateRequest : string -> bool) (url : string)
    (downloadFile : bool) (errorFunc : DownloadErrorFunc)
    (progressFunc : DownloadProgressFunc) (finishFunc : DownloadFinishFunc)
    : list action :=
  if negb (CreateRequest url) then call_error errorFunc "Unable to create web request"
  else [RequestStarted url downloadFile
          (webRequest_handler errorFunc progressFunc finishFunc)].

(** *** Downloading a release

    The callbacks [downloadLoader] and [downloadAPI] pass as [finishFunc]
    are the same text up to the test on the asset name and the message
    when no asset passes it.  The body of the [try] block performs
    actions and may throw. *)

Definition running (A : Type) : Type := list action * throws A.

Definition perform (t : list action) : running unit := (t, inr ()).

Definition lift {A} (x : throws A) : running A := ([], x).

Definition andthen {A B} (m : running A) (k : A -> running B) : running B :=
  match m with
  | (t, inl e) => (t, inl e)
  | (t, inr a) => let '(t', r) := k a in (t ++ t', r)
  end.

Definition try_catch (m : running unit) (handler : json_exception -> list action)
    : list action :=
  match m with
  | (t, inl e) => t ++ handler e
  | (t, inr _) => t
  end.

(** [name.find(needle) != std::string::npos] *)
Definition found (needle name : string) : bool :=
  match String.index 0 needle name with Some _ => true | None => false end.

Section Release.
Variable CreateRequest : string -> bool.
Variable selects : string -> bool.
Variable no_asset_message : string.
Variables (errorFunc : DownloadErrorFunc) (progressFunc : DownloadProgressFunc)
          (finishFunc : DownloadFinishFunc).

Fixpoint release_assets (assets : list json) : running unit :=
  match assets with
  | [] => perform (call_error errorFunc no_asset_message)
  | asset :: rest =>
      andthen (lift (json_at asset "name" ≫= get_string)) (fun name =>
      if selects name then
        andthen (lift (json_at asset "browser_download_url" ≫= get_string))
          (fun url =>
             perform (webRequest CreateRequest url true
                        errorFunc progressFunc finishFunc))
      else release_assets rest)
  end.

Definition release_finish (res : wxWebResponse) : list action :=
  try_catch
    (andthen (lift (json_parse (AsString res))) (fun json =>
     andthen (lift (json_at json "tag_name" ≫= get_string)) (fun tagName =>
     andthen (perform (call_progress progressFunc
                         ("Downloading version " +:+ tagName) 0)) (fun _ =>
     andthen (lift (json_at json "assets")) (fun assets =>
     release_assets (json_items assets))))))
    (fun e => call_error errorFunc ("Unable to parse JSON: " +:+ what e)).
End Release.

Definition loader_message (os : Platform) : string :=
  "No release asset for " +:+ PLATFORM_NAME os +:+ " found".

Definition api_message : string := "No .geode file release asset found".

Definition loader_feed : string :=
  "https://api.github.com/repos/geode-sdk/loader/releases/latest".

Definition api_feed : string :=
  "https://api.github.com/repos/geode-sdk/api/releases/latest".

(** [Manager::downloadLoader] *)
Definition downloadLoader (os : Platform) (CreateRequest : string -> bool)
    (errorFunc : DownloadErrorFunc) (progressFunc : DownloadProgressFunc)
    (finishFunc : DownloadFinishFunc) : list action :=
  webRequest CreateRequest loader_feed
    false errorFunc None
    (Some (release_finish CreateRequest (found (PLATFORM_ASSET_IDENTIFIER os))
             (loader_message os) errorFunc progressFunc finishFunc)).

(** [Manager::downloadAPI] *)
Definition downloadAPI (CreateRequest : string -> bool)
    (errorFunc : DownloadErrorFunc) (progressFunc : DownloadProgressFunc)
    (finishFunc : DownloadFinishFunc) : list action :=
  webRequest CreateRequest api_feed
    false errorFunc None
    (Some (release_finish CreateRequest (found ".geode")
             api_message errorFunc progressFunc finishFunc)).

(** ** Notions the statements below use *)

(** The failure outcomes of a request, as the handler tells them apart. *)
Definition is_failure (evt : wxWebRequestEvent) : bool :=
  match GetState evt with
  | State_Completed =>
      negb (IsOk (GetResponse evt)) || negb (GetStatus (GetResponse evt) =? 200)
  | State_Unauthorized | State_Failed | State_Cancelled => true
  | State_Active | State_Idle => false
  end.

(** The event of a request that completed with the given response. *)
Definition completed (res : wxWebResponse) : wxWebRequestEvent :=
  {| GetState := State_Completed; GetResponse := res;
     GetBytesReceived := 0; GetBytesExpectedToReceive := -1 |}.

(** The event of a transfer under way. *)
Definition active (received expected : Z) : wxWebRequestEvent :=
  {| GetState := State_Active;
     GetResponse := {| IsOk := false; GetStatus := 0; AsString := NotJson "" "" |};
     GetBytesReceived := received; GetBytesExpectedToReceive := expected |}.

(** An asset of a release, and a JSON value that describes it. *)
Record asset := { asset_name : string; browser_download_url : string }.

Definition describes (a : json) (d : asset) : Prop :=
  json_at a "name" = inr (JString (asset_name d)) /\
  json_at a "browser_download_url" = inr (JString (browser_download_url d)).

(** A release document with the given tag and assets. *)
Definition is_release (j : json) (tag : string) (assets : list asset) : Prop :=
  json_at j "tag_name" = inr (JString tag) /\
  exists arr, json_at j "assets" = inr arr /\
              Forall2 describes (json_items arr) assets.

Definition ok_response (body : content) : wxWebResponse :=
  {| IsOk := true; GetStatus := 200; AsString := body |}.

(** What the handler of the only request in [acts] does on [evt]. *)
Definition react (acts : list action) (evt : wxWebRequestEvent) : list action :=
  match acts with
  | [RequestStarted _ _ handler] => handler evt
  | _ => []
  end.

Definition is_progress (a : action) : bool :=
  match a with OnProgress _ _ => true | _ => false end.

(** The first asset, in feed order, whose name passes the test. *)
Definition first_match (selects : string -> bool) (assets : list asset)
    : option asset :=
  List.find (fun d => selects (asset_name d)) assets.

(** A record of the state file that lacks one of the two fields. *)
Definition lacks_field (i : json) : Prop :=
  exists members, i = JObject members /\
    (assoc "path" members = None \/ assoc "exe" members = None).

(** The flag values make a bit set: no flag for nothing found, and a
    flag that is not zero for each tool. *)
Definition flags_ok (F : OtherModFlags) : Prop :=
  OMF_None F = 0 /\ OMF_MHv6 F <> 0 /\ OMF_MHv7 F <> 0 /\
  OMF_GDHM F <> 0 /\ OMF_Some F <> 0.

(** The two files of the loader that [uninstallFrom] removes one by one. *)
Definition loader_dlls : list string := ["XInput9_1_0.dll"; "Geode.dll"].

(** An archive that carries one of them at its top level. *)
Definition carries_loader (zip : archive) : Prop :=
  exists e, e ∈ entries zip /\ IsDir e = false /\
            exists name, name ∈ loader_dlls /\ GetName e = [name].

(** * Properties *)

(** ** Paths and their strings *)

Lemma split_no_separator (s : string) :
  no_separator s = true -> split s = [s].
Proof.
  induction s as [|c s IH]; simpl; [done|].
  intros [Hc Hs]%andb_prop. apply negb_true_iff in Hc. rewrite Hc.
  by rewrite (IH Hs).
Qed.

Lemma split_append (x s : string) :
  no_separator x = true ->
  split (x +:+ String separator s) = x :: split s.
Proof.
  induction x as [|c x IH]; simpl.
  - done.
  - intros [Hc Hx]%andb_prop. apply negb_true_iff in Hc. rewrite Hc.
    by rewrite (IH Hx).
Qed.

Lemma string_path_path_string (p : path) :
  path_ok p = true -> string_path (path_string p) = p.
Proof.
  unfold string_path, path_string.
  induction p as [|x p IH]; [done|].
  intros [Hx Hp]%andb_prop. apply andb_prop in Hx as [Hne Hsep].
  destruct p as [|y p].
  - simpl. rewrite (split_no_separator _ Hsep). simpl. by rewrite Hne.
  - change (String.concat "/" (x :: y :: p))
      with (x +:+ String separator (String.concat "/" (y :: p))).
    rewrite (split_append _ _ Hsep). simpl List.filter. rewrite Hne.
    f_equal. by apply IH.
Qed.

Lemma snoc_not_nil (p : path) (x : string) : p ++ [x] <> [].
Proof. by destruct p. Qed.

Lemma parent_path_snoc (p : path) (x : string) : parent_path (p ++ [x]) = p.
Proof. apply removelast_last. Qed.

(** ** The set of installations *)

Lemma Installation_lt_irrefl (x y : Installation) :
  m_path x = m_path y -> ~ Installation_lt x y.
Proof.
  unfold Installation_lt. intros ->. apply (irreflexivity path_lt).
Qed.

Lemma Installation_lt_trans (x y z : Installation) :
  Installation_lt x y -> Installation_lt y z -> Installation_lt x z.
Proof. unfold Installation_lt. apply (transitivity (R := path_lt)). Qed.

Lemma Installation_equiv (x y : Installation) :
  ~ Installation_lt x y -> ~ Installation_lt y x -> m_path x = m_path y.
Proof.
  unfold Installation_lt. intros H1 H2.
  destruct (path_lt_trichotomy (m_path x) (m_path y)) as [?|[?|?]]; done.
Qed.

Lemma set_insert_Forall (P : Installation -> Prop) x s :
  P x -> Forall P s -> Forall P (set_insert x s).
Proof.
  intros Hx. induction 1 as [|y s Hy Hs IH]; simpl.
  - by constructor.
  - repeat case_decide; repeat constructor; auto.
Qed.

Lemma set_insert_ok x s : set_ok s -> set_ok (set_insert x s).
Proof.
  unfold set_ok. induction 1 as [|y s Hs IH Hy]; simpl.
  - repeat constructor.
  - repeat case_decide.
    + constructor; [by constructor|]. constructor; [done|].
      eapply Forall_impl; [exact Hy|]. intros z Hz.
      by eapply Installation_lt_trans.
    + constructor; [done|]. by apply set_insert_Forall.
    + by constructor.
Qed.

Lemma set_of_snoc xs x : set_of (xs ++ [x]) = set_insert x (set_of xs).
Proof. unfold set_of. by rewrite fold_left_app. Qed.

Lemma set_of_ok xs : set_ok (set_of xs).
Proof.
  induction xs as [|x xs IH] using rev_ind.
  - constructor.
  - rewrite set_of_snoc. by apply set_insert_ok.
Qed.

Lemma set_ok_NoDup s : set_ok s -> NoDup (m_path <$> s).
Proof.
  induction 1 as [|y s Hs IH Hy]; simpl; constructor; [|done].
  intros (z & Hp & Hz)%list_elem_of_fmap.
  rewrite Forall_forall in Hy.
  eapply Installation_lt_irrefl; [exact Hp|]. by apply Hy.
Qed.

Lemma set_insert_member x y s :
  set_ok s -> y ∈ s -> m_path y = m_path x -> set_insert x s = s.
Proof.
  induction 1 as [|z s Hs IH Hz]; intros Hin Hp; [by apply elem_of_nil in Hin|].
  simpl. apply elem_of_cons in Hin as [<-|Hin].
  - rewrite !decide_False; [done|..]; by apply Installation_lt_irrefl.
  - rewrite Forall_forall in Hz.
    assert (Installation_lt z x) as Hzx.
    { unfold Installation_lt. rewrite <- Hp. by apply Hz. }
    assert (~ Installation_lt x z) as Hxz.
    { intros ?. eapply (Installation_lt_irrefl z z); [done|].
      by eapply Installation_lt_trans. }
    rewrite decide_False by done. rewrite decide_True by done.
    f_equal. by apply IH.
Qed.

Lemma set_insert_last x s :
  Forall (fun y => Installation_lt y x) s -> set_insert x s = s ++ [x].
Proof.
  induction 1 as [|y s Hy Hs IH]; simpl; [done|].
  assert (~ Installation_lt x y) as Hxy.
  { intros ?. eapply (Installation_lt_irrefl y y); [done|].
    by eapply Installation_lt_trans. }
  rewrite decide_False by done. rewrite decide_True by done.
  by rewrite IH.
Qed.

Lemma set_ok_snoc s x :
  set_ok (s ++ [x]) -> Forall (fun y => Installation_lt y x) s.
Proof.
  induction s as [|y s IH]; simpl; [constructor|].
  intros H. apply StronglySorted_inv in H as [Hs Hy].
  constructor; [|by apply IH].
  rewrite Forall_forall in Hy. apply Hy, elem_of_app. right. by left.
Qed.

Lemma set_ok_app_l s t : set_ok (s ++ t) -> set_ok s.
Proof.
  induction s as [|y s IH]; simpl; [constructor|].
  intros H. apply StronglySorted_inv in H as [Hs Hy].
  constructor; [by apply IH|]. by apply Forall_app in Hy as [? _].
Qed.

(** Inserting the members of a set, from the least on, builds it again. *)
Lemma fold_insert_sorted (pre s : list Installation) :
  set_ok (pre ++ s) ->
  fold_left (fun acc x => set_insert x acc) s pre = pre ++ s.
Proof.
  revert pre. induction s as [|x s IH]; intros pre H; simpl.
  - by rewrite app_nil_r.
  - rewrite set_insert_last.
    + rewrite IH; rewrite <- app_assoc; done.
    + apply set_ok_snoc. apply (set_ok_app_l _ s). by rewrite <- app_assoc.
Qed.

(** *** What the methods do to the set *)

Lemma locate_installations env w :
  m_installations (locate env w) = m_installations (mgr w).
Proof.
  unfold locate. destruct (os env); [|done].
  by destruct (InstallInfo (HKLM_GeodeSDK w)).
Qed.

Lemma load_sdk_installations j m :
  m_installations (load_sdk j m).1 = m_installations m.
Proof.
  unfold load_sdk. destruct (contains j "sdk"); [|done].
  destruct (json_at j "sdk") as [e|sdk]; [done|].
  destruct (is_null sdk); [done|]. by destruct (get_string sdk).
Qed.

Lemma load_installations_ok items m :
  set_ok (m_installations m) ->
  set_ok (m_installations (load_installations items m).1).
Proof.
  revert m. induction items as [|i items IH]; intros m Hm; simpl; [done|].
  destruct (read_installation i) as [e|inst]; [done|].
  apply IH. simpl. by apply set_insert_ok.
Qed.

Lemma load_file_ok data m :
  set_ok (m_installations m) ->
  set_ok (m_installations (load_file data m).1).
Proof.
  intros Hm. unfold load_file. destruct (json_parse data) as [e|j]; [done|].
  unfold load_json. pose proof (load_sdk_installations j m) as Hsdk.
  destruct (load_sdk j m) as [m1 [e|[]]]; simpl in *; [by rewrite Hsdk|].
  destruct (json_at j "installations") as [e|arr]; simpl; [by rewrite Hsdk|].
  apply load_installations_ok. by rewrite Hsdk.
Qed.

Lemma loadData_installations_ok env w :
  set_ok (m_installations (mgr w)) ->
  set_ok (m_installations (mgr (loadData env w).2)).
Proof.
  intros Hw. unfold loadData.
  assert (set_ok (m_installations (locate env w))) as Hm
    by by rewrite locate_installations.
  destruct (disk w !! installJsonPath (locate env w)) as [[mode|data]|]; [done| |done].
  pose proof (load_file_ok data _ Hm) as Hl.
  by destruct (load_file data (locate env w)) as [m1 [e|[]]].
Qed.

Lemma installLoaderFor_installations gdExePath zip w :
  let inst := {| m_path := parent_path gdExePath; m_exe := filename gdExePath |} in
  let w' := (installLoaderFor gdExePath zip w).2 in
  m_installations (mgr w') = m_installations (mgr w) \/
  m_installations (mgr w') = set_insert inst (m_installations (mgr w)).
Proof.
  simpl. unfold installLoaderFor. simpl.
  destruct (unzipTo zip (parent_path gdExePath) (disk w)) as [[[]|msg] fs]; auto.
Qed.

(** C2, as amended: the installation set of the Registry never holds two
    members with the same [executablePath] -- [loadData] and
    [installLoaderFor], the two methods that insert, keep the members
    strictly increasing by path -- and inserting an Installation whose path
    is the one of a member leaves the set as it was: the member already
    there is kept, with its [executableName]. *)
Theorem installations_unique_insert_keeps
    (env : Env) (gdExePath : path) (zip : archive) (w : World) :
  set_ok (m_installations (mgr w)) ->
  NoDup (m_path <$> m_installations (mgr w)) /\
  NoDup (m_path <$> m_installations (mgr (loadData env w).2)) /\
  NoDup (m_path <$> m_installations (mgr (installLoaderFor gdExePath zip w).2)) /\
  set_ok (m_installations (mgr (loadData env w).2)) /\
  set_ok (m_installations (mgr (installLoaderFor gdExePath zip w).2)) /\
  (forall y, y ∈ m_installations (mgr w) -> m_path y = parent_path gdExePath ->
     m_installations (mgr (installLoaderFor gdExePath zip w).2)
     = m_installations (mgr w)).
Proof.
  intros Hw.
  assert (set_ok (m_installations (mgr (installLoaderFor gdExePath zip w).2))) as Hi.
  { destruct (installLoaderFor_installations gdExePath zip w) as [-> | ->];
      [done|by apply set_insert_ok]. }
  pose proof (loadData_installations_ok env w Hw) as Hl.
  repeat split; auto using set_ok_NoDup.
  intros y Hy Hp.
  destruct (installLoaderFor_installations gdExePath zip w) as [-> | ->]; [done|].
  by apply (set_insert_member _ y).
Qed.

Definition GeometryDash : Installation :=
  {| m_path := ["C:"; "GD"]; m_exe := "GeometryDash.exe" |}.

Definition admin_key (value : option string) : wxRegKey :=
  {| InstallInfo := value; Create_ok := true; SetValue_ok := true |}.

Definition empty_zip : archive :=
  {| fis_IsOk := true; zip_IsOk := true; entries := [] |}.

Definition one_installation : World :=
  {| mgr := insert_installation GeometryDash Manager_new;
     disk := ∅; HKLM_GeodeSDK := admin_key None |}.

Definition windows : Env :=
  {| os := Windows; SpecialFolder := ["C:"; "Program Files"];
     UserLocalDataDir := ["C:"; "Users"; "u"; "AppData"; "Local"; "installer"] |}.

Lemma installations_unique_insert_keeps_witness :
  m_installations (mgr (installLoaderFor ["C:"; "GD"; "Other.exe"] empty_zip
                          one_installation).2)
  = m_installations (mgr one_installation).
Proof.
  assert (set_ok (m_installations (mgr one_installation))) as H.
  { apply (bool_decide_unpack _). vm_compute. reflexivity. }
  apply (installations_unique_insert_keeps windows ["C:"; "GD"; "Other.exe"]
           empty_zip one_installation H) with (y := GeometryDash).
  - apply (bool_decide_unpack _). vm_compute. reflexivity.
  - reflexivity.
Defined.

(** C2, as stated, fails: installing again into a directory the Registry
    knows, under another executable name, returns the new Installation
    but the Registry keeps the old record and its name. *)
Lemma insert_existing_path_keeps_old_name :
  (installLoaderFor ["C:"; "GD"; "Other.exe"] empty_zip one_installation).1
  = Ok {| m_path := ["C:"; "GD"]; m_exe := "Other.exe" |} /\
  m_exe <$> m_installations
              (mgr (installLoaderFor ["C:"; "GD"; "Other.exe"] empty_zip
                      one_installation).2)
  = ["GeometryDash.exe"] /\
  m_exe <$> m_installations
              (mgr (installLoaderFor ["C:"; "GD"; "Other.exe"] empty_zip
                      one_installation).2)
  <> ["Other.exe"].
Proof. vm_compute. repeat split; congruence. Qed.

(** ** Loading the state file *)

Lemma locate_sdkInstalled env w :
  m_sdkInstalled (locate env w) = m_sdkInstalled (mgr w).
Proof.
  unfold locate. destruct (os env); [|done].
  by destruct (InstallInfo (HKLM_GeodeSDK w)).
Qed.

Lemma locate_dataLoaded env w :
  m_dataLoaded (locate env w) =
  match os env with
  | Windows => m_dataLoaded (mgr w) || bool_decide (is_Some (InstallInfo (HKLM_GeodeSDK w)))
  | MacOS => true
  end.
Proof.
  unfold locate. destruct (os env); [|done].
  destruct (InstallInfo (HKLM_GeodeSDK w)); simpl; [by rewrite orb_true_r|].
  by rewrite orb_false_r.
Qed.

Lemma lacks_field_throws (i : json) :
  lacks_field i -> exists e, read_installation i = inl e.
Proof.
  intros (members & -> & H). unfold read_installation. simpl.
  destruct (assoc "path" members) as [p|] eqn:Hp; simpl.
  - destruct p; simpl; eauto.
    destruct H as [H|H]; [done|]. rewrite H. simpl. eauto.
  - eauto.
Qed.

Lemma load_installations_app good insts rest m :
  Forall2 (fun g i => read_installation g = inr i) good insts ->
  load_installations (good ++ rest) m =
  load_installations rest (fold_left (fun m i => insert_installation i m) insts m).
Proof.
  intros H. revert m. induction H as [|g i good insts Hg _ IH]; intros m; [done|].
  simpl. rewrite Hg. apply IH.
Qed.

(** C3, as amended: when no state file exists where [loadData] looks for
    it, a fresh Registry loads without error and ends with an empty
    installation set and [sdkInstalled] false; [isFirstTime()] is true
    exactly when, on Windows, the registry holds no pointer to the data
    directory -- with the pointer there, and always on the other target,
    it is false although no file was found. *)
Theorem loadData_missing_file (env : Env) (w : World) :
  fresh (mgr w) ->
  disk w !! installJsonPath (locate env w) = None ->
  (loadData env w).1 = Ok () /\
  m_installations (mgr (loadData env w).2) = [] /\
  m_sdkInstalled (mgr (loadData env w).2) = false /\
  isFirstTime (mgr (loadData env w).2) =
    match os env with
    | Windows => bool_decide (InstallInfo (HKLM_GeodeSDK w) = None)
    | MacOS => false
    end.
Proof.
  intros (Hinst & Hsdk & Hloaded) Hfile. unfold loadData. rewrite Hfile. simpl.
  rewrite locate_installations, locate_sdkInstalled.
  repeat split; try done. unfold isFirstTime. rewrite locate_dataLoaded, Hloaded.
  destruct (os env); [|done]. simpl.
  by destruct (InstallInfo (HKLM_GeodeSDK w)).
Qed.

Definition first_run : World :=
  {| mgr := Manager_new; disk := ∅; HKLM_GeodeSDK := admin_key None |}.

Lemma loadData_missing_file_witness :
  isFirstTime (mgr (loadData windows first_run).2) = true.
Proof.
  apply (loadData_missing_file windows first_run).
  - repeat split.
  - reflexivity.
Defined.

Definition pointer_only : World :=
  {| mgr := Manager_new; disk := ∅;
     HKLM_GeodeSDK := admin_key (Some "C:/Users/u/AppData/Local/GeodeSDK") |}.

(** C3, as stated, fails: the registry pointer is there and the state
    file is not; [loadData] succeeds with nothing installed, and
    [isFirstTime()] is false. *)
Lemma pointer_without_file_not_first_time :
  disk pointer_only !! installJsonPath (locate windows pointer_only) = None /\
  (loadData windows pointer_only).1 = Ok () /\
  m_installations (mgr (loadData windows pointer_only).2) = [] /\
  isFirstTime (mgr (loadData windows pointer_only).2) = false.
Proof. vm_compute. done. Qed.

(** C1, as amended: a state file that is not JSON makes [loadData] return
    an error and leaves the installation set and the SDK flag as they
    were before the call (for a fresh Registry: empty and false).  A file
    that parses but holds a record without ["path"] or ["exe"] makes
    [loadData] return an error as well, and what was read before that
    record stays applied: the SDK fields and every installation that
    precedes it. *)
Theorem loadData_malformed (env : Env) (w : World) (data : content) :
  disk w !! installJsonPath (locate env w) = Some (File data) ->
  (forall bytes msg, data = NotJson bytes msg ->
     loadData env w = (Err (load_error (parse_error msg)), with_mgr (locate env w) w) /\
     m_installations (locate env w) = m_installations (mgr w) /\
     m_sdkInstalled (locate env w) = m_sdkInstalled (mgr w)) /\
  (forall j m1 arr good insts bad rest,
     data = Json j ->
     load_sdk j (locate env w) = (m1, inr ()) ->
     json_at j "installations" = inr arr ->
     json_items arr = good ++ bad :: rest ->
     Forall2 (fun g i => read_installation g = inr i) good insts ->
     lacks_field bad ->
     exists e,
       loadData env w =
       (Err (load_error e),
        with_mgr (fold_left (fun m i => insert_installation i m) insts m1) w)).
Proof.
  intros Hfile. split.
  - intros bytes msg ->. unfold loadData. rewrite Hfile. simpl.
    by rewrite locate_installations, locate_sdkInstalled.
  - intros j m1 arr good insts bad rest -> Hsdk Harr Hitems Hgood Hbad.
    destruct (lacks_field_throws bad Hbad) as [e He]. exists e.
    unfold loadData. rewrite Hfile. unfold load_file, load_json. simpl.
    rewrite Hsdk, Harr, Hitems.
    rewrite (load_installations_app good insts _ _ Hgood). simpl.
    by rewrite He.
Qed.

Definition truncated_state : json :=
  JObject
    [("installations",
      JArray [installation_json GeometryDash;
              JObject [("path", JString "D:/GD")]]);
     ("sdk", JString "C:/SDK")].

Definition damaged_state (data : content) : World :=
  {| mgr := Manager_new;
     disk := {[ ["C:"; "Users"; "u"; "AppData"; "Local"; "GeodeSDK"; "installer.json"]
                := File data ]};
     HKLM_GeodeSDK := admin_key None |}.

Lemma loadData_malformed_witness :
  loadData windows (damaged_state (NotJson "{" "unexpected end of input"))
  = (Err (load_error (parse_error "unexpected end of input")),
     with_mgr (locate windows (damaged_state (NotJson "{" "unexpected end of input")))
       (damaged_state (NotJson "{" "unexpected end of input"))) /\
  exists e,
    loadData windows (damaged_state (Json truncated_state))
    = (Err (load_error e),
       with_mgr (fold_left (fun m i => insert_installation i m) [GeometryDash]
                   (set_sdk ["C:"; "SDK"]
                      (locate windows (damaged_state (Json truncated_state)))))
         (damaged_state (Json truncated_state))).
Proof.
  split.
  - refine (proj1 (proj1 (loadData_malformed windows
             (damaged_state (NotJson "{" "unexpected end of input"))
             (NotJson "{" "unexpected end of input") _) _ _ _)).
    + vm_compute. reflexivity.
    + reflexivity.
  - refine (proj2 (loadData_malformed windows
             (damaged_state (Json truncated_state)) (Json truncated_state) _)
             truncated_state _
             (JArray [installation_json GeometryDash;
                      JObject [("path", JString "D:/GD")]])
             [installation_json GeometryDash] [GeometryDash]
             (JObject [("path", JString "D:/GD")]) [] _ _ _ _ _ _).
    + vm_compute. reflexivity.
    + reflexivity.
    + vm_compute. reflexivity.
    + reflexivity.
    + reflexivity.
    + repeat constructor.
    + eexists. split; [reflexivity|]. right. reflexivity.
Defined.

(** C1, as stated, fails: the second record of the file lacks ["exe"];
    [loadData] returns an error, and the Registry is left with the first
    record inserted and the SDK marked as installed. *)
Lemma missing_field_leaves_partial_state :
  is_ok (loadData windows (damaged_state (Json truncated_state))).1 = false /\
  m_installations (mgr (loadData windows (damaged_state (Json truncated_state))).2)
  = [GeometryDash] /\
  m_sdkInstalled (mgr (loadData windows (damaged_state (Json truncated_state))).2)
  = true /\
  m_sdkDirectory (mgr (loadData windows (damaged_state (Json truncated_state))).2)
  = ["C:"; "SDK"].
Proof. vm_compute. done. Qed.

(** ** Web requests *)

(** C10: with a null error callback, every failure outcome of
    [webRequest] -- the request cannot be created, the response is not
    OK, the status is not 200, unauthorized, failed, cancelled -- is
    dropped: the code performs no action at all, whatever the other two
    callbacks are. *)
Theorem null_error_callback_drops_failures
    (CreateRequest : string -> bool) (url : string) (downloadFile : bool)
    (progressFunc : DownloadProgressFunc) (finishFunc : DownloadFinishFunc)
    (evt : wxWebRequestEvent) :
  (CreateRequest url = false ->
   webRequest CreateRequest url downloadFile None progressFunc finishFunc = []) /\
  (is_failure evt = true ->
   webRequest_handler None progressFunc finishFunc evt = []).
Proof.
  split.
  - intros H. unfold webRequest. by rewrite H.
  - unfold is_failure, webRequest_handler.
    destruct (GetState evt); try done.
    intros [H|H]%orb_prop; rewrite H; [done|].
    by destruct (negb (IsOk (GetResponse evt))).
Qed.

Definition not_found_response : wxWebResponse :=
  {| IsOk := true; GetStatus := 404; AsString := NotJson "Not Found" "syntax error" |}.

Lemma null_error_callback_drops_failures_witness :
  webRequest (fun _ => false) loader_feed false None record_progress record_finish = [] /\
  webRequest_handler None record_progress record_finish (completed not_found_response) = [].
Proof.
  split.
  - apply (null_error_callback_drops_failures (fun _ => false) loader_feed false
             record_progress record_finish (completed not_found_response)).
    reflexivity.
  - apply (null_error_callback_drops_failures (fun _ => false) loader_feed false
             record_progress record_finish (completed not_found_response)).
    reflexivity.
Defined.

(** *** The release document *)

Lemma release_assets_first_match CreateRequest selects msg
    errorFunc progressFunc finishFunc (items : list json) (assets : list asset) :
  Forall2 describes items assets ->
  release_assets CreateRequest selects msg errorFunc progressFunc finishFunc items
  = (match first_match selects assets with
     | Some d => webRequest CreateRequest (browser_download_url d) true
                   errorFunc progressFunc finishFunc
     | None => call_error errorFunc msg
     end, inr ()).
Proof.
  induction 1 as [|a d items assets [Hname Hurl] _ IH]; [done|].
  simpl. rewrite Hname. simpl. unfold first_match. simpl.
  destruct (selects (asset_name d)).
  - by rewrite Hurl.
  - by rewrite IH.
Qed.

Lemma release_finish_first_match CreateRequest selects msg
    errorFunc progressFunc finishFunc (j : json) tag (assets : list asset) :
  is_release j tag assets ->
  release_finish CreateRequest selects msg errorFunc progressFunc finishFunc
    (ok_response (Json j))
  = call_progress progressFunc ("Downloading version " +:+ tag) 0 ++
    match first_match selects assets with
    | Some d => webRequest CreateRequest (browser_download_url d) true
                  errorFunc progressFunc finishFunc
    | None => call_error errorFunc msg
    end.
Proof.
  intros (Htag & arr & Harr & Hassets). unfold release_finish. simpl.
  rewrite Htag. simpl. rewrite Harr. simpl.
  by rewrite (release_assets_first_match _ _ _ _ _ _ _ _ Hassets).
Qed.

Lemma downloadLoader_react os CreateRequest errorFunc progressFunc finishFunc evt :
  CreateRequest loader_feed = true ->
  react (downloadLoader os CreateRequest errorFunc progressFunc finishFunc) evt
  = webRequest_handler errorFunc None
      (Some (release_finish CreateRequest (found (PLATFORM_ASSET_IDENTIFIER os))
               (loader_message os) errorFunc progressFunc finishFunc)) evt.
Proof. intros H. unfold downloadLoader, webRequest. by rewrite H. Qed.

Lemma downloadAPI_react CreateRequest errorFunc progressFunc finishFunc evt :
  CreateRequest api_feed = true ->
  react (downloadAPI CreateRequest errorFunc progressFunc finishFunc) evt
  = webRequest_handler errorFunc None
      (Some (release_finish CreateRequest (found ".geode")
               api_message errorFunc progressFunc finishFunc)) evt.
Proof. intros H. unfold downloadAPI, webRequest. by rewrite H. Qed.

(** C4, as amended: once the release document has arrived, the fetcher
    reports the version and then takes the first asset, in feed order,
    whose name contains the platform identifier (loader) or [.geode]
    (API), and requests exactly that asset's URL as a file download.
    When no asset matches, it calls the error callback, if there is one,
    and starts no request; the message names the platform for the loader
    and is the same on every platform for the API. *)
Theorem release_asset_selection
    (os : Platform) (CreateRequest : string -> bool)
    (errorFunc : DownloadErrorFunc) (progressFunc : DownloadProgressFunc)
    (finishFunc : DownloadFinishFunc)
    (j : json) (tag : string) (assets : list asset) :
  is_release j tag assets ->
  CreateRequest loader_feed = true ->
  CreateRequest api_feed = true ->
  react (downloadLoader os CreateRequest errorFunc progressFunc finishFunc)
    (completed (ok_response (Json j)))
  = call_progress progressFunc ("Downloading version " +:+ tag) 0 ++
    match first_match (found (PLATFORM_ASSET_IDENTIFIER os)) assets with
    | Some d => webRequest CreateRequest (browser_download_url d) true
                  errorFunc progressFunc finishFunc
    | None => call_error errorFunc
                ("No release asset for " +:+ PLATFORM_NAME os +:+ " found")
    end
  /\
  react (downloadAPI CreateRequest errorFunc progressFunc finishFunc)
    (completed (ok_response (Json j)))
  = call_progress progressFunc ("Downloading version " +:+ tag) 0 ++
    match first_match (found ".geode") assets with
    | Some d => webRequest CreateRequest (browser_download_url d) true
                  errorFunc progressFunc finishFunc
    | None => call_error errorFunc "No .geode file release asset found"
    end.
Proof.
  intros Hrel Hloader Hapi. split.
  - rewrite downloadLoader_react by done.
    change (webRequest_handler _ _ _ _) with
      (release_finish CreateRequest (found (PLATFORM_ASSET_IDENTIFIER os))
         (loader_message os) errorFunc progressFunc finishFunc
         (ok_response (Json j))).
    by rewrite (release_finish_first_match _ _ _ _ _ _ _ _ _ Hrel).
  - rewrite downloadAPI_react by done.
    change (webRequest_handler _ _ _ _) with
      (release_finish CreateRequest (found ".geode")
         api_message errorFunc progressFunc finishFunc (ok_response (Json j))).
    by rewrite (release_finish_first_match _ _ _ _ _ _ _ _ _ Hrel).
Qed.

Definition asset_json (name url : string) : json :=
  JObject [("browser_download_url", JString url); ("name", JString name)].

Definition installer_release : json :=
  JObject
    [("assets",
      JArray [asset_json "Installer-win.zip" "https://example.org/Installer-win.zip";
              asset_json "Installer-mac.zip" "https://example.org/Installer-mac.zip"]);
     ("tag_name", JString "v1.0.0")].

Definition installer_assets : list asset :=
  [ {| asset_name := "Installer-win.zip";
       browser_download_url := "https://example.org/Installer-win.zip" |};
    {| asset_name := "Installer-mac.zip";
       browser_download_url := "https://example.org/Installer-mac.zip" |} ].

Lemma release_asset_selection_witness :
  react (downloadLoader Windows (fun _ => true)
           record_error record_progress record_finish)
    (completed (ok_response (Json installer_release)))
  = [OnProgress "Downloading version v1.0.0" 0;
     RequestStarted "https://example.org/Installer-win.zip" true
       (webRequest_handler record_error record_progress record_finish)]
  /\
  react (downloadAPI (fun _ => true) record_error record_progress record_finish)
    (completed (ok_response (Json installer_release)))
  = [OnProgress "Downloading version v1.0.0" 0;
     OnError "No .geode file release asset found"].
Proof.
  apply (release_asset_selection Windows (fun _ => true)
           record_error record_progress record_finish
           installer_release "v1.0.0" installer_assets).
  - split; [reflexivity|]. eexists. split; [reflexivity|].
    repeat constructor.
  - reflexivity.
  - reflexivity.
Defined.

(** C4, as stated, fails: the message the API download reports when no
    asset matches names no platform and is the same on both, and with a
    null error callback nothing is called at all. *)
Lemma api_message_not_platform_specific :
  react (downloadAPI (fun _ => true) record_error record_progress record_finish)
    (completed (ok_response (Json installer_release)))
  = [OnProgress "Downloading version v1.0.0" 0;
     OnError "No .geode file release asset found"] /\
  found (PLATFORM_NAME Windows) "No .geode file release asset found" = false /\
  found (PLATFORM_NAME MacOS) "No .geode file release asset found" = false /\
  react (downloadAPI (fun _ => true) None record_progress record_finish)
    (completed (ok_response (Json installer_release)))
  = [OnProgress "Downloading version v1.0.0" 0].
Proof. vm_compute. done. Qed.

(** With callbacks that only record, the trace for a release without a
    matching asset holds no request. *)
Lemma no_match_no_request os CreateRequest j tag assets :
  is_release j tag assets ->
  CreateRequest loader_feed = true ->
  first_match (found (PLATFORM_ASSET_IDENTIFIER os)) assets = None ->
  react (downloadLoader os CreateRequest record_error record_progress record_finish)
    (completed (ok_response (Json j)))
  = [OnProgress ("Downloading version " +:+ tag) 0;
     OnError ("No release asset for " +:+ PLATFORM_NAME os +:+ " found")].
Proof.
  intros Hrel Hl Hnone. rewrite downloadLoader_react by done.
  change (webRequest_handler _ _ _ _) with
    (release_finish CreateRequest (found (PLATFORM_ASSET_IDENTIFIER os))
       (loader_message os) record_error record_progress record_finish
       (ok_response (Json j))).
  rewrite (release_finish_first_match _ _ _ _ _ _ _ _ _ Hrel).
  by rewrite Hnone.
Qed.

(** *** Progress *)

Lemma release_finish_progress_once CreateRequest selects msg (j : json) tag assets :
  is_release j tag assets ->
  exists rest,
    release_finish CreateRequest selects msg
      record_error record_progress record_finish (ok_response (Json j))
    = OnProgress ("Downloading version " +:+ tag) 0 :: rest /\
    Forall (fun a => is_progress a = false) rest.
Proof.
  intros Hrel. rewrite (release_finish_first_match _ _ _ _ _ _ _ _ _ Hrel).
  simpl. eexists. split; [reflexivity|].
  destruct (first_match selects assets) as [d|]; [|by repeat constructor].
  unfold webRequest. destruct (negb _); by repeat constructor.
Qed.

(** C5, as amended: while a download is under way, the handler calls the
    progress callback with ["Downloading"] and the value of
    [bytesReceived / bytesExpectedToReceive * 100.0] computed in double
    precision and truncated to an integer when the expected size is
    known, and with [("Beginning download", 0)] when it is not.  The
    request for the release document has no progress callback, so it
    reports nothing while it is under way; once the document is parsed,
    one call [("Downloading version <tag>", 0)] is made, and no other
    progress is reported before the download starts. *)
Theorem progress_reports
    (os : Platform) (CreateRequest : string -> bool)
    (errorFunc : DownloadErrorFunc) (progressFunc : DownloadProgressFunc)
    (finishFunc : DownloadFinishFunc) (evt : wxWebRequestEvent)
    (j : json) (tag : string) (assets : list asset) :
  GetState evt = State_Active ->
  is_release j tag assets ->
  CreateRequest loader_feed = true ->
  webRequest_handler errorFunc progressFunc finishFunc evt
  = (if GetBytesExpectedToReceive evt =? -1
     then call_progress progressFunc "Beginning download" 0
     else call_progress progressFunc "Downloading"
            (downloading_percent (GetBytesReceived evt)
               (GetBytesExpectedToReceive evt)))
  /\
  react (downloadLoader os CreateRequest errorFunc progressFunc finishFunc) evt = []
  /\
  exists rest,
    react (downloadLoader os CreateRequest record_error record_progress record_finish)
      (completed (ok_response (Json j)))
    = OnProgress ("Downloading version " +:+ tag) 0 :: rest /\
    Forall (fun a => is_progress a = false) rest.
Proof.
  intros Hactive Hrel Hcreate. repeat split.
  - unfold webRequest_handler. rewrite Hactive.
    destruct progressFunc as [f|]; [done|]. by destruct (_ =? _).
  - rewrite downloadLoader_react by done.
    unfold webRequest_handler. by rewrite Hactive.
  - rewrite downloadLoader_react by done.
    by apply (release_finish_progress_once _ _ _ j tag assets).
Qed.

Lemma progress_reports_witness :
  webRequest_handler record_error record_progress record_finish (active 50 100)
  = [OnProgress "Downloading" 50] /\
  react (downloadLoader Windows (fun _ => true)
           record_error record_progress record_finish) (active 50 100) = [] /\
  exists rest,
    react (downloadLoader Windows (fun _ => true)
             record_error record_progress record_finish)
      (completed (ok_response (Json installer_release)))
    = OnProgress "Downloading version v1.0.0" 0 :: rest /\
    Forall (fun a => is_progress a = false) rest.
Proof.
  apply (progress_reports Windows (fun _ => true)
           record_error record_progress record_finish (active 50 100)
           installer_release "v1.0.0" installer_assets).
  - reflexivity.
  - split; [reflexivity|]. eexists. split; [reflexivity|].
    repeat constructor.
  - reflexivity.
Defined.

(** C5, as stated, fails: with 29 bytes of 100 received the quotient in
    double precision is just below 0.29 and so is its product with 100;
    the handler reports 28, and the exact quotient rounded down is 29. *)
Lemma percent_of_29_in_100_is_28 :
  webRequest_handler record_error record_progress record_finish (active 29 100)
  = [OnProgress "Downloading" 28] /\
  29 * 100 / 100 = 29.
Proof. vm_compute. done. Qed.

(** How far the reported value is from the exact quotient rounded down,
    checked for every transfer of up to 128 bytes: it is that value or
    one less, and it lies between 0 and 100. *)
Definition near_floor (received expected : Z) : bool :=
  let p := downloading_percent received expected in
  let q := received * 100 / expected in
  ((p =? q) || (p =? q - 1)) && (0 <=? p) && (p <=? 100).

Definition near_floor_upto (n : nat) : bool :=
  forallb (fun e =>
    forallb (fun r => near_floor (Z.of_nat r) (Z.of_nat (S e))) (seq 0 (S (S e))))
    (seq 0 n).

Lemma near_floor_upto_128 : near_floor_upto 128 = true.
Proof. vm_compute. reflexivity. Qed.

Lemma near_floor_upto_spec (n received e : nat) :
  near_floor_upto n = true -> (e < n)%nat -> (received <= S e)%nat ->
  near_floor (Z.of_nat received) (Z.of_nat (S e)) = true.
Proof.
  unfold near_floor_upto. intros H He Hr.
  rewrite forallb_forall in H.
  assert (In e (seq 0 n)) as Hin by (apply in_seq; lia).
  specialize (H e Hin). rewrite forallb_forall in H.
  apply H. apply in_seq. lia.
Qed.

Lemma downloading_percent_small (received expected : nat) :
  (received <= expected)%nat -> (0 < expected <= 128)%nat ->
  near_floor (Z.of_nat received) (Z.of_nat expected) = true.
Proof.
  intros Hr He. destruct expected as [|e]; [lia|].
  apply (near_floor_upto_spec 128); [exact near_floor_upto_128|lia..].
Qed.

Example downloading_percent_half : downloading_percent 50 100 = 50.
Proof. vm_compute. reflexivity. Qed.

Example downloading_percent_complete : downloading_percent 2048 2048 = 100.
Proof. vm_compute. reflexivity. Qed.

Example downloading_percent_unknown : 
  webRequest_handler record_error record_progress record_finish (active 0 (-1))
  = [OnProgress "Beginning download" 0].
Proof. vm_compute. reflexivity. Qed.

(** ** The file system *)

Lemma lookup_node_snoc (fs : filesystem) (p : path) (x : string) :
  lookup_node fs (p ++ [x]) = fs !! (p ++ [x]).
Proof. unfold lookup_node. by destruct p. Qed.

Lemma fs_exists_snoc (fs : filesystem) (p : path) (x : string) :
  fs_exists fs (p ++ [x]) = bool_decide (is_Some (fs !! (p ++ [x]))).
Proof. unfold fs_exists. by rewrite lookup_node_snoc. Qed.

Lemma fs_exists_snoc_true (fs : filesystem) (p : path) (x : string) :
  fs_exists fs (p ++ [x]) = true <-> is_Some (fs !! (p ++ [x])).
Proof. rewrite fs_exists_snoc. apply bool_decide_eq_true. Qed.

Lemma fs_exists_snoc_false (fs : filesystem) (p : path) (x : string) :
  fs_exists fs (p ++ [x]) = false <-> fs !! (p ++ [x]) = None.
Proof.
  rewrite fs_exists_snoc, bool_decide_eq_false. by rewrite eq_None_not_Some.
Qed.

Lemma Mkdir_from_subseteq (cur dirs : path) (mode : Z) (fs : filesystem) :
  fs ⊆ (Mkdir_from cur dirs mode fs).2.
Proof.
  revert cur fs. induction dirs as [|d dirs IH]; intros cur fs; simpl; [done|].
  destruct (fs !! (cur ++ [d])) as [[m|data]|] eqn:Hd; [apply IH|done|].
  etrans; [|apply IH]. by apply insert_subseteq.
Qed.

Lemma ensure_dir_subseteq (target : path) (entry : wxZipEntry) (fs : filesystem) :
  fs ⊆ ensure_dir target entry fs.
Proof.
  unfold ensure_dir. destruct (wxDirExists fs _); [done|].
  apply Mkdir_from_subseteq.
Qed.

Lemma unzip_entry_dom (target : path) (entry : wxZipEntry) (fs : filesystem) :
  dom fs ⊆ dom (unzip_entry target entry fs).2.
Proof.
  pose proof (subseteq_dom _ _ (ensure_dir_subseteq target entry fs)) as H.
  unfold unzip_entry.
  destruct (IsDir entry); [done|].
  destruct (negb (CanRead entry)); [done|].
  destruct (negb (can_create _ _)); [done|]. simpl.
  unfold write_file. rewrite dom_insert_L. set_solver.
Qed.

Lemma unzip_entries_dom (target : path) (es : list wxZipEntry) (fs : filesystem) :
  dom fs ⊆ dom (unzip_entries target es fs).2.
Proof.
  revert fs. induction es as [|e es IH]; intros fs; simpl; [done|].
  pose proof (unzip_entry_dom target e fs) as He.
  destruct (unzip_entry target e fs) as [[msg|] fs1]; simpl in *; [done|].
  etrans; [exact He|apply IH].
Qed.

(** Entries are taken in the order of the archive, and nothing is done
    after the first one that fails. *)
Lemma unzip_entries_app (target : path) (pre rest : list wxZipEntry) (fs : filesystem) :
  unzip_entries target (pre ++ rest) fs =
  match unzip_entries target pre fs with
  | (Ok _, fs1) => unzip_entries target rest fs1
  | (Err msg, fs1) => (Err msg, fs1)
  end.
Proof.
  revert fs. induction pre as [|e pre IH]; intros fs; simpl; [done|].
  destruct (unzip_entry target e fs) as [[msg|] fs1]; [done|apply IH].
Qed.

Lemma unzip_entries_written (target : path) (es : list wxZipEntry)
    (fs fs' : filesystem) (e : wxZipEntry) :
  unzip_entries target es fs = (Ok (), fs') ->
  e ∈ es -> IsDir e = false ->
  is_Some (fs' !! (target ++ GetName e)).
Proof.
  revert fs. induction es as [|e' es IH]; intros fs Hrun Hin Hfile;
    [by apply elem_of_nil in Hin|].
  simpl in Hrun.
  destruct (unzip_entry target e' fs) as [[msg|] fs1] eqn:He'; [done|].
  apply elem_of_cons in Hin as [<-|Hin]; [|by eapply IH].
  assert (target ++ GetName e ∈ dom fs1) as Hdom.
  { unfold unzip_entry in He'. rewrite Hfile in He'.
    destruct (negb (CanRead e)); [done|].
    destruct (negb (can_create _ _)); [done|].
    injection He' as <-. unfold write_file. rewrite dom_insert_L. set_solver. }
  apply elem_of_dom.
  pose proof (unzip_entries_dom target es fs1) as Hmono.
  rewrite Hrun in Hmono. simpl in Hmono. set_solver.
Qed.

(** C7: extraction takes the entries in archive order, and at the first
    file entry that cannot be read (the error names the entry) or whose
    destination file cannot be created it returns that error at once:
    the entries after it are not looked at, and the file system is the
    one the entries before it produced, with at most the directory of the
    failing entry added -- nothing is rolled back. *)
Theorem unzip_aborts_at_first_failure
    (zip : archive) (targetLocation : path) (fs fs1 : filesystem)
    (pre post : list wxZipEntry) (entry : wxZipEntry) :
  fis_IsOk zip = true ->
  zip_IsOk zip = true ->
  entries zip = pre ++ entry :: post ->
  unzip_entries targetLocation pre fs = (Ok (), fs1) ->
  IsDir entry = false ->
  CanRead entry = false \/
  can_create (ensure_dir targetLocation entry fs1)
    (targetLocation ++ GetName entry) = false ->
  unzipTo zip targetLocation fs
  = (Err (if CanRead entry
          then "Unable to create file " +:+ dquote +:+
               path_string (targetLocation ++ GetName entry) +:+ dquote
          else "Unable to read the zip entry " +:+ dquote +:+
               path_string (GetName entry) +:+ dquote),
     ensure_dir targetLocation entry fs1) /\
  fs1 ⊆ ensure_dir targetLocation entry fs1 /\
  dom fs ⊆ dom (ensure_dir targetLocation entry fs1).
Proof.
  intros Hfis Hzip Hentries Hpre Hfile Hfail. split; [|split].
  - unfold unzipTo. rewrite Hfis, Hzip, Hentries. simpl.
    rewrite unzip_entries_app, Hpre. simpl.
    unfold unzip_entry. rewrite Hfile.
    destruct Hfail as [Hread|Hcreate].
    + by rewrite Hread.
    + destruct (CanRead entry); simpl; [|done]. by rewrite Hcreate.
  - apply ensure_dir_subseteq.
  - pose proof (unzip_entries_dom targetLocation pre fs) as H1.
    rewrite Hpre in H1. simpl in H1.
    etrans; [exact H1|]. apply subseteq_dom, ensure_dir_subseteq.
Qed.

Definition file_entry (name : path) (readable : bool) (data : string) : wxZipEntry :=
  {| GetName := name; IsDir := false; GetMode := 420; CanRead := readable;
     entry_data := NotJson data "syntax error" |}.

Definition dir_entry (name : path) : wxZipEntry :=
  {| GetName := name; IsDir := true; GetMode := 493; CanRead := true;
     entry_data := NotJson "" "unexpected end of input" |}.

Definition broken_zip : archive :=
  {| fis_IsOk := true; zip_IsOk := true;
     entries := [dir_entry ["geode"];
                 file_entry ["Geode.dll"] true "MZ";
                 file_entry ["XInput9_1_0.dll"] false "MZ";
                 file_entry ["geode"; "readme.txt"] true "hello"] |}.

Lemma unzip_aborts_at_first_failure_witness :
  unzipTo broken_zip ["C:"; "GD"] ∅
  = (Err ("Unable to read the zip entry " +:+ dquote +:+ "XInput9_1_0.dll" +:+ dquote),
     {[ ["C:"] := Dir 493; ["C:"; "GD"] := Dir 493;
        ["C:"; "GD"; "geode"] := Dir 493;
        ["C:"; "GD"; "Geode.dll"] := File (NotJson "MZ" "syntax error") ]}).
Proof.
  refine (eq_trans (proj1 (unzip_aborts_at_first_failure broken_zip ["C:"; "GD"] ∅
            {[ ["C:"] := Dir 493; ["C:"; "GD"] := Dir 493;
               ["C:"; "GD"; "geode"] := Dir 493;
               ["C:"; "GD"; "Geode.dll"] := File (NotJson "MZ" "syntax error") ]}
            [dir_entry ["geode"]; file_entry ["Geode.dll"] true "MZ"]
            [file_entry ["geode"; "readme.txt"] true "hello"]
            (file_entry ["XInput9_1_0.dll"] false "MZ") _ _ _ _ _ _)) _).
  - reflexivity.
  - reflexivity.
  - reflexivity.
  - vm_compute. reflexivity.
  - reflexivity.
  - left. reflexivity.
  - vm_compute. reflexivity.
Defined.

Definition clash_zip : archive :=
  {| fis_IsOk := true; zip_IsOk := true;
     entries := [file_entry ["geode"] true "x";
                 file_entry ["geode"; "readme.txt"] true "hello"] |}.

Example unzip_write_error :
  (unzipTo clash_zip ["C:"; "GD"] ∅).1
  = Err ("Unable to create file " +:+ dquote +:+ "C:/GD/geode/readme.txt" +:+ dquote).
Proof. vm_compute. reflexivity. Qed.

(** ** Uninstalling *)

(** The three removals of [uninstallFrom], on the file system alone. *)
Definition clear_geode (p : path) (fs : filesystem) : filesystem :=
  if fs_exists fs (p ++ ["geode"]) then remove_all (p ++ ["geode"]) fs else fs.

Definition uninstall_files (p : path) (fs : filesystem)
    : thrown (Result unit) * filesystem :=
  match remove_if_exists (p ++ ["XInput9_1_0.dll"]) (clear_geode p fs) with
  | (Throw e, fs) => (Throw e, fs)
  | (Return _, fs) =>
      match remove_if_exists (p ++ ["Geode.dll"]) fs with
      | (Throw e, fs) => (Throw e, fs)
      | (Return _, fs) => (Return (Ok ()), fs)
      end
  end.

Lemma uninstallFrom_files inst w :
  uninstallFrom inst w =
  ((uninstall_files (m_path inst) (disk w)).1,
   with_disk (uninstall_files (m_path inst) (disk w)).2 w).
Proof.
  unfold uninstallFrom, uninstall_files, clear_geode.
  destruct (remove_if_exists _ _) as [[b|e] fs1]; [|done].
  by destruct (remove_if_exists _ fs1) as [[b'|e] fs2].
Qed.

Lemma remove_all_lookup (p : path) (fs : filesystem) : remove_all p fs !! p = None.
Proof.
  unfold remove_all. apply map_lookup_filter_None. right.
  intros x _ H. by apply H.
Qed.

Lemma remove_all_subseteq (p : path) (fs : filesystem) : remove_all p fs ⊆ fs.
Proof. apply map_filter_subseteq. Qed.

Lemma clear_geode_lookup (p : path) (fs : filesystem) :
  clear_geode p fs !! (p ++ ["geode"]) = None.
Proof.
  unfold clear_geode. destruct (fs_exists fs _) eqn:H.
  - apply remove_all_lookup.
  - by apply fs_exists_snoc_false.
Qed.

Lemma clear_geode_subseteq (p : path) (fs : filesystem) : clear_geode p fs ⊆ fs.
Proof.
  unfold clear_geode. destruct (fs_exists fs _); [apply remove_all_subseteq|done].
Qed.

Lemma clear_geode_absent (p : path) (fs : filesystem) :
  fs !! (p ++ ["geode"]) = None -> clear_geode p fs = fs.
Proof.
  intros H. unfold clear_geode. by rewrite (proj2 (fs_exists_snoc_false _ _ _) H).
Qed.

Lemma remove_subseteq (q : path) (fs : filesystem) : (remove q fs).2 ⊆ fs.
Proof.
  unfold remove. destruct (fs !! q) as [[m|d]|]; simpl; [|apply delete_subseteq|done].
  destruct (has_children fs q); simpl; [done|apply delete_subseteq].
Qed.

Lemma remove_if_exists_subseteq (p : path) (x : string) (fs : filesystem) :
  (remove_if_exists (p ++ [x]) fs).2 ⊆ fs.
Proof.
  unfold remove_if_exists. destruct (fs_exists fs _); [apply remove_subseteq|done].
Qed.

Lemma remove_if_exists_absent (p : path) (x : string) (fs : filesystem) :
  fs !! (p ++ [x]) = None ->
  remove_if_exists (p ++ [x]) fs = (Return false, fs).
Proof.
  intros H. unfold remove_if_exists.
  by rewrite (proj2 (fs_exists_snoc_false _ _ _) H).
Qed.

Lemma remove_if_exists_Return (p : path) (x : string) (fs fs' : filesystem) b :
  remove_if_exists (p ++ [x]) fs = (Return b, fs') -> fs' !! (p ++ [x]) = None.
Proof.
  unfold remove_if_exists. destruct (fs_exists fs _) eqn:Hex.
  - unfold remove. destruct (fs !! (p ++ [x])) as [[m|d]|] eqn:Hq.
    + destruct (has_children fs _); [done|].
      intros [= _ <-]. apply lookup_delete_eq.
    + intros [= _ <-]. apply lookup_delete_eq.
    + by intros [= _ <-].
  - intros [= _ <-]. by apply fs_exists_snoc_false.
Qed.

Lemma remove_if_exists_Throw (p : path) (x : string) (fs fs' : filesystem) e :
  remove_if_exists (p ++ [x]) fs = (Throw e, fs') -> fs' = fs.
Proof.
  unfold remove_if_exists. destruct (fs_exists fs _); [|done].
  unfold remove. destruct (fs !! (p ++ [x])) as [[m|d]|]; [|done..].
  destruct (has_children fs _); [|done]. by intros [= _ <-].
Qed.

Lemma remove_if_exists_not_dir (p : path) (x : string) (fs : filesystem) :
  wxDirExists fs (p ++ [x]) = false ->
  exists b, (remove_if_exists (p ++ [x]) fs).1 = Return b.
Proof.
  unfold wxDirExists. rewrite lookup_node_snoc. intros H.
  unfold remove_if_exists. destruct (fs_exists fs _); [|by eexists].
  unfold remove. destruct (fs !! (p ++ [x])) as [[m|d]|]; [done|by eexists..].
Qed.

Lemma wxDirExists_subseteq (fs fs' : filesystem) (p : path) (x : string) :
  fs' ⊆ fs -> wxDirExists fs (p ++ [x]) = false ->
  wxDirExists fs' (p ++ [x]) = false.
Proof.
  unfold wxDirExists. rewrite !lookup_node_snoc. intros Hsub H.
  destruct (fs' !! (p ++ [x])) as [[m|d]|] eqn:Hq; [|done..].
  by rewrite (lookup_weaken _ _ _ _ Hq Hsub) in H.
Qed.

Lemma lookup_None_subseteq (fs fs' : filesystem) (q : path) :
  fs' ⊆ fs -> fs !! q = None -> fs' !! q = None.
Proof.
  intros Hsub H. destruct (fs' !! q) eqn:Hq; [|done].
  by rewrite (lookup_weaken _ _ _ _ Hq Hsub) in H.
Qed.

Lemma uninstall_files_idempotent (p : path) (fs : filesystem) :
  uninstall_files p (uninstall_files p fs).2 = uninstall_files p fs.
Proof.
  unfold uninstall_files at 2 3.
  pose proof (clear_geode_lookup p fs) as Hg.
  destruct (remove_if_exists (p ++ ["XInput9_1_0.dll"]) (clear_geode p fs))
    as [[b|e] fs2] eqn:HX; simpl.
  - pose proof (remove_if_exists_Return _ _ _ _ _ HX) as HX2.
    pose proof (remove_if_exists_subseteq p "XInput9_1_0.dll" (clear_geode p fs)) as Hs2.
    rewrite HX in Hs2. simpl in Hs2.
    pose proof (lookup_None_subseteq _ _ _ Hs2 Hg) as Hg2.
    destruct (remove_if_exists (p ++ ["Geode.dll"]) fs2) as [[b'|e] fs3] eqn:HG; simpl.
    + pose proof (remove_if_exists_Return _ _ _ _ _ HG) as HG3.
      pose proof (remove_if_exists_subseteq p "Geode.dll" fs2) as Hs3.
      rewrite HG in Hs3. simpl in Hs3.
      unfold uninstall_files.
      rewrite clear_geode_absent by by eapply lookup_None_subseteq.
      rewrite remove_if_exists_absent by by eapply lookup_None_subseteq.
      by rewrite remove_if_exists_absent.
    + pose proof (remove_if_exists_Throw _ _ _ _ _ HG) as ->.
      unfold uninstall_files.
      rewrite clear_geode_absent by done.
      rewrite remove_if_exists_absent by done.
      by rewrite HG.
  - pose proof (remove_if_exists_Throw _ _ _ _ _ HX) as ->.
    unfold uninstall_files.
    rewrite clear_geode_absent by done.
    by rewrite HX.
Qed.

Lemma uninstall_files_succeeds (p : path) (fs : filesystem) :
  (forall name, name ∈ loader_dlls -> wxDirExists fs (p ++ [name]) = false) ->
  (uninstall_files p fs).1 = Return (Ok ()).
Proof.
  intros H. unfold uninstall_files.
  assert (wxDirExists (clear_geode p fs) (p ++ ["XInput9_1_0.dll"]) = false) as HX.
  { eapply wxDirExists_subseteq; [apply clear_geode_subseteq|].
    apply H. unfold loader_dlls. set_solver. }
  destruct (remove_if_exists_not_dir _ _ _ HX) as [b Hb].
  pose proof (remove_if_exists_subseteq p "XInput9_1_0.dll" (clear_geode p fs)) as Hs2.
  destruct (remove_if_exists (p ++ ["XInput9_1_0.dll"]) (clear_geode p fs))
    as [r fs2]; simpl in *; subst r.
  assert (wxDirExists fs2 (p ++ ["Geode.dll"]) = false) as HG.
  { eapply wxDirExists_subseteq; [by etrans; [exact Hs2|apply clear_geode_subseteq]|].
    apply H. unfold loader_dlls. set_solver. }
  destruct (remove_if_exists_not_dir _ _ _ HG) as [b' Hb'].
  destruct (remove_if_exists (p ++ ["Geode.dll"]) fs2) as [r fs3];
    simpl in *; by subst r.
Qed.

Lemma uninstall_files_nothing (p : path) (fs : filesystem) :
  fs !! (p ++ ["geode"]) = None ->
  fs !! (p ++ ["XInput9_1_0.dll"]) = None ->
  fs !! (p ++ ["Geode.dll"]) = None ->
  uninstall_files p fs = (Return (Ok ()), fs).
Proof.
  intros Hg HX HG. unfold uninstall_files.
  rewrite clear_geode_absent by done.
  rewrite remove_if_exists_absent by done.
  by rewrite remove_if_exists_absent.
Qed.

(** C8, as amended: [uninstallFrom] skips what is not there -- with the
    [geode] directory and both DLLs absent it changes nothing and returns
    success -- and returns success whenever neither DLL name is a
    directory; run a second time it gives the same result and leaves the
    file system as the first run left it; and it never touches the
    manager, so the Installation stays in the Registry. *)
Theorem uninstallFrom_idempotent (inst : Installation) (w : World) :
  uninstallFrom inst (uninstallFrom inst w).2 = uninstallFrom inst w /\
  mgr (uninstallFrom inst w).2 = mgr w /\
  ((forall name, name ∈ loader_dlls ->
      wxDirExists (disk w) (m_path inst ++ [name]) = false) ->
   (uninstallFrom inst w).1 = Return (Ok ())) /\
  (fs_exists (disk w) (m_path inst ++ ["geode"]) = false ->
   fs_exists (disk w) (m_path inst ++ ["XInput9_1_0.dll"]) = false ->
   fs_exists (disk w) (m_path inst ++ ["Geode.dll"]) = false ->
   uninstallFrom inst w = (Return (Ok ()), w)).
Proof.
  rewrite !uninstallFrom_files. simpl. repeat split.
  - rewrite uninstall_files_idempotent. done.
  - apply uninstall_files_succeeds.
  - intros Hg HX HG. apply fs_exists_snoc_false in Hg, HX, HG.
    rewrite uninstall_files_nothing by done. by destruct w.
Qed.

Definition installed_world : World :=
  {| mgr := insert_installation GeometryDash Manager_new;
     disk := {[ ["C:"] := Dir 493; ["C:"; "GD"] := Dir 493;
                ["C:"; "GD"; "GeometryDash.exe"] := File (NotJson "MZ" "syntax error");
                ["C:"; "GD"; "geode"] := Dir 493;
                ["C:"; "GD"; "geode"; "mods"] := Dir 493;
                ["C:"; "GD"; "Geode.dll"] := File (NotJson "MZ" "syntax error") ]};
     HKLM_GeodeSDK := admin_key None |}.

(** A game directory without the loader in which the name [Geode.dll]
    is taken by a directory that holds a file. *)
Definition dll_directory_world : World :=
  {| mgr := insert_installation GeometryDash Manager_new;
     disk := {[ ["C:"] := Dir 493; ["C:"; "GD"] := Dir 493;
                ["C:"; "GD"; "GeometryDash.exe"] := File (NotJson "MZ" "syntax error");
                ["C:"; "GD"; "Geode.dll"] := Dir 493;
                ["C:"; "GD"; "Geode.dll"; "notes.txt"] :=
                  File (NotJson "kept" "syntax error") ]};
     HKLM_GeodeSDK := admin_key None |}.

(** C8, as stated, fails: the [geode] directory and [XInput9_1_0.dll]
    are absent and [Geode.dll] is a directory that is not empty; the
    [remove] of it throws, and [uninstallFrom], which has no handler,
    does not return success. *)
Lemma dll_name_taken_by_directory_throws :
  fs_exists (disk dll_directory_world) (m_path GeometryDash ++ ["geode"]) = false /\
  fs_exists (disk dll_directory_world) (m_path GeometryDash ++ ["XInput9_1_0.dll"])
  = false /\
  uninstallFrom GeometryDash dll_directory_world
  = (Throw "remove: C:/GD/Geode.dll", dll_directory_world).
Proof. vm_compute. done. Qed.

Lemma uninstallFrom_idempotent_witness :
  (uninstallFrom GeometryDash installed_world).1 = Return (Ok ()) /\
  uninstallFrom GeometryDash first_run = (Return (Ok ()), first_run).
Proof.
  split.
  - apply (uninstallFrom_idempotent GeometryDash installed_world).
    intros name Hname. unfold loader_dlls in Hname.
    apply elem_of_cons in Hname as [->|Hname]; [vm_compute; reflexivity|].
    apply elem_of_cons in Hname as [->|Hname]; [vm_compute; reflexivity|].
    by apply elem_of_nil in Hname.
  - apply (uninstallFrom_idempotent GeometryDash first_run);
      vm_compute; reflexivity.
Defined.

Example uninstallFrom_removes_payload :
  disk (uninstallFrom GeometryDash installed_world).2
  = {[ ["C:"] := Dir 493; ["C:"; "GD"] := Dir 493;
       ["C:"; "GD"; "GeometryDash.exe"] := File (NotJson "MZ" "syntax error") ]}.
Proof. vm_compute. reflexivity. Qed.

(** ** Other mod loaders *)

Lemma or_if_zero (c : bool) (flag flags : Z) :
  flag <> 0 -> (or_if c flag flags = 0 <-> c = false /\ flags = 0).
Proof.
  intros Hflag. unfold or_if. destruct c.
  - rewrite Z.lor_eq_0_iff. split; [by intros [_ ?]|by intros [? _]].
  - tauto.
Qed.

Lemma land_lor_same (a b : Z) : Z.land (Z.lor a b) b = b.
Proof.
  apply Z.bits_inj'. intros n _. rewrite Z.land_spec, Z.lor_spec.
  by destruct (Z.testbit a n), (Z.testbit b n).
Qed.

Lemma installLoaderFor_Ok gdExePath zip w0 inst w :
  installLoaderFor gdExePath zip w0 = (Ok inst, w) ->
  m_path inst = parent_path gdExePath /\
  unzip_entries (parent_path gdExePath) (entries zip) (disk w0) = (Ok (), disk w).
Proof.
  unfold installLoaderFor, unzipTo. simpl.
  destruct (negb (fis_IsOk zip)); [done|].
  destruct (negb (zip_IsOk zip)); [done|].
  destruct (unzip_entries _ _ _) as [[[]|msg] fs]; [|done].
  by intros [= <- <-].
Qed.

Lemma doesDirectoryContainOtherMods_none env F (path : path) w :
  os env = Windows -> flags_ok F ->
  doesDirectoryContainOtherMods env F path w = OMF_None F <->
  Forall (fun name => fs_exists (disk w) (path ++ [name]) = false) marker_files.
Proof.
  intros Hos (H0 & H6 & H7 & HG & HS).
  unfold doesDirectoryContainOtherMods, marker_files. rewrite Hos, H0.
  rewrite !Forall_cons, Forall_nil.
  rewrite !or_if_zero by done. rewrite !orb_false_iff. tauto.
Qed.

Lemma doesDirectoryContainOtherMods_some env F (path : path) w :
  os env = Windows ->
  fs_exists (disk w) (path ++ ["Geode.dll"]) = true \/
  fs_exists (disk w) (path ++ ["XInput9_1_0.dll"]) = true ->
  Z.land (doesDirectoryContainOtherMods env F path w) (OMF_Some F) = OMF_Some F.
Proof.
  intros Hos H. unfold doesDirectoryContainOtherMods. rewrite Hos.
  assert ((fs_exists (disk w) (path ++ ["Geode.dll"])
           || fs_exists (disk w) (path ++ ["quickldr.dll"])
           || fs_exists (disk w) (path ++ ["GDDLLLoader.dll"])
           || fs_exists (disk w) (path ++ ["ModLdr.dll"])
           || fs_exists (disk w) (path ++ ["minhook.dll"])
           || fs_exists (disk w) (path ++ ["XInput9_1_0.dll"])) = true) as ->.
  { destruct H as [-> | ->]; [done|]. by rewrite !orb_true_r. }
  simpl. apply land_lor_same.
Qed.

(** C9: on Windows, [doesDirectoryContainOtherMods] returns the empty
    flag set exactly when none of the nine marker files is in the
    directory; [Geode.dll] and [XInput9_1_0.dll], which the loader's own
    archive brings, are among them and set [OMF_Some], so the check
    reports a flag set that is not empty for a directory into which
    [installLoaderFor] has just put the loader. *)
Theorem own_loader_counts_as_other_mod
    (env : Env) (F : OtherModFlags) (path : path) (w : World) :
  os env = Windows ->
  flags_ok F ->
  (doesDirectoryContainOtherMods env F path w = OMF_None F <->
   Forall (fun name => fs_exists (disk w) (path ++ [name]) = false) marker_files) /\
  (fs_exists (disk w) (path ++ ["Geode.dll"]) = true \/
   fs_exists (disk w) (path ++ ["XInput9_1_0.dll"]) = true ->
   Z.land (doesDirectoryContainOtherMods env F path w) (OMF_Some F) = OMF_Some F) /\
  (forall gdExePath zip w0 inst,
     carries_loader zip ->
     installLoaderFor gdExePath zip w0 = (Ok inst, w) ->
     path = m_path inst ->
     doesDirectoryContainOtherMods env F path w <> OMF_None F).
Proof.
  intros Hos HF. split; [by apply doesDirectoryContainOtherMods_none|].
  split; [by apply doesDirectoryContainOtherMods_some|].
  intros gdExePath zip w0 inst (e & He & Hfile & name & Hname & Hn) Hinst ->.
  apply installLoaderFor_Ok in Hinst as [-> Hunzip].
  pose proof (unzip_entries_written _ _ _ _ e Hunzip He Hfile) as Hex.
  rewrite Hn in Hex. apply fs_exists_snoc_true in Hex.
  rewrite doesDirectoryContainOtherMods_none by done.
  unfold marker_files. rewrite !Forall_cons, Forall_nil.
  unfold loader_dlls in Hname.
  intros (?&?&?&?&?&?&?&?&?&_).
  apply elem_of_cons in Hname as [->|Hname]; [congruence|].
  apply elem_of_cons in Hname as [->|Hname]; [congruence|].
  by apply elem_of_nil in Hname.
Qed.

Definition bit_flags : OtherModFlags :=
  {| OMF_None := 0; OMF_MHv6 := 1; OMF_MHv7 := 2; OMF_GDHM := 4; OMF_Some := 8 |}.

Definition loader_zip : archive :=
  {| fis_IsOk := true; zip_IsOk := true;
     entries := [dir_entry ["geode"];
                 file_entry ["Geode.dll"] true "MZ";
                 file_entry ["XInput9_1_0.dll"] true "MZ"] |}.

Lemma own_loader_counts_as_other_mod_witness :
  Z.land
    (doesDirectoryContainOtherMods windows bit_flags ["C:"; "GD"]
       (installLoaderFor ["C:"; "GD"; "GeometryDash.exe"] loader_zip first_run).2)
    (OMF_Some bit_flags) = OMF_Some bit_flags /\
  doesDirectoryContainOtherMods windows bit_flags ["C:"; "GD"]
    (installLoaderFor ["C:"; "GD"; "GeometryDash.exe"] loader_zip first_run).2
  <> OMF_None bit_flags.
Proof.
  assert (flags_ok bit_flags) as HF by (unfold flags_ok; simpl; lia).
  split.
  - apply (own_loader_counts_as_other_mod windows bit_flags ["C:"; "GD"]
             (installLoaderFor ["C:"; "GD"; "GeometryDash.exe"] loader_zip first_run).2
             eq_refl HF).
    left. vm_compute. reflexivity.
  - refine (proj2 (proj2 (own_loader_counts_as_other_mod windows bit_flags ["C:"; "GD"]
              (installLoaderFor ["C:"; "GD"; "GeometryDash.exe"] loader_zip first_run).2
              eq_refl HF))
            ["C:"; "GD"; "GeometryDash.exe"] loader_zip first_run
            {| m_path := ["C:"; "GD"]; m_exe := "GeometryDash.exe" |} _ _ _).
    + exists (file_entry ["Geode.dll"] true "MZ"). split; [|split].
      * unfold loader_zip. simpl. set_solver.
      * reflexivity.
      * exists "Geode.dll". split; [|reflexivity]. unfold loader_dlls. set_solver.
    + vm_compute. reflexivity.
    + reflexivity.
Defined.

Example fresh_directory_has_no_flags :
  doesDirectoryContainOtherMods windows bit_flags ["C:"; "GD"] first_run = 0.
Proof. vm_compute. reflexivity. Qed.

Example installed_directory_has_some :
  doesDirectoryContainOtherMods windows bit_flags ["C:"; "GD"]
    (installLoaderFor ["C:"; "GD"; "GeometryDash.exe"] loader_zip first_run).2 = 8.
Proof. vm_compute. reflexivity. Qed.

(** ** Saving and loading again *)

Lemma read_installation_json (i : Installation) :
  path_ok (m_path i) = true ->
  read_installation (installation_json i) = inr i.
Proof.
  intros Hp. unfold read_installation, installation_json. simpl.
  rewrite (string_path_path_string _ Hp). by destruct i.
Qed.

Lemma load_installations_json (s : list Installation) (m : Manager) :
  Forall (fun i => path_ok (m_path i) = true) s ->
  load_installations (installation_json <$> s) m =
  (fold_left (fun m i => insert_installation i m) s m, inr ()).
Proof.
  intros H. revert m. induction H as [|i s Hi _ IH]; intros m; [done|].
  rewrite fmap_cons. cbn [load_installations].
  rewrite (read_installation_json _ Hi). apply IH.
Qed.

Lemma fold_insert_installation (s : list Installation) (m : Manager) :
  fold_left (fun m i => insert_installation i m) s m =
  {| m_sdkDirectory := m_sdkDirectory m; m_sdkInstalled := m_sdkInstalled m;
     m_dataDirectory := m_dataDirectory m;
     m_installations := fold_left (fun acc x => set_insert x acc) s (m_installations m);
     m_dataLoaded := m_dataLoaded m |}.
Proof.
  revert m. induction s as [|i s IH]; intros m; simpl.
  - by destruct m.
  - by rewrite IH.
Qed.

(** What a successful [saveData] leaves behind. *)
Lemma saveData_Ok env w w1 :
  saveData env w = (Return (Ok ()), w1) ->
  mgr w1 = mgr w /\
  disk w1 !! installJsonPath (mgr w) = Some (File (Json (save_json (mgr w)))) /\
  (os env = Windows ->
   InstallInfo (HKLM_GeodeSDK w1) = Some (path_string (m_dataDirectory (mgr w)))).
Proof.
  assert (forall w0 w1, save_file env w0 = (Ok (), w1) ->
            mgr w1 = mgr w0 /\
            disk w1 !! installJsonPath (mgr w0)
              = Some (File (Json (save_json (mgr w0)))) /\
            (os env = Windows ->
             InstallInfo (HKLM_GeodeSDK w1)
               = Some (path_string (m_dataDirectory (mgr w0))))) as Hfile.
  { intros w0 w2. unfold save_file, save_registry.
    destruct (negb (can_create _ _)); [done|].
    destruct (os env).
    - destruct (negb (Create_ok _)); [done|].
      destruct (negb (SetValue_ok _)); [done|].
      intros [= <-]. simpl. split; [done|]. split; [|done].
      unfold write_file. apply lookup_insert_eq.
    - intros [= <-]. simpl. split; [done|]. split; [|done].
      unfold write_file. apply lookup_insert_eq. }
  unfold saveData. destruct (fs_exists _ _).
  - destruct (save_file env w) as [r w'] eqn:Hs. intros [= -> ->].
    by apply Hfile.
  - destruct (create_directories _ _) as [[[]|e] fs]; [|done..].
    destruct (save_file env (with_disk fs w)) as [r w'] eqn:Hs. intros [= -> ->].
    by apply Hfile in Hs.
Qed.

Lemma load_save_json (m m0 : Manager) :
  Forall (fun i => path_ok (m_path i) = true) (m_installations m) ->
  (m_sdkInstalled m = true -> path_ok (m_sdkDirectory m) = true) ->
  load_json (save_json m) m0 =
  (fold_left (fun m i => insert_installation i m) (m_installations m)
     (if m_sdkInstalled m then set_sdk (m_sdkDirectory m) m0 else m0),
   inr ()).
Proof.
  intros Hpaths Hsdk. unfold load_json, save_json, load_sdk.
  destruct (m_sdkInstalled m); simpl.
  - rewrite (string_path_path_string _ (Hsdk eq_refl)).
    by rewrite (load_installations_json _ _ Hpaths).
  - by rewrite (load_installations_json _ _ Hpaths).
Qed.

(** A state [saveData] can write so that [loadData] finds it again: the
    installations are a set, every path is made of proper components,
    and on the target without registry pointer the data directory is the
    default one, the only place [loadData] looks at. *)
Definition valid_state (env : Env) (m : Manager) : Prop :=
  set_ok (m_installations m) /\
  Forall (fun i => path_ok (m_path i) = true) (m_installations m) /\
  path_ok (m_dataDirectory m) = true /\
  (m_sdkInstalled m = true -> path_ok (m_sdkDirectory m) = true) /\
  (os env = MacOS -> m_dataDirectory m = getDefaultDataDirectory env).

(** C6: when [saveData] succeeds on a valid state, [loadData] on a fresh
    Registry succeeds and reads the state back: the same installation
    set, the same [sdkInstalled], the saved SDK path when the SDK was
    installed (the default one when it was not), and the same data
    directory. *)
Theorem save_load_roundtrip (env : Env) (w w1 : World) (m0 : Manager) :
  valid_state env (mgr w) ->
  fresh m0 ->
  saveData env w = (Return (Ok ()), w1) ->
  loadData env (with_mgr m0 w1) =
  (Ok (),
   with_mgr
     {| m_sdkDirectory :=
          if m_sdkInstalled (mgr w) then m_sdkDirectory (mgr w)
          else getDefaultSDKDirectory env;
        m_sdkInstalled := m_sdkInstalled (mgr w);
        m_dataDirectory := m_dataDirectory (mgr w);
        m_installations := m_installations (mgr w);
        m_dataLoaded := true |} w1).
Proof.
  intros (Hset & Hpaths & Hdata & Hsdk & Hmac) (Hinst0 & Hsdk0 & _) Hsave.
  apply saveData_Ok in Hsave as (_ & Hfile & Hreg).
  assert (locate env (with_mgr m0 w1) =
          {| m_sdkDirectory := getDefaultSDKDirectory env;
             m_sdkInstalled := false;
             m_dataDirectory := m_dataDirectory (mgr w);
             m_installations := [];
             m_dataLoaded := true |}) as Hloc.
  { unfold locate. simpl. destruct (os env) eqn:Hos.
    - rewrite (Hreg eq_refl). unfold set_dataDirectory_loaded. simpl.
      by rewrite (string_path_path_string _ Hdata), Hinst0, Hsdk0.
    - unfold set_dataLoaded. simpl. by rewrite (Hmac eq_refl), Hinst0, Hsdk0. }
  unfold loadData. rewrite Hloc. simpl disk.
  unfold installJsonPath in *. simpl m_dataDirectory. rewrite Hfile.
  unfold load_file. simpl json_parse. cbv iota.
  rewrite (load_save_json _ _ Hpaths Hsdk).
  rewrite fold_insert_installation.
  destruct (m_sdkInstalled (mgr w)); simpl;
    by rewrite (fold_insert_sorted [] _ Hset).
Qed.

Definition saved_world : World :=
  {| mgr := {| m_sdkDirectory := ["C:"; "Program Files"; "GeodeSDK"];
               m_sdkInstalled := true;
               m_dataDirectory := ["C:"; "Users"; "u"; "AppData"; "Local"; "GeodeSDK"];
               m_installations :=
                 [GeometryDash; {| m_path := ["D:"; "Steam"; "GD"]; m_exe := "GD.exe" |}];
               m_dataLoaded := false |};
     disk := ∅;
     HKLM_GeodeSDK := admin_key None |}.

Lemma save_load_roundtrip_witness :
  mgr (loadData windows (with_mgr Manager_new (saveData windows saved_world).2)).2
  = {| m_sdkDirectory := ["C:"; "Program Files"; "GeodeSDK"];
       m_sdkInstalled := true;
       m_dataDirectory := ["C:"; "Users"; "u"; "AppData"; "Local"; "GeodeSDK"];
       m_installations :=
         [GeometryDash; {| m_path := ["D:"; "Steam"; "GD"]; m_exe := "GD.exe" |}];
       m_dataLoaded := true |}.
Proof.
  rewrite (save_load_roundtrip windows saved_world (saveData windows saved_world).2
             Manager_new).
  - reflexivity.
  - unfold valid_state. split; [|split; [|split; [|split]]].
    + apply (bool_decide_unpack _). vm_compute. reflexivity.
    + apply (bool_decide_unpack _). vm_compute. reflexivity.
    + vm_compute. reflexivity.
    + intros _. vm_compute. reflexivity.
    + intros H. discriminate H.
  - repeat split.
  - vm_compute. reflexivity.
Defined.

(** * Further properties *)

(** ** Inserting into the set *)

Lemma set_insert_keeps (x y : Installation) (s : list Installation) :
  y ∈ s -> y ∈ set_insert x s.
Proof.
  induction s as [|z s IH]; intros Hin; [by apply elem_of_nil in Hin|].
  simpl. repeat case_decide.
  - by right.
  - apply elem_of_cons in Hin as [->|Hin]; [by left|]. right. by apply IH.
  - done.
Qed.

Lemma set_insert_from (x z : Installation) (s : list Installation) :
  z ∈ set_insert x s -> z = x \/ z ∈ s.
Proof.
  induction s as [|y s IH]; simpl.
  - intros ->%list_elem_of_singleton. by left.
  - repeat case_decide.
    + intros [->|Hin]%elem_of_cons; [by left|by right].
    + intros [->|Hin]%elem_of_cons; [right; by left|].
      destruct (IH Hin) as [->|?]; [by left|right; by right].
    + by right.
Qed.

Lemma set_insert_has_path (x : Installation) (s : list Installation) :
  exists y, y ∈ set_insert x s /\ m_path y = m_path x.
Proof.
  induction s as [|z s (y & Hy & Hp)]; simpl.
  - exists x. split; [by left|done].
  - repeat case_decide.
    + exists x. split; [by left|done].
    + exists y. split; [by right|done].
    + exists z. split; [by left|]. symmetry. by apply Installation_equiv.
Qed.

(** X1.  [installLoaderFor] either fails, with the error of the
    extraction behind the prefix ["Loader unzip error: "] and the manager
    as it was, or returns the Installation made of the directory and the
    file name of the executable; then the Registry holds a record for
    that directory, every record it held before is still there, and it
    holds nothing else but, possibly, the new Installation.  The Windows
    registry is not touched either way. *)
Theorem installLoaderFor_outcome (gdExePath : path) (zip : archive) (w : World) :
  HKLM_GeodeSDK (installLoaderFor gdExePath zip w).2 = HKLM_GeodeSDK w /\
  match (installLoaderFor gdExePath zip w).1 with
  | Err msg =>
      mgr (installLoaderFor gdExePath zip w).2 = mgr w /\
      exists e, (unzipTo zip (parent_path gdExePath) (disk w)).1 = Err e /\
                msg = "Loader unzip error: " +:+ e
  | Ok inst =>
      inst = {| m_path := parent_path gdExePath; m_exe := filename gdExePath |} /\
      (exists y, y ∈ m_installations (mgr (installLoaderFor gdExePath zip w).2) /\
                 m_path y = parent_path gdExePath) /\
      (forall y, y ∈ m_installations (mgr w) ->
                 y ∈ m_installations (mgr (installLoaderFor gdExePath zip w).2)) /\
      (forall z, z ∈ m_installations (mgr (installLoaderFor gdExePath zip w).2) ->
                 z = inst \/ z ∈ m_installations (mgr w))
  end.
Proof.
  unfold installLoaderFor. simpl.
  destruct (unzipTo zip (parent_path gdExePath) (disk w)) as [[[]|e] fs]; simpl.
  - split; [done|]. split; [done|]. split; [apply set_insert_has_path|].
    split; [intros y; apply set_insert_keeps|intros z; apply set_insert_from].
  - split; [done|]. split; [done|]. by exists e.
Qed.

(** ** Extraction *)

Lemma Mkdir_from_lookup (cur dirs : path) (mode : Z) (fs : filesystem)
    (p : path) (n : node) :
  fs !! p = Some n -> (Mkdir_from cur dirs mode fs).2 !! p = Some n.
Proof.
  intros H. eapply lookup_weaken; [exact H|apply Mkdir_from_subseteq].
Qed.

Lemma ensure_dir_lookup (target : path) (entry : wxZipEntry) (fs : filesystem)
    (p : path) (n : node) :
  fs !! p = Some n -> ensure_dir target entry fs !! p = Some n.
Proof.
  intros H. eapply lookup_weaken; [exact H|apply ensure_dir_subseteq].
Qed.

Lemma wxDirExists_lookup (fs : filesystem) (p : path) (m : Z) :
  fs !! p = Some (Dir m) -> wxDirExists fs p = true.
Proof.
  unfold wxDirExists, lookup_node. intros H. destruct p; [done|]. by rewrite H.
Qed.

Lemma can_create_not_dir (fs : filesystem) (p : path) (m : Z) :
  fs !! p = Some (Dir m) -> can_create fs p = false.
Proof.
  intros H. unfold can_create. destruct p; [done|].
  rewrite (wxDirExists_lookup _ _ _ H). apply andb_false_r.
Qed.

(** A turn of the loop leaves every directory as it is and every file a
    file. *)
Lemma unzip_entry_Dir (target : path) (entry : wxZipEntry) (fs : filesystem)
    (p : path) (m : Z) :
  fs !! p = Some (Dir m) -> (unzip_entry target entry fs).2 !! p = Some (Dir m).
Proof.
  intros H. apply (ensure_dir_lookup target entry) in H.
  unfold unzip_entry.
  destruct (IsDir entry); [done|].
  destruct (negb (CanRead entry)); [done|].
  destruct (negb (can_create _ _)) eqn:Hc; [done|]. simpl.
  unfold write_file. rewrite lookup_insert_ne; [done|].
  intros <-. rewrite (can_create_not_dir _ _ _ H) in Hc. done.
Qed.

Lemma unzip_entry_File (target : path) (entry : wxZipEntry) (fs : filesystem)
    (p : path) (d : content) :
  fs !! p = Some (File d) ->
  exists d', (unzip_entry target entry fs).2 !! p = Some (File d').
Proof.
  intros H. apply (ensure_dir_lookup target entry) in H.
  unfold unzip_entry.
  destruct (IsDir entry); [by eexists|].
  destruct (negb (CanRead entry)); [by eexists|].
  destruct (negb (can_create _ _)); [by eexists|]. simpl.
  unfold write_file.
  destruct (decide (target ++ GetName entry = p)) as [<-|Hne].
  - rewrite lookup_insert_eq. by eexists.
  - rewrite lookup_insert_ne by done. by eexists.
Qed.

Lemma unzip_entries_Dir (target : path) (es : list wxZipEntry) (fs : filesystem)
    (p : path) (m : Z) :
  fs !! p = Some (Dir m) -> (unzip_entries target es fs).2 !! p = Some (Dir m).
Proof.
  revert fs. induction es as [|e es IH]; intros fs H; simpl; [done|].
  pose proof (unzip_entry_Dir target e fs p m H) as He.
  destruct (unzip_entry target e fs) as [[msg|] fs1]; simpl in *; [done|].
  by apply IH.
Qed.

Lemma unzip_entries_File (target : path) (es : list wxZipEntry) (fs : filesystem)
    (p : path) (d : content) :
  fs !! p = Some (File d) ->
  exists d', (unzip_entries target es fs).2 !! p = Some (File d').
Proof.
  revert fs d. induction es as [|e es IH]; intros fs d H; simpl; [by eexists|].
  destruct (unzip_entry_File target e fs p d H) as [d1 He].
  destruct (unzip_entry target e fs) as [[msg|] fs1]; simpl in *; [by eexists|].
  by eapply IH.
Qed.

Lemma unzipTo_entries (zip : archive) (target : path) (fs : filesystem) :
  unzipTo zip target fs = (Err "Unable to open zip", fs) \/
  unzipTo zip target fs = (Err "Unable to read zip", fs) \/
  unzipTo zip target fs = unzip_entries target (entries zip) fs.
Proof.
  unfold unzipTo. destruct (fis_IsOk zip); simpl; [|by left].
  destruct (zip_IsOk zip); simpl; [|right; by left]. right. by right.
Qed.

(** X2.  Whatever its outcome, [unzipTo] removes nothing: every
    directory is still there with its mode, every file is still a file
    (its content may have been replaced by an entry of the same name), and
    so every path that existed exists. *)
Theorem unzipTo_removes_nothing (zip : archive) (target : path) (fs : filesystem) :
  (forall p m, fs !! p = Some (Dir m) ->
     (unzipTo zip target fs).2 !! p = Some (Dir m)) /\
  (forall p d, fs !! p = Some (File d) ->
     exists d', (unzipTo zip target fs).2 !! p = Some (File d')) /\
  dom fs ⊆ dom (unzipTo zip target fs).2.
Proof.
  destruct (unzipTo_entries zip target fs) as [-> | [-> | ->]]; simpl.
  - split; [done|]. split; [by eexists|done].
  - split; [done|]. split; [by eexists|done].
  - split; [intros p m; apply unzip_entries_Dir|].
    split; [intros p d; apply unzip_entries_File|apply unzip_entries_dom].
Qed.

(** One file system extends another when it keeps its directories, with
    their modes, and has a file wherever the other has one. *)
Definition extends (fs1 fs2 : filesystem) : Prop :=
  (forall p m, fs1 !! p = Some (Dir m) -> fs2 !! p = Some (Dir m)) /\
  (forall p d, fs1 !! p = Some (File d) -> exists d', fs2 !! p = Some (File d')).

Lemma extends_refl (fs : filesystem) : extends fs fs.
Proof. split; [done|]. intros p d H. by exists d. Qed.

Lemma extends_trans (fs1 fs2 fs3 : filesystem) :
  extends fs1 fs2 -> extends fs2 fs3 -> extends fs1 fs3.
Proof.
  intros [D1 F1] [D2 F2]. split.
  - intros p m H. by apply D2, D1.
  - intros p d H. destruct (F1 p d H) as [d' H']. by apply (F2 p d').
Qed.

Lemma extends_wxDirExists (fs1 fs2 : filesystem) (p : path) :
  extends fs1 fs2 -> wxDirExists fs1 p = true -> wxDirExists fs2 p = true.
Proof.
  intros [D _]. unfold wxDirExists, lookup_node. destruct p as [|c p]; [done|].
  destruct (fs1 !! (c :: p)) as [[m|d]|] eqn:H; [|done..].
  intros _. by rewrite (D _ _ H).
Qed.

Lemma extends_not_dir (fs1 fs2 : filesystem) (p : path) (d : content) :
  extends fs1 fs2 -> fs1 !! p = Some (File d) -> p <> [] ->
  wxDirExists fs2 p = false.
Proof.
  intros [_ F] H Hp. destruct (F p d H) as [d' H'].
  unfold wxDirExists, lookup_node. destruct p; [done|]. by rewrite H'.
Qed.

Lemma subseteq_extends (fs1 fs2 : filesystem) : fs1 ⊆ fs2 -> extends fs1 fs2.
Proof.
  intros Hsub. split.
  - intros p m H. by eapply lookup_weaken.
  - intros p d H. exists d. by eapply lookup_weaken.
Qed.

Lemma unzip_entry_extends (target : path) (entry : wxZipEntry) (fs : filesystem) :
  extends fs (unzip_entry target entry fs).2.
Proof.
  split.
  - intros p m. apply unzip_entry_Dir.
  - intros p d. apply unzip_entry_File.
Qed.

Lemma unzip_entries_extends (target : path) (es : list wxZipEntry) (fs : filesystem) :
  extends fs (unzip_entries target es fs).2.
Proof.
  split.
  - intros p m. apply unzip_entries_Dir.
  - intros p d. apply unzip_entries_File.
Qed.

Lemma parent_path_neq (p : path) : p <> [] -> parent_path p <> p.
Proof.
  intros Hp Heq. apply (f_equal length) in Heq.
  destruct (exists_last Hp) as (q & x & ->).
  rewrite parent_path_snoc, length_app in Heq. simpl in Heq. lia.
Qed.

Lemma can_create_true (fs : filesystem) (p : path) :
  can_create fs p = true ->
  p <> [] /\ wxDirExists fs (parent_path p) = true /\ wxDirExists fs p = false.
Proof.
  unfold can_create. destruct p as [|c p]; [done|].
  intros [H1 H2]%andb_prop. apply negb_true_iff in H2. done.
Qed.

(** What a turn of the loop that goes through did. *)
Lemma unzip_entry_None (target : path) (entry : wxZipEntry) (fs fs1 : filesystem) :
  unzip_entry target entry fs = (None, fs1) ->
  if IsDir entry then fs1 = ensure_dir target entry fs
  else CanRead entry = true /\
       can_create (ensure_dir target entry fs) (target ++ GetName entry) = true /\
       fs1 = write_file (target ++ GetName entry) (entry_data entry)
               (ensure_dir target entry fs).
Proof.
  unfold unzip_entry. destruct (IsDir entry); [by intros [= <-]|].
  destruct (CanRead entry); simpl; [|done].
  destruct (can_create _ _); simpl; [|done]. by intros [= <-].
Qed.

Lemma wxDirExists_write_file (fs : filesystem) (p q : path) (d : content) :
  p <> q -> wxDirExists fs q = true -> wxDirExists (write_file p d fs) q = true.
Proof.
  unfold wxDirExists, lookup_node, write_file. intros Hne.
  destruct q; [done|]. by rewrite lookup_insert_ne.
Qed.

Lemma unzip_entries_materialised (target : path) (es : list wxZipEntry)
    (fs fs' : filesystem) (e : wxZipEntry) :
  unzip_entries target es fs = (Ok (), fs') ->
  e ∈ es -> IsDir e = false ->
  (exists d, fs' !! (target ++ GetName e) = Some (File d)) /\
  wxDirExists fs' (parent_path (target ++ GetName e)) = true.
Proof.
  revert fs. induction es as [|e' es IH]; intros fs Hrun Hin Hfile;
    [by apply elem_of_nil in Hin|].
  simpl in Hrun.
  destruct (unzip_entry target e' fs) as [[msg|] fs1] eqn:He'; [done|].
  apply elem_of_cons in Hin as [<-|Hin]; [|by eapply IH].
  apply unzip_entry_None in He'. rewrite Hfile in He'.
  destruct He' as (_ & Hc & ->).
  apply can_create_true in Hc as (Hne & Hparent & _).
  pose proof (unzip_entries_extends target es
                (write_file (target ++ GetName e) (entry_data e)
                   (ensure_dir target e fs))) as Hext.
  rewrite Hrun in Hext. simpl in Hext. split.
  - apply (proj2 Hext _ (entry_data e)). unfold write_file. apply lookup_insert_eq.
  - eapply extends_wxDirExists; [exact Hext|].
    apply wxDirExists_write_file; [|done].
    intros Heq. by apply (parent_path_neq _ Hne).
Qed.

(** X3.  After a successful extraction every file entry of the archive
    is a file under the destination, and the directory it lies in
    exists. *)
Theorem unzipTo_materialises_files
    (zip : archive) (target : path) (fs fs' : filesystem) (e : wxZipEntry) :
  unzipTo zip target fs = (Ok (), fs') ->
  e ∈ entries zip ->
  IsDir e = false ->
  (exists d, fs' !! (target ++ GetName e) = Some (File d)) /\
  wxDirExists fs' (parent_path (target ++ GetName e)) = true.
Proof.
  intros Hrun. destruct (unzipTo_entries zip target fs) as [H | [H | H]];
    rewrite H in Hrun; [done..|].
  by apply (unzip_entries_materialised target (entries zip) fs).
Qed.

Lemma unzipTo_materialises_files_witness :
  (exists d,
     (unzipTo loader_zip ["C:"; "GD"] ∅).2 !! (["C:"; "GD"] ++ ["Geode.dll"])
     = Some (File d)) /\
  wxDirExists (unzipTo loader_zip ["C:"; "GD"] ∅).2
    (parent_path (["C:"; "GD"] ++ ["Geode.dll"])) = true.
Proof.
  apply (unzipTo_materialises_files loader_zip ["C:"; "GD"] ∅
           (unzipTo loader_zip ["C:"; "GD"] ∅).2
           (file_entry ["Geode.dll"] true "MZ")).
  - vm_compute. reflexivity.
  - unfold loader_zip. simpl. set_solver.
  - reflexivity.
Defined.

(** A turn of the loop changes an existing path only by writing the file
    of its own entry. *)
Lemma unzip_entry_other (target : path) (entry : wxZipEntry) (fs : filesystem)
    (p : path) (n : node) :
  fs !! p = Some n ->
  IsDir entry = true \/ GetName entry <> drop (length target) p \/ take (length target) p <> target ->
  (unzip_entry target entry fs).2 !! p = Some n.
Proof.
  intros H Hother. apply (ensure_dir_lookup target entry) in H.
  unfold unzip_entry.
  destruct (IsDir entry); [done|].
  destruct (negb (CanRead entry)); [done|].
  destruct (negb (can_create _ _)); [done|]. simpl.
  unfold write_file. rewrite lookup_insert_ne; [done|].
  intros <-. rewrite drop_app_length, take_app_length in Hother.
  by destruct Hother as [?|[?|?]].
Qed.

Lemma unzip_entries_last_writer (target : path) (es : list wxZipEntry)
    (fs : filesystem) (name : path) (n : node) :
  fs !! (target ++ name) = Some n ->
  (forall e, e ∈ es -> IsDir e = false -> GetName e <> name) ->
  (unzip_entries target es fs).2 !! (target ++ name) = Some n.
Proof.
  revert fs. induction es as [|e es IH]; intros fs H Hnames; simpl; [done|].
  assert ((unzip_entry target e fs).2 !! (target ++ name) = Some n) as He.
  { apply unzip_entry_other; [done|].
    destruct (IsDir e) eqn:Hd; [by left|]. right. left.
    rewrite drop_app_length. apply Hnames; [by left|done]. }
  destruct (unzip_entry target e fs) as [[msg|] fs1]; simpl in *; [done|].
  apply IH; [done|]. intros e' He' Hf. apply Hnames; [by right|done].
Qed.


Definition twice_zip : archive :=
  {| fis_IsOk := true; zip_IsOk := true;
     entries := [file_entry ["readme.txt"] true "first";
                 file_entry ["Geode.dll"] true "MZ";
                 file_entry ["readme.txt"] true "second"] |}.


Lemma unzip_entries_Err (target : path) (es : list wxZipEntry)
    (fs : filesystem) (msg : string) :
  (unzip_entries target es fs).1 = Err msg ->
  exists e, e ∈ es /\ IsDir e = false /\
    (CanRead e = false /\ msg = read_error e \/
     CanRead e = true /\ msg = write_error (target ++ GetName e)).
Proof.
  revert fs. induction es as [|e es IH]; intros fs; simpl; [done|].
  destruct (unzip_entry target e fs) as [[m|] fs1] eqn:He; simpl.
  - intros [= ->]. exists e. split; [by left|].
    unfold unzip_entry in He. destruct (IsDir e); [done|]. split; [done|].
    destruct (CanRead e); simpl in He.
    + right. split; [done|]. destruct (negb (can_create _ _)); [|done].
      by injection He as <- _.
    + left. split; [done|]. by injection He as <- _.
  - intros H. destruct (IH _ H) as (e' & Hin & Hrest).
    exists e'. split; [by right|done].
Qed.

(** X5.  The errors of [unzipTo]: the archive file cannot be opened, it
    cannot be read as a zip, or a file entry cannot be read or its file
    cannot be created.  A directory entry never makes the extraction fail,
    also when its directory could not be made. *)
Theorem unzipTo_errors (zip : archive) (target : path) (fs : filesystem)
    (msg : string) :
  (unzipTo zip target fs).1 = Err msg ->
  fis_IsOk zip = false /\ msg = "Unable to open zip" \/
  zip_IsOk zip = false /\ msg = "Unable to read zip" \/
  exists e, e ∈ entries zip /\ IsDir e = false /\
    (CanRead e = false /\
     msg = "Unable to read the zip entry " +:+ dquote +:+
           path_string (GetName e) +:+ dquote \/
     CanRead e = true /\
     msg = "Unable to create file " +:+ dquote +:+
           path_string (target ++ GetName e) +:+ dquote).
Proof.
  unfold unzipTo. destruct (fis_IsOk zip); simpl; [|intros [= <-]; by left].
  destruct (zip_IsOk zip); simpl; [|intros [= <-]; right; by left].
  intros H. right. right. by apply (unzip_entries_Err target (entries zip) fs).
Qed.

Lemma unzipTo_errors_witness :
  fis_IsOk clash_zip = false /\
  write_error ["C:"; "GD"; "geode"; "readme.txt"] = "Unable to open zip" \/
  zip_IsOk clash_zip = false /\
  write_error ["C:"; "GD"; "geode"; "readme.txt"] = "Unable to read zip" \/
  exists e, e ∈ entries clash_zip /\ IsDir e = false /\
    (CanRead e = false /\
     write_error ["C:"; "GD"; "geode"; "readme.txt"]
     = "Unable to read the zip entry " +:+ dquote +:+
       path_string (GetName e) +:+ dquote \/
     CanRead e = true /\
     write_error ["C:"; "GD"; "geode"; "readme.txt"]
     = "Unable to create file " +:+ dquote +:+
       path_string (["C:"; "GD"] ++ GetName e) +:+ dquote).
Proof.
  apply (unzipTo_errors clash_zip ["C:"; "GD"] ∅
           (write_error ["C:"; "GD"; "geode"; "readme.txt"])).
  vm_compute. reflexivity.
Defined.

(** *** Extracting a second time *)

(** The directories [Mkdir] walks down are there, up to the first name
    that is taken by a file. *)
Fixpoint made (cur : path) (dirs : list string) (fs : filesystem) : Prop :=
  match dirs with
  | [] => True
  | d :: dirs' =>
      match fs !! (cur ++ [d]) with
      | Some (Dir _) => made (cur ++ [d]) dirs' fs
      | Some (File _) => True
      | None => False
      end
  end.

Lemma Mkdir_from_made (cur dirs : path) (mode : Z) (fs : filesystem) :
  made cur dirs (Mkdir_from cur dirs mode fs).2.
Proof.
  revert cur fs. induction dirs as [|d dirs IH]; intros cur fs; simpl; [done|].
  destruct (fs !! (cur ++ [d])) as [[m|dat]|] eqn:Hd.
  - rewrite (Mkdir_from_lookup _ _ _ _ _ _ Hd). apply IH.
  - simpl. by rewrite Hd.
  - rewrite (Mkdir_from_lookup (cur ++ [d]) dirs mode _ (cur ++ [d]) (Dir mode));
      [apply IH|apply lookup_insert_eq].
Qed.

Lemma made_extends (cur dirs : path) (fs1 fs2 : filesystem) :
  extends fs1 fs2 -> made cur dirs fs1 -> made cur dirs fs2.
Proof.
  intros [D F]. revert cur. induction dirs as [|d dirs IH]; intros cur; simpl; [done|].
  destruct (fs1 !! (cur ++ [d])) as [[m|dat]|] eqn:Hd; [| |done].
  - rewrite (D _ _ Hd). apply IH.
  - destruct (F _ _ Hd) as [dat' ->]. done.
Qed.

Lemma made_Mkdir_from (cur dirs : path) (mode : Z) (fs : filesystem) :
  made cur dirs fs -> (Mkdir_from cur dirs mode fs).2 = fs.
Proof.
  revert cur. induction dirs as [|d dirs IH]; intros cur; simpl; [done|].
  destruct (fs !! (cur ++ [d])) as [[m|dat]|]; [apply IH|done..].
Qed.

Lemma ensure_dir_again (target : path) (e : wxZipEntry) (fs S : filesystem) :
  extends (ensure_dir target e fs) S -> ensure_dir target e S = S.
Proof.
  unfold ensure_dir.
  set (dir := if IsDir e then target ++ GetName e
              else parent_path (target ++ GetName e)).
  destruct (wxDirExists fs dir) eqn:Hd; intros Hext.
  - by rewrite (extends_wxDirExists _ _ _ Hext Hd).
  - destruct (wxDirExists S dir); [done|].
    apply made_Mkdir_from. eapply made_extends; [exact Hext|].
    apply Mkdir_from_made.
Qed.

Lemma write_file_extends (fs : filesystem) (p : path) (d : content) :
  p <> [] -> wxDirExists fs p = false -> extends fs (write_file p d fs).
Proof.
  intros Hp Hd. unfold write_file. split.
  - intros q m Hq. rewrite lookup_insert_ne; [done|]. intros <-.
    by rewrite (wxDirExists_lookup _ _ _ Hq) in Hd.
  - intros q dat Hq. destruct (decide (p = q)) as [<-|Hne].
    + rewrite lookup_insert_eq. by eexists.
    + rewrite lookup_insert_ne by done. by eexists.
Qed.

Lemma can_create_intro (fs : filesystem) (p : path) :
  p <> [] -> wxDirExists fs (parent_path p) = true -> wxDirExists fs p = false ->
  can_create fs p = true.
Proof.
  intros Hp H1 H2. unfold can_create. destruct p; [done|]. by rewrite H1, H2.
Qed.

(** The files [es] writes, written into [S] in the same order. *)
Fixpoint rewrite_files (target : path) (es : list wxZipEntry)
    (S : filesystem) : filesystem :=
  match es with
  | [] => S
  | e :: es' =>
      rewrite_files target es'
        (if IsDir e then S
         else write_file (target ++ GetName e) (entry_data e) S)
  end.

(** The data of the last file entry of [es] that goes to [p]. *)
Fixpoint last_data (target : path) (es : list wxZipEntry) (p : path)
    : option content :=
  match es with
  | [] => None
  | e :: es' =>
      match last_data target es' p with
      | Some d => Some d
      | None =>
          if IsDir e then None
          else if decide (target ++ GetName e = p) then Some (entry_data e)
          else None
      end
  end.

Lemma unzip_entry_again (target : path) (e : wxZipEntry) (fs fs1 S : filesystem) :
  unzip_entry target e fs = (None, fs1) ->
  extends fs1 S ->
  unzip_entry target e S =
    (None, if IsDir e then S
           else write_file (target ++ GetName e) (entry_data e) S) /\
  extends S (if IsDir e then S
             else write_file (target ++ GetName e) (entry_data e) S).
Proof.
  intros He Hext. apply unzip_entry_None in He. unfold unzip_entry.
  destruct (IsDir e).
  - subst fs1. rewrite (ensure_dir_again _ _ _ _ Hext). split; [done|].
    apply extends_refl.
  - destruct He as (Hread & Hc & ->).
    apply can_create_true in Hc as (Hne & Hparent & Hnodir).
    assert (extends (ensure_dir target e fs) S) as Hext'.
    { eapply extends_trans; [|exact Hext]. by apply write_file_extends. }
    rewrite (ensure_dir_again _ _ _ _ Hext'), Hread. simpl.
    assert (wxDirExists S (target ++ GetName e) = false) as HS.
    { eapply (extends_not_dir _ _ _ (entry_data e)); [exact Hext| |done].
      unfold write_file. apply lookup_insert_eq. }
    rewrite can_create_intro; [|done| |done].
    + split; [done|]. by apply write_file_extends.
    + by eapply extends_wxDirExists.
Qed.

Lemma unzip_entries_again (target : path) (es : list wxZipEntry)
    (fs F S : filesystem) :
  unzip_entries target es fs = (Ok (), F) ->
  extends F S ->
  unzip_entries target es S = (Ok (), rewrite_files target es S).
Proof.
  revert fs S. induction es as [|e es IH]; intros fs S Hrun Hext; simpl; [done|].
  simpl in Hrun.
  destruct (unzip_entry target e fs) as [[msg|] fs1] eqn:He; [done|].
  pose proof (unzip_entries_extends target es fs1) as H1.
  rewrite Hrun in H1. simpl in H1.
  destruct (unzip_entry_again target e fs fs1 S He) as [-> HS].
  { by eapply extends_trans. }
  apply (IH fs1); [done|].
  eapply extends_trans; [exact Hext|exact HS].
Qed.

Lemma rewrite_files_lookup (target : path) (es : list wxZipEntry)
    (S : filesystem) (p : path) :
  rewrite_files target es S !! p =
  match last_data target es p with
  | Some d => Some (File d)
  | None => S !! p
  end.
Proof.
  revert S. induction es as [|e es IH]; intros S; simpl; [done|].
  rewrite IH. destruct (last_data target es p); [done|].
  destruct (IsDir e); [done|]. unfold write_file. case_decide as Hp.
  - subst p. apply lookup_insert_eq.
  - by apply lookup_insert_ne.
Qed.

Lemma last_data_None (target : path) (es : list wxZipEntry) (p : path) :
  last_data target es p = None ->
  forall e, e ∈ es -> IsDir e = false -> target ++ GetName e <> p.
Proof.
  induction es as [|e' es IH]; intros H e Hin Hfile; [by apply elem_of_nil in Hin|].
  simpl in H. destruct (last_data target es p) eqn:Hl; [done|].
  apply elem_of_cons in Hin as [->|Hin]; [|by apply IH].
  rewrite Hfile in H. by case_decide.
Qed.

Lemma unzip_entries_last_data (target : path) (es : list wxZipEntry)
    (fs F : filesystem) (p : path) (d : content) :
  unzip_entries target es fs = (Ok (), F) ->
  last_data target es p = Some d ->
  F !! p = Some (File d).
Proof.
  revert fs. induction es as [|e es IH]; intros fs Hrun Hl; [done|].
  simpl in Hrun, Hl.
  destruct (unzip_entry target e fs) as [[msg|] fs1] eqn:He; [done|].
  destruct (last_data target es p) as [d'|] eqn:Hrest.
  - injection Hl as ->. by apply (IH fs1).
  - destruct (IsDir e) eqn:Hfile; [done|]. case_decide as Hp; [|done].
    injection Hl as <-. subst p.
    apply unzip_entry_None in He. rewrite Hfile in He. destruct He as (_ & _ & ->).
    pose proof (unzip_entries_last_writer target es
      (write_file (target ++ GetName e) (entry_data e) (ensure_dir target e fs))
      (GetName e) (File (entry_data e))) as Hlast.
    rewrite Hrun in Hlast. apply Hlast.
    + unfold write_file. apply lookup_insert_eq.
    + intros e' Hin Hf Heq.
      apply (last_data_None _ _ _ Hrest e' Hin Hf). by rewrite Heq.
Qed.

(** X6.  Extracting an archive a second time into the place where it
    was extracted succeeds and changes nothing. *)
Theorem unzipTo_twice (zip : archive) (target : path) (fs fs' : filesystem) :
  unzipTo zip target fs = (Ok (), fs') ->
  unzipTo zip target fs' = (Ok (), fs').
Proof.
  unfold unzipTo. destruct (negb (fis_IsOk zip)); [done|].
  destruct (negb (zip_IsOk zip)); [done|]. intros Hrun.
  rewrite (unzip_entries_again target (entries zip) fs fs' fs' Hrun (extends_refl _)).
  f_equal. apply map_eq. intros p. rewrite rewrite_files_lookup.
  destruct (last_data target (entries zip) p) as [d|] eqn:Hl; [|done].
  symmetry. by apply (unzip_entries_last_data target (entries zip) fs).
Qed.

Lemma unzipTo_twice_witness :
  unzipTo twice_zip ["C:"; "GD"] (unzipTo twice_zip ["C:"; "GD"] ∅).2
  = (Ok (), (unzipTo twice_zip ["C:"; "GD"] ∅).2).
Proof.
  apply (unzipTo_twice twice_zip ["C:"; "GD"] ∅). vm_compute. reflexivity.
Defined.

(** ** Uninstalling: what goes and what stays *)

(** A file system is a tree when whatever exists lies in something that
    exists. *)
Definition is_tree (fs : filesystem) : Prop :=
  map_Forall (fun k _ => fs_exists fs (parent_path k) = true) fs.

#[global] Instance is_tree_dec (fs : filesystem) : Decision (is_tree fs).
Proof. unfold is_tree. apply _. Defined.

Lemma fs_exists_true (fs : filesystem) (p : path) :
  p <> [] -> fs_exists fs p = true -> is_Some (fs !! p).
Proof.
  unfold fs_exists, lookup_node. destruct p; [done|].
  intros _. apply bool_decide_eq_true.
Qed.

Lemma is_tree_below (fs : filesystem) (q k : path) :
  is_tree fs -> q <> [] -> fs !! q = None -> q `prefix_of` k -> fs !! k = None.
Proof.
  intros Htree Hq Hnone [l ->].
  induction l as [|x l IH] using rev_ind; [by rewrite app_nil_r|].
  destruct (fs !! (q ++ l ++ [x])) as [n|] eqn:Hk; [|done].
  apply Htree in Hk. simpl in Hk.
  rewrite app_assoc, parent_path_snoc in Hk.
  apply fs_exists_true in Hk; [|by destruct q].
  rewrite IH in Hk. by destruct Hk.
Qed.

Lemma remove_all_under (p k : path) (fs : filesystem) :
  p `prefix_of` k -> remove_all p fs !! k = None.
Proof.
  intros Hp. unfold remove_all. apply map_lookup_filter_None. right.
  intros x _ H. by apply H.
Qed.

Lemma remove_all_other (p k : path) (fs : filesystem) :
  ~ p `prefix_of` k -> remove_all p fs !! k = fs !! k.
Proof.
  intros Hp. unfold remove_all. destruct (fs !! k) as [n|] eqn:Hk.
  - by apply map_lookup_filter_Some.
  - apply map_lookup_filter_None. by left.
Qed.

Lemma clear_geode_under (p k : path) (fs : filesystem) :
  is_tree fs -> (p ++ ["geode"]) `prefix_of` k -> clear_geode p fs !! k = None.
Proof.
  intros Htree Hk. unfold clear_geode. destruct (fs_exists fs _) eqn:Hex.
  - by apply remove_all_under.
  - apply fs_exists_snoc_false in Hex.
    eapply is_tree_below; [done|apply snoc_not_nil|done..].
Qed.

Lemma clear_geode_other (p k : path) (fs : filesystem) :
  ~ (p ++ ["geode"]) `prefix_of` k -> clear_geode p fs !! k = fs !! k.
Proof.
  intros Hk. unfold clear_geode. destruct (fs_exists fs _); [|done].
  by apply remove_all_other.
Qed.

Lemma remove_if_exists_other (q k : path) (fs : filesystem) :
  k <> q -> (remove_if_exists q fs).2 !! k = fs !! k.
Proof.
  intros Hk. unfold remove_if_exists. destruct (fs_exists fs q); [|done].
  unfold remove. destruct (fs !! q) as [[m|d]|]; simpl; [|by apply lookup_delete_ne|done].
  destruct (has_children fs q); simpl; [done|by apply lookup_delete_ne].
Qed.

Lemma uninstall_files_other (p k : path) (fs : filesystem) :
  ~ (p ++ ["geode"]) `prefix_of` k ->
  k <> p ++ ["XInput9_1_0.dll"] -> k <> p ++ ["Geode.dll"] ->
  (uninstall_files p fs).2 !! k = fs !! k.
Proof.
  intros Hg HX HG. unfold uninstall_files.
  pose proof (remove_if_exists_other (p ++ ["XInput9_1_0.dll"]) k
                (clear_geode p fs) HX) as H1.
  destruct (remove_if_exists (p ++ ["XInput9_1_0.dll"]) (clear_geode p fs))
    as [[b|e] fs2]; simpl in *.
  - pose proof (remove_if_exists_other (p ++ ["Geode.dll"]) k fs2 HG) as H2.
    destruct (remove_if_exists (p ++ ["Geode.dll"]) fs2) as [[b'|e] fs3];
      simpl in *; rewrite H2, H1; by apply clear_geode_other.
  - rewrite H1. by apply clear_geode_other.
Qed.

Lemma uninstall_files_subseteq (p : path) (fs : filesystem) :
  (uninstall_files p fs).2 ⊆ fs.
Proof.
  unfold uninstall_files.
  pose proof (remove_if_exists_subseteq p "XInput9_1_0.dll" (clear_geode p fs)) as H1.
  pose proof (clear_geode_subseteq p fs) as H0.
  destruct (remove_if_exists (p ++ ["XInput9_1_0.dll"]) (clear_geode p fs))
    as [[b|e] fs2]; simpl in *; [|by etrans].
  pose proof (remove_if_exists_subseteq p "Geode.dll" fs2) as H2.
  destruct (remove_if_exists (p ++ ["Geode.dll"]) fs2) as [[b'|e] fs3];
    simpl in *; etrans; try exact H2; by etrans.
Qed.

Lemma uninstall_files_gone (p : path) (fs : filesystem) :
  (uninstall_files p fs).1 = Return (Ok ()) ->
  (uninstall_files p fs).2 !! (p ++ ["XInput9_1_0.dll"]) = None /\
  (uninstall_files p fs).2 !! (p ++ ["Geode.dll"]) = None.
Proof.
  unfold uninstall_files.
  destruct (remove_if_exists (p ++ ["XInput9_1_0.dll"]) (clear_geode p fs))
    as [[b|e] fs2] eqn:HX; simpl; [|done].
  pose proof (remove_if_exists_Return _ _ _ _ _ HX) as HX2.
  pose proof (remove_if_exists_subseteq p "Geode.dll" fs2) as Hs.
  destruct (remove_if_exists (p ++ ["Geode.dll"]) fs2) as [[b'|e] fs3] eqn:HG;
    simpl in *; [|done].
  intros _. split; [by eapply lookup_None_subseteq|].
  by eapply remove_if_exists_Return.
Qed.



(** ** Other mod loaders: reading the flags *)

(** The flags are separate bits. *)
Definition flags_disjoint (F : OtherModFlags) : Prop :=
  Z.land (OMF_MHv6 F) (OMF_MHv7 F) = 0 /\
  Z.land (OMF_MHv6 F) (OMF_GDHM F) = 0 /\
  Z.land (OMF_MHv6 F) (OMF_Some F) = 0 /\
  Z.land (OMF_MHv7 F) (OMF_GDHM F) = 0 /\
  Z.land (OMF_MHv7 F) (OMF_Some F) = 0 /\
  Z.land (OMF_GDHM F) (OMF_Some F) = 0.

Definition some_markers : list string :=
  ["Geode.dll"; "quickldr.dll"; "GDDLLLoader.dll"; "ModLdr.dll"; "minhook.dll";
   "XInput9_1_0.dll"].

Lemma or_if_land (a b c d : bool) (fa fb fc fd f : Z) :
  Z.land (or_if d fd (or_if c fc (or_if b fb (or_if a fa 0)))) f =
  Z.lor (Z.lor (Z.lor (if a then Z.land fa f else 0) (if b then Z.land fb f else 0))
               (if c then Z.land fc f else 0))
        (if d then Z.land fd f else 0).
Proof.
  unfold or_if.
  destruct a, b, c, d;
    rewrite ?Z.land_lor_distr_l, ?Z.land_0_l, ?Z.lor_0_l, ?Z.lor_0_r; reflexivity.
Qed.

(** X8.  With flags that are separate bits, each flag of the result of
    [doesDirectoryContainOtherMods] on Windows tells whether its marker
    is there: the flag of Mega Hack v6 for [absoluteldr.dll], of v7 for
    [hackproldr.dll], of GDHM for [ToastedMarshmellow.dll], and
    [OMF_Some] for any of the six other names.  On the other target the
    result is always [OMF_None]. *)
Theorem other_mod_flags_decode (env : Env) (F : OtherModFlags) (dir : path)
    (w : World) :
  flags_ok F ->
  flags_disjoint F ->
  match os env with
  | Windows =>
      Z.land (doesDirectoryContainOtherMods env F dir w) (OMF_MHv6 F)
      = (if fs_exists (disk w) (dir ++ ["absoluteldr.dll"]) then OMF_MHv6 F else 0) /\
      Z.land (doesDirectoryContainOtherMods env F dir w) (OMF_MHv7 F)
      = (if fs_exists (disk w) (dir ++ ["hackproldr.dll"]) then OMF_MHv7 F else 0) /\
      Z.land (doesDirectoryContainOtherMods env F dir w) (OMF_GDHM F)
      = (if fs_exists (disk w) (dir ++ ["ToastedMarshmellow.dll"])
         then OMF_GDHM F else 0) /\
      Z.land (doesDirectoryContainOtherMods env F dir w) (OMF_Some F)
      = (if existsb (fun name => fs_exists (disk w) (dir ++ [name])) some_markers
         then OMF_Some F else 0)
  | MacOS => doesDirectoryContainOtherMods env F dir w = OMF_None F
  end.
Proof.
  intros (H0 & _) (H67 & H6G & H6S & H7G & H7S & HGS).
  unfold doesDirectoryContainOtherMods. destruct (os env); [|done].
  rewrite H0.
  assert (forall a b, Z.land a b = 0 -> Z.land b a = 0) as Hsym
    by (intros a b; by rewrite Z.land_comm).
  assert (existsb (fun name => fs_exists (disk w) (dir ++ [name])) some_markers
          = (fs_exists (disk w) (dir ++ ["Geode.dll"])
             || fs_exists (disk w) (dir ++ ["quickldr.dll"])
             || fs_exists (disk w) (dir ++ ["GDDLLLoader.dll"])
             || fs_exists (disk w) (dir ++ ["ModLdr.dll"])
             || fs_exists (disk w) (dir ++ ["minhook.dll"])
             || fs_exists (disk w) (dir ++ ["XInput9_1_0.dll"]))) as ->.
  { simpl. by rewrite orb_false_r, !orb_assoc. }
  generalize (fs_exists (disk w) (dir ++ ["Geode.dll"])
              || fs_exists (disk w) (dir ++ ["quickldr.dll"])
              || fs_exists (disk w) (dir ++ ["GDDLLLoader.dll"])
              || fs_exists (disk w) (dir ++ ["ModLdr.dll"])
              || fs_exists (disk w) (dir ++ ["minhook.dll"])
              || fs_exists (disk w) (dir ++ ["XInput9_1_0.dll"])).
  generalize (fs_exists (disk w) (dir ++ ["absoluteldr.dll"])).
  generalize (fs_exists (disk w) (dir ++ ["hackproldr.dll"])).
  generalize (fs_exists (disk w) (dir ++ ["ToastedMarshmellow.dll"])).
  intros c b a d.
  repeat split; rewrite or_if_land;
    rewrite ?Z.land_diag, ?H67, ?H6G, ?H6S, ?H7G, ?H7S, ?HGS,
            ?(Hsym _ _ H67), ?(Hsym _ _ H6G), ?(Hsym _ _ H6S),
            ?(Hsym _ _ H7G), ?(Hsym _ _ H7S), ?(Hsym _ _ HGS);
    destruct a, b, c, d; rewrite ?Z.lor_0_r, ?Z.lor_0_l; reflexivity.
Qed.

Lemma other_mod_flags_decode_witness :
  Z.land (doesDirectoryContainOtherMods windows bit_flags ["C:"; "GD"] installed_world)
    (OMF_MHv6 bit_flags) = 0 /\
  Z.land (doesDirectoryContainOtherMods windows bit_flags ["C:"; "GD"] installed_world)
    (OMF_Some bit_flags) = OMF_Some bit_flags.
Proof.
  assert (flags_ok bit_flags) as HF by (unfold flags_ok; simpl; lia).
  assert (flags_disjoint bit_flags) as HD by (vm_compute; repeat split).
  pose proof (other_mod_flags_decode windows bit_flags ["C:"; "GD"] installed_world
                HF HD) as (H6 & _ & _ & HS).
  split.
  - rewrite H6. vm_compute. reflexivity.
  - rewrite HS. vm_compute. reflexivity.
Defined.

(** *** The check after uninstalling *)

Definition foreign_markers : list string :=
  ["absoluteldr.dll"; "hackproldr.dll"; "ToastedMarshmellow.dll"; "quickldr.dll";
   "GDDLLLoader.dll"; "ModLdr.dll"; "minhook.dll"].

Lemma prefix_snoc_snoc (p : path) (a b : string) :
  (p ++ [a]) `prefix_of` (p ++ [b]) -> a = b.
Proof.
  intros [l H]. rewrite <- app_assoc in H. apply app_inv_head in H.
  simpl in H. by injection H.
Qed.

Lemma uninstall_files_marker (p : path) (fs : filesystem) (name : string) :
  name <> "geode" -> name <> "XInput9_1_0.dll" -> name <> "Geode.dll" ->
  fs_exists (uninstall_files p fs).2 (p ++ [name]) = fs_exists fs (p ++ [name]).
Proof.
  intros Hg HX HG. rewrite !fs_exists_snoc. f_equal.
  rewrite uninstall_files_other; [done|..].
  - intros H%prefix_snoc_snoc. by apply Hg.
  - intros H%app_inv_head. apply HX. by injection H.
  - intros H%app_inv_head. apply HG. by injection H.
Qed.

(** X9.  After an uninstall that returned success the check no longer
    sees the loader: on Windows it reports the empty flag set exactly
    when none of the seven markers of other tools was in the directory
    before. *)
Theorem check_after_uninstall (env : Env) (F : OtherModFlags)
    (inst : Installation) (w : World) :
  os env = Windows ->
  flags_ok F ->
  (uninstallFrom inst w).1 = Return (Ok ()) ->
  doesDirectoryContainOtherMods env F (m_path inst) (uninstallFrom inst w).2
  = OMF_None F <->
  Forall (fun name => fs_exists (disk w) (m_path inst ++ [name]) = false)
    foreign_markers.
Proof.
  intros Hos HF Hok. rewrite doesDirectoryContainOtherMods_none by done.
  rewrite uninstallFrom_files in *. simpl in *.
  destruct (uninstall_files_gone _ _ Hok) as [HX HG].
  apply fs_exists_snoc_false in HX, HG.
  unfold marker_files, foreign_markers. rewrite !Forall_cons, !Forall_nil.
  rewrite HX, HG. rewrite !uninstall_files_marker by done. tauto.
Qed.

Lemma check_after_uninstall_witness :
  doesDirectoryContainOtherMods windows bit_flags (m_path GeometryDash)
    (uninstallFrom GeometryDash installed_world).2
  = OMF_None bit_flags.
Proof.
  apply (check_after_uninstall windows bit_flags GeometryDash installed_world).
  - reflexivity.
  - unfold flags_ok. simpl. lia.
  - vm_compute. reflexivity.
  - unfold foreign_markers. repeat constructor.
Defined.

(** ** Saving *)

Lemma save_registry_mgr (env : Env) (w : World) :
  mgr (save_registry env w).2 = mgr w /\ disk (save_registry env w).2 = disk w.
Proof.
  unfold save_registry. destruct (os env); [|done].
  destruct (negb (Create_ok _)); [done|]. by destruct (negb (SetValue_ok _)).
Qed.

Lemma save_file_mgr (env : Env) (w : World) : mgr (save_file env w).2 = mgr w.
Proof.
  unfold save_file. destruct (negb (can_create _ _)); [done|].
  by rewrite (proj1 (save_registry_mgr _ _)).
Qed.

Lemma save_file_disk (env : Env) (w : World) (k : path) (n : node) :
  k <> installJsonPath (mgr w) -> disk w !! k = Some n ->
  disk (save_file env w).2 !! k = Some n.
Proof.
  intros Hk H. unfold save_file. destruct (negb (can_create _ _)); [done|].
  rewrite (proj2 (save_registry_mgr _ _)). simpl. unfold write_file.
  by rewrite lookup_insert_ne.
Qed.

Lemma save_file_registry (env : Env) (w : World) :
  HKLM_GeodeSDK (save_file env w).2 = HKLM_GeodeSDK w \/
  os env = Windows /\
  HKLM_GeodeSDK (save_file env w).2 =
  {| InstallInfo := Some (path_string (m_dataDirectory (mgr w)));
     Create_ok := Create_ok (HKLM_GeodeSDK w);
     SetValue_ok := SetValue_ok (HKLM_GeodeSDK w) |}.
Proof.
  unfold save_file. destruct (negb (can_create _ _)); [by left|].
  unfold save_registry. destruct (os env); [|by left].
  simpl. destruct (negb (Create_ok _)); [by left|].
  destruct (negb (SetValue_ok _)); [by left|]. right. done.
Qed.

Lemma create_directories_lookup (p : path) (fs : filesystem) (k : path) (n : node) :
  fs !! k = Some n -> (create_directories p fs).2 !! k = Some n.
Proof.
  intros H. unfold create_directories, Mkdir.
  pose proof (Mkdir_from_lookup [] p 511 fs k n H) as Hm.
  by destruct (Mkdir_from [] p 511 fs) as [[] fs'].
Qed.


(** X11.  On Windows, when the registry key cannot be created or its
    value cannot be set, [saveData] returns an error although the state
    file has already been written with the current state. *)
Theorem saveData_registry_failure (env : Env) (w : World) :
  os env = Windows ->
  fs_exists (disk w) (m_dataDirectory (mgr w)) = true ->
  can_create (disk w) (installJsonPath (mgr w)) = true ->
  Create_ok (HKLM_GeodeSDK w) = false \/ SetValue_ok (HKLM_GeodeSDK w) = false ->
  (exists msg, (saveData env w).1 = Return (Err msg)) /\
  disk (saveData env w).2 !! installJsonPath (mgr w)
  = Some (File (Json (save_json (mgr w)))) /\
  HKLM_GeodeSDK (saveData env w).2 = HKLM_GeodeSDK w.
Proof.
  intros Hos Hex Hc Hreg. unfold saveData. rewrite Hex.
  unfold save_file. rewrite Hc. simpl. unfold save_registry. rewrite Hos. simpl.
  destruct (Create_ok (HKLM_GeodeSDK w)); simpl.
  - destruct Hreg as [? | ->]; [done|]. simpl.
    split; [by eexists|]. split; [|done]. unfold write_file. apply lookup_insert_eq.
  - split; [by eexists|]. split; [|done]. unfold write_file. apply lookup_insert_eq.
Qed.

Definition user_key : wxRegKey :=
  {| InstallInfo := None; Create_ok := false; SetValue_ok := false |}.

Definition unprivileged_world : World :=
  {| mgr := {| m_sdkDirectory := ["C:"; "Program Files"; "GeodeSDK"];
               m_sdkInstalled := false;
               m_dataDirectory := ["C:"; "Users"; "u"; "AppData"; "Local"; "GeodeSDK"];
               m_installations := [GeometryDash];
               m_dataLoaded := false |};
     disk := {[ ["C:"] := Dir 511; ["C:"; "Users"] := Dir 511;
                ["C:"; "Users"; "u"] := Dir 511;
                ["C:"; "Users"; "u"; "AppData"] := Dir 511;
                ["C:"; "Users"; "u"; "AppData"; "Local"] := Dir 511;
                ["C:"; "Users"; "u"; "AppData"; "Local"; "GeodeSDK"] := Dir 511 ]};
     HKLM_GeodeSDK := user_key |}.

Lemma saveData_registry_failure_witness :
  (exists msg, (saveData windows unprivileged_world).1 = Return (Err msg)) /\
  disk (saveData windows unprivileged_world).2
    !! installJsonPath (mgr unprivileged_world)
  = Some (File (Json (save_json (mgr unprivileged_world)))) /\
  HKLM_GeodeSDK (saveData windows unprivileged_world).2
  = HKLM_GeodeSDK unprivileged_world.
Proof.
  apply (saveData_registry_failure windows unprivileged_world).
  - reflexivity.
  - vm_compute. reflexivity.
  - vm_compute. reflexivity.
  - left. reflexivity.
Defined.

Lemma wxDirExists_fs_exists (fs : filesystem) (p : path) :
  wxDirExists fs p = true -> fs_exists fs p = true.
Proof.
  unfold wxDirExists, fs_exists. destruct (lookup_node fs p) as [[m|d]|]; [|done..].
  intros _. by apply bool_decide_eq_true.
Qed.

Lemma save_file_Ok (env : Env) (w w1 : World) :
  save_file env w = (Ok (), w1) ->
  can_create (disk w) (installJsonPath (mgr w)) = true /\
  w1 = (save_registry env
          (with_disk (write_file (installJsonPath (mgr w))
                        (json_dump (save_json (mgr w))) (disk w)) w)).2 /\
  (save_registry env
     (with_disk (write_file (installJsonPath (mgr w))
                   (json_dump (save_json (mgr w))) (disk w)) w)).1 = Ok ().
Proof.
  unfold save_file. destruct (can_create _ _); simpl; [|done].
  destruct (save_registry env _) as [r w']. by intros [= -> ->].
Qed.

Lemma save_file_again (env : Env) (w w1 : World) :
  save_file env w = (Ok (), w1) -> save_file env w1 = (Ok (), w1).
Proof.
  intros H. apply save_file_Ok in H as (Hc & -> & Hr).
  apply can_create_true in Hc as (Hne & Hparent & Hnodir).
  unfold save_registry in *. destruct (os env) eqn:Hos.
  - destruct (Create_ok (HKLM_GeodeSDK _)) eqn:HC; simpl in *; [|done].
    destruct (SetValue_ok (HKLM_GeodeSDK _)) eqn:HS; simpl in *; [|done].
    unfold save_file. simpl.
    rewrite can_create_intro; [|done|..].
    + simpl. unfold save_registry. rewrite Hos. simpl. rewrite HC, HS. simpl.
      unfold with_InstallInfo, with_disk, write_file. simpl.
      by rewrite insert_insert_eq.
    + apply wxDirExists_write_file; [|done]. intros Heq.
      by apply (parent_path_neq _ Hne).
    + unfold installJsonPath, wxDirExists, write_file.
      by rewrite lookup_node_snoc, lookup_insert_eq.
  - unfold save_file. simpl.
    rewrite can_create_intro; [|done|..].
    + simpl. unfold save_registry. rewrite Hos. simpl.
      unfold with_disk, write_file. simpl. by rewrite insert_insert_eq.
    + apply wxDirExists_write_file; [|done]. intros Heq.
      by apply (parent_path_neq _ Hne).
    + unfold installJsonPath, wxDirExists, write_file.
      by rewrite lookup_node_snoc, lookup_insert_eq.
Qed.

Lemma save_file_dir_exists (env : Env) (w w1 : World) :
  save_file env w = (Ok (), w1) ->
  fs_exists (disk w1) (m_dataDirectory (mgr w1)) = true.
Proof.
  intros H. apply save_file_Ok in H as (Hc & -> & _).
  apply can_create_true in Hc as (Hne & Hparent & _).
  destruct (save_registry_mgr env
              (with_disk (write_file (installJsonPath (mgr w))
                            (json_dump (save_json (mgr w))) (disk w)) w)) as [-> ->].
  simpl. apply wxDirExists_fs_exists.
  unfold installJsonPath in *. rewrite parent_path_snoc in Hparent.
  apply wxDirExists_write_file; [|done].
  intros Heq. apply (f_equal length) in Heq. rewrite length_app in Heq.
  simpl in Heq. lia.
Qed.

(** X12.  Saving again right after a successful [saveData] succeeds and
    changes nothing: the file is overwritten with the same document and
    the registry value is set to what it is. *)
Theorem saveData_twice (env : Env) (w w1 : World) :
  saveData env w = (Return (Ok ()), w1) ->
  saveData env w1 = (Return (Ok ()), w1).
Proof.
  unfold saveData at 1. intros H.
  assert (exists w0, save_file env w0 = (Ok (), w1)) as [w0 Hs].
  { destruct (fs_exists _ _).
    - destruct (save_file env w) as [r w'] eqn:Hs. injection H as -> ->. by exists w.
    - destruct (create_directories _ _) as [[[]|e] fs]; [|done..].
      destruct (save_file env (with_disk fs w)) as [r w'] eqn:Hs.
      injection H as -> ->. by eexists. }
  unfold saveData. rewrite (save_file_dir_exists _ _ _ Hs).
  by rewrite (save_file_again _ _ _ Hs).
Qed.

Lemma saveData_twice_witness :
  saveData windows (saveData windows saved_world).2
  = (Return (Ok ()), (saveData windows saved_world).2).
Proof.
  apply (saveData_twice windows saved_world). vm_compute. reflexivity.
Defined.

(** ** Loading: what the document may look like *)

(** Two records with the same ["path"] and ["exe"]. *)
Definition same_record (i1 i2 : json) : Prop :=
  json_at i1 "path" = json_at i2 "path" /\ json_at i1 "exe" = json_at i2 "exe".

Lemma read_installation_same (i1 i2 : json) :
  same_record i1 i2 -> read_installation i1 = read_installation i2.
Proof. intros [Hp He]. unfold read_installation. by rewrite Hp, He. Qed.

Lemma load_installations_same (items1 items2 : list json) (m : Manager) :
  Forall2 same_record items1 items2 ->
  load_installations items1 m = load_installations items2 m.
Proof.
  intros H. revert m. induction H as [|i1 i2 l1 l2 Hi _ IH]; intros m; [done|].
  simpl. rewrite (read_installation_same _ _ Hi).
  destruct (read_installation i2); [done|apply IH].
Qed.

Lemma locate_same (env : Env) (w1 w2 : World) :
  mgr w1 = mgr w2 -> HKLM_GeodeSDK w1 = HKLM_GeodeSDK w2 ->
  locate env w1 = locate env w2.
Proof. intros Hm Hr. unfold locate. by rewrite Hm, Hr. Qed.

Lemma load_sdk_object (members : list (string * json)) (m : Manager) :
  load_sdk (JObject members) m =
  if is_null (default JNull (assoc "sdk" members)) then (m, inr ())
  else match get_string (default JNull (assoc "sdk" members)) with
       | inl e => (m, inl e)
       | inr s => (set_sdk (string_path s) m, inr ())
       end.
Proof.
  unfold load_sdk, contains, json_at.
  by destruct (assoc "sdk" members) as [v|].
Qed.

(** X13.  [loadData] reads only the members ["sdk"] and
    ["installations"] of the document, and only ["path"] and ["exe"] of
    each record: two state files that agree on these give the same result
    and the same manager, whatever else they hold; an ["sdk"] that is
    null counts as one that is missing. *)
Theorem loadData_ignores_unknown_fields (env : Env) (w1 w2 : World)
    (members1 members2 : list (string * json)) :
  mgr w1 = mgr w2 ->
  HKLM_GeodeSDK w1 = HKLM_GeodeSDK w2 ->
  disk w1 !! installJsonPath (locate env w1) = Some (File (Json (JObject members1))) ->
  disk w2 !! installJsonPath (locate env w2) = Some (File (Json (JObject members2))) ->
  default JNull (assoc "sdk" members1) = default JNull (assoc "sdk" members2) ->
  Forall2 same_record
    (json_items (default JNull (assoc "installations" members1)))
    (json_items (default JNull (assoc "installations" members2))) ->
  (loadData env w1).1 = (loadData env w2).1 /\
  mgr (loadData env w1).2 = mgr (loadData env w2).2.
Proof.
  intros Hm Hr H1 H2 Hsdk Hinst. unfold loadData.
  rewrite H1, H2, (locate_same env w1 w2 Hm Hr).
  unfold load_file, load_json. simpl json_parse. cbv iota.
  rewrite !load_sdk_object, Hsdk.
  destruct (is_null _); simpl.
  - rewrite (load_installations_same _ _ _ Hinst).
    by destruct (load_installations _ _) as [m [e|[]]].
  - destruct (get_string _); simpl; [done|].
    rewrite (load_installations_same _ _ _ Hinst).
    by destruct (load_installations _ _) as [m [e|[]]].
Qed.

Definition plain_state : json :=
  JObject [("installations", JArray [installation_json GeometryDash])].

Definition annotated_state : json :=
  JObject
    [("comment", JString "written by a later version");
     ("installations",
      JArray [JObject [("exe", JString "GeometryDash.exe");
                       ("loader", JString "v1.0.0");
                       ("path", JString "C:/GD")]]);
     ("sdk", JNull)].

Lemma loadData_ignores_unknown_fields_witness :
  (loadData windows (damaged_state (Json plain_state))).1
  = (loadData windows (damaged_state (Json annotated_state))).1 /\
  mgr (loadData windows (damaged_state (Json plain_state))).2
  = mgr (loadData windows (damaged_state (Json annotated_state))).2.
Proof.
  apply (loadData_ignores_unknown_fields windows
           (damaged_state (Json plain_state)) (damaged_state (Json annotated_state))
           [("installations", JArray [installation_json GeometryDash])]
           [("comment", JString "written by a later version");
            ("installations",
             JArray [JObject [("exe", JString "GeometryDash.exe");
                              ("loader", JString "v1.0.0");
                              ("path", JString "C:/GD")]]);
            ("sdk", JNull)]).
  - reflexivity.
  - reflexivity.
  - vm_compute. reflexivity.
  - vm_compute. reflexivity.
  - reflexivity.
  - repeat constructor.
Defined.

(** X14.  What [loadData] makes of a document that is not an object: a
    file holding [null] loads as an empty state, like an object without
    ["sdk"] and ["installations"]; an array, a string, a number or a
    boolean is refused with the error of [operator[]], and the manager is
    left as the first lines of [loadData] set it. *)
Theorem loadData_document_shapes (env : Env) (w : World) (j : json) :
  disk w !! installJsonPath (locate env w) = Some (File (Json j)) ->
  match j with
  | JNull => loadData env w = (Ok (), with_mgr (locate env w) w)
  | JObject members =>
      default JNull (assoc "sdk" members) = JNull ->
      json_items (default JNull (assoc "installations" members)) = [] ->
      loadData env w = (Ok (), with_mgr (locate env w) w)
  | _ =>
      loadData env w
      = (Err ("Unable to load installation info: " +:+
              "[json.exception.type_error.305] " +:+
              "cannot use operator[] with a string argument with " +:+ type_name j),
         with_mgr (locate env w) w)
  end.
Proof.
  intros Hfile. unfold loadData. rewrite Hfile.
  destruct j; try reflexivity.
  intros Hsdk Hinst. unfold load_file, load_json. simpl json_parse. cbv iota.
  rewrite load_sdk_object, Hsdk. simpl. by rewrite Hinst.
Qed.

Lemma loadData_document_shapes_witness :
  loadData windows (damaged_state (Json (JArray [])))
  = (Err ("Unable to load installation info: " +:+
          "[json.exception.type_error.305] " +:+
          "cannot use operator[] with a string argument with array"),
     with_mgr (locate windows (damaged_state (Json (JArray []))))
       (damaged_state (Json (JArray [])))).
Proof.
  apply (loadData_document_shapes windows (damaged_state (Json (JArray [])))
           (JArray [])).
  vm_compute. reflexivity.
Defined.

(** ** Loading a second time *)

Lemma load_file_dirs (data : content) (m : Manager) :
  m_dataDirectory (load_file data m).1 = m_dataDirectory m /\
  m_dataLoaded (load_file data m).1 = m_dataLoaded m.
Proof.
  assert (forall items m0,
            m_dataDirectory (load_installations items m0).1 = m_dataDirectory m0 /\
            m_dataLoaded (load_installations items m0).1 = m_dataLoaded m0) as Hl.
  { induction items as [|i items IH]; intros m0; simpl; [done|].
    destruct (read_installation i) as [e|inst]; [done|].
    destruct (IH (insert_installation inst m0)) as [-> ->]. done. }
  assert (forall j, m_dataDirectory (load_sdk j m).1 = m_dataDirectory m /\
                    m_dataLoaded (load_sdk j m).1 = m_dataLoaded m) as Hs.
  { intros j. unfold load_sdk. destruct (contains j "sdk"); [|done].
    destruct (json_at j "sdk") as [e|sdk]; [done|].
    destruct (is_null sdk); [done|]. by destruct (get_string sdk). }
  unfold load_file. destruct (json_parse data) as [e|j]; [done|].
  unfold load_json. specialize (Hs j).
  destruct (load_sdk j m) as [m1 [e|[]]]; simpl in *; [done|].
  destruct (json_at j "installations") as [e|arr]; simpl; [done|].
  destruct (Hl (json_items arr) m1) as [-> ->]. done.
Qed.

Definition with_installations (s : list Installation) (m : Manager) : Manager :=
  {| m_sdkDirectory := m_sdkDirectory m; m_sdkInstalled := m_sdkInstalled m;
     m_dataDirectory := m_dataDirectory m; m_installations := s;
     m_dataLoaded := m_dataLoaded m |}.

Lemma with_installations_id (m : Manager) :
  with_installations (m_installations m) m = m.
Proof. by destruct m. Qed.

Lemma load_installations_members (items : list json) (m : Manager) (y : Installation) :
  y ∈ m_installations m -> y ∈ m_installations (load_installations items m).1.
Proof.
  revert m. induction items as [|i items IH]; intros m Hy; simpl; [done|].
  destruct (read_installation i) as [e|inst]; [done|].
  apply IH. simpl. by apply set_insert_keeps.
Qed.

Lemma load_installations_absorbed (items : list json) (m m' : Manager)
    (r : throws unit) :
  load_installations items m = (m', r) ->
  set_ok (m_installations m) ->
  load_installations items (with_installations (m_installations m') m) = (m', r).
Proof.
  revert m. induction items as [|i items IH]; intros m Hrun Hset; simpl in *.
  - injection Hrun as <- <-. by rewrite with_installations_id.
  - destruct (read_installation i) as [e|inst].
    + injection Hrun as <- <-. by rewrite with_installations_id.
    + assert (set_ok (m_installations m')) as Hset'.
      { pose proof (load_installations_ok items (insert_installation inst m)) as H.
        rewrite Hrun in H. apply H. simpl. by apply set_insert_ok. }
      destruct (set_insert_has_path inst (m_installations m)) as (y & Hy & Hp).
      assert (y ∈ m_installations m') as Hy'.
      { pose proof (load_installations_members items (insert_installation inst m) y)
          as H. rewrite Hrun in H. by apply H. }
      unfold insert_installation at 1. simpl.
      rewrite (set_insert_member inst y _ Hset' Hy' Hp).
      apply (IH (insert_installation inst m)); [done|].
      simpl. by apply set_insert_ok.
Qed.

(** The manager as [locate] resets it after a first load: the directories
    of [m], the SDK flag and the installations of [m1]. *)
Definition relocated (m m1 : Manager) : Manager :=
  {| m_sdkDirectory := m_sdkDirectory m; m_sdkInstalled := m_sdkInstalled m1;
     m_dataDirectory := m_dataDirectory m; m_installations := m_installations m1;
     m_dataLoaded := m_dataLoaded m |}.

Lemma load_sdk_relocated (j : json) (m : Manager) (s : list Installation) :
  let m1 := (load_sdk j m).1 in
  load_sdk j (relocated m (with_installations s m1))
  = (with_installations s m1, (load_sdk j m).2).
Proof.
  simpl. unfold load_sdk. destruct (contains j "sdk"); [|done].
  destruct (json_at j "sdk") as [e|sdk]; [done|].
  destruct (is_null sdk); [done|]. by destruct (get_string sdk).
Qed.

Lemma load_sdk_installations_eq (j : json) (m : Manager) (s : list Installation) :
  m_installations m = s ->
  with_installations s (load_sdk j m).1 = (load_sdk j m).1.
Proof.
  intros <-. rewrite <- (load_sdk_installations j m). apply with_installations_id.
Qed.

Lemma load_installations_fields (items : list json) (m : Manager) :
  (load_installations items m).1
  = with_installations (m_installations (load_installations items m).1) m.
Proof.
  revert m. induction items as [|i items IH]; intros m; simpl.
  - by rewrite with_installations_id.
  - destruct (read_installation i) as [e|inst]; simpl.
    + by rewrite with_installations_id.
    + by rewrite (IH (insert_installation inst m)) at 1.
Qed.

Lemma load_file_again (data : content) (m m1 : Manager) (r : throws unit) :
  load_file data m = (m1, r) ->
  set_ok (m_installations m) ->
  load_file data (relocated m m1) = (m1, r).
Proof.
  unfold load_file. destruct (json_parse data) as [e|j].
  - intros [= <- <-] _. by destruct m.
  - unfold load_json. intros Hrun Hset.
    pose proof (load_sdk_installations j m) as Hinst.
    destruct (load_sdk j m) as [ma rs] eqn:Hsdk. simpl in Hinst.
    assert (forall s, load_sdk j (relocated m (with_installations s ma))
                      = (with_installations s ma, rs)) as Hre.
    { intros s. pose proof (load_sdk_relocated j m s) as H.
      by rewrite Hsdk in H. }
    destruct rs as [e|[]].
    + injection Hrun as <- <-.
      specialize (Hre (m_installations ma)).
      rewrite with_installations_id in Hre. by rewrite Hre.
    + destruct (json_at j "installations") as [e|arr].
      * injection Hrun as <- <-.
        specialize (Hre (m_installations ma)).
        rewrite with_installations_id in Hre. by rewrite Hre.
      * assert (relocated m m1 = relocated m (with_installations (m_installations m1) ma))
          as ->.
        { pose proof (load_installations_fields (json_items arr) ma) as Hf.
          rewrite Hrun in Hf. simpl in Hf. by rewrite Hf at 1. }
        rewrite Hre. apply load_installations_absorbed; [done|]. by rewrite Hinst.
Qed.

Lemma locate_again (env : Env) (w : World) (m1 : Manager) :
  m_dataLoaded m1 = m_dataLoaded (locate env w) ->
  locate env (with_mgr m1 w) = relocated (locate env w) m1.
Proof.
  unfold locate, relocated, set_dirs, set_dataDirectory_loaded, set_dataLoaded.
  simpl. destruct (os env); [|done].
  destruct (InstallInfo (HKLM_GeodeSDK w)); simpl; [done|].
  by intros ->.
Qed.

(** X16.  Calling [loadData] again gives the result of the first call
    and leaves everything as the first call left it, also when the first
    call failed half way: the records of the file are already in the
    set. *)
Theorem loadData_twice (env : Env) (w : World) :
  set_ok (m_installations (mgr w)) ->
  loadData env (loadData env w).2 = loadData env w.
Proof.
  intros Hset. unfold loadData at 2 3.
  destruct (disk w !! installJsonPath (locate env w)) as [[mode|data]|] eqn:Hfile.
  - unfold loadData. simpl. rewrite locate_again by done.
    assert (relocated (locate env w) (locate env w) = locate env w) as ->
      by by destruct (locate env w).
    by rewrite Hfile.
  - pose proof (load_file_dirs data (locate env w)) as [Hdir Hloaded].
    assert (set_ok (m_installations (locate env w))) as Hset'
      by by rewrite locate_installations.
    pose proof (load_file_again data (locate env w)) as Hagain.
    destruct (load_file data (locate env w)) as [m1 r]. simpl in *.
    specialize (Hagain m1 r eq_refl Hset').
    assert (loadData env (with_mgr m1 w)
            = match r with
              | inl e => (Err (load_error e), with_mgr m1 w)
              | inr _ => (Ok (), with_mgr m1 w)
              end) as Hload.
    { unfold loadData. simpl. rewrite locate_again by done.
      unfold installJsonPath in *. simpl. rewrite Hfile, Hagain.
      by destruct r as [e|[]]. }
    destruct r as [e|[]]; simpl; exact Hload.
  - unfold loadData. simpl. rewrite locate_again by done.
    assert (relocated (locate env w) (locate env w) = locate env w) as ->
      by by destruct (locate env w).
    by rewrite Hfile.
Qed.

Lemma loadData_twice_witness :
  loadData windows (loadData windows (damaged_state (Json truncated_state))).2
  = loadData windows (damaged_state (Json truncated_state)).
Proof.
  apply (loadData_twice windows (damaged_state (Json truncated_state))).
  constructor.
Defined.

(** ** The event handler *)

(** X17.  With all three callbacks supplied, the handler of
    [webRequest] answers every event with exactly one call and never
    starts a request itself: the error callback exactly for the failure
    outcomes, the finish callback for a completed request with an OK
    response of status 200, with that response, and the progress callback
    while the request is active or idle. *)
Theorem webRequest_handler_one_call (evt : wxWebRequestEvent) :
  exists a,
    webRequest_handler record_error record_progress record_finish evt = [a] /\
    match a with
    | OnError _ => is_failure evt = true
    | OnFinish res =>
        is_failure evt = false /\ GetState evt = State_Completed /\
        res = GetResponse evt
    | OnProgress text percent =>
        is_failure evt = false /\
        (GetState evt = State_Active \/
         GetState evt = State_Idle /\ text = "Waiting" /\ percent = 0)
    | RequestStarted _ _ _ => False
    end.
Proof.
  unfold webRequest_handler, is_failure.
  destruct (GetState evt); simpl.
  - eexists. split; [reflexivity|]. split; [done|]. right. done.
  - eexists. split; [reflexivity|]. done.
  - destruct (GetBytesExpectedToReceive evt =? -1);
      eexists; (split; [reflexivity|]); split; auto.
  - destruct (IsOk (GetResponse evt)); simpl.
    + destruct (GetStatus (GetResponse evt) =? 200); simpl;
        eexists; (split; [reflexivity|]); done.
    + eexists. split; [reflexivity|]. done.
  - eexists. split; [reflexivity|]. done.
  - eexists. split; [reflexivity|]. done.
Qed.

(** ** The release document: what goes wrong *)

Lemma release_finish_parse_error CreateRequest selects msg
    errorFunc progressFunc finishFunc (body : content) (e : json_exception) :
  json_parse body ≫= (fun j => json_at j "tag_name" ≫= get_string) = inl e ->
  release_finish CreateRequest selects msg errorFunc progressFunc finishFunc
    (ok_response body)
  = call_error errorFunc ("Unable to parse JSON: " +:+ what e).
Proof.
  unfold release_finish. simpl.
  destruct (json_parse body) as [e'|j]; simpl.
  - by intros [= ->].
  - destruct (json_at j "tag_name" ≫= get_string) as [e'|tag]; [|done].
    by intros [= ->].
Qed.

(** X18.  When the body of the release response is not JSON, or its
    ["tag_name"] is missing or not a string, [downloadLoader] and
    [downloadAPI] report ["Unable to parse JSON: "] followed by the
    message of the exception through the error callback, and do nothing
    else: no progress is reported and no download is requested. *)
Theorem release_parse_failure
    (os : Platform) (CreateRequest : string -> bool)
    (errorFunc : DownloadErrorFunc) (progressFunc : DownloadProgressFunc)
    (finishFunc : DownloadFinishFunc) (body : content) (e : json_exception) :
  CreateRequest loader_feed = true ->
  CreateRequest api_feed = true ->
  json_parse body ≫= (fun j => json_at j "tag_name" ≫= get_string) = inl e ->
  react (downloadLoader os CreateRequest errorFunc progressFunc finishFunc)
    (completed (ok_response body))
  = call_error errorFunc ("Unable to parse JSON: " +:+ what e) /\
  react (downloadAPI CreateRequest errorFunc progressFunc finishFunc)
    (completed (ok_response body))
  = call_error errorFunc ("Unable to parse JSON: " +:+ what e).
Proof.
  intros Hl Ha He. split.
  - rewrite downloadLoader_react by done.
    change (webRequest_handler _ _ _ _) with
      (release_finish CreateRequest (found (PLATFORM_ASSET_IDENTIFIER os))
         (loader_message os) errorFunc progressFunc finishFunc (ok_response body)).
    by apply release_finish_parse_error.
  - rewrite downloadAPI_react by done.
    change (webRequest_handler _ _ _ _) with
      (release_finish CreateRequest (found ".geode")
         api_message errorFunc progressFunc finishFunc (ok_response body)).
    by apply release_finish_parse_error.
Qed.

Lemma release_parse_failure_witness :
  react (downloadLoader Windows (fun _ => true)
           record_error record_progress record_finish)
    (completed (ok_response (Json (JObject [("message", JString "Not Found")]))))
  = [OnError ("Unable to parse JSON: " +:+
              "[json.exception.type_error.302] type must be string, but is null")] /\
  react (downloadAPI (fun _ => true) record_error record_progress record_finish)
    (completed (ok_response (Json (JObject [("message", JString "Not Found")]))))
  = [OnError ("Unable to parse JSON: " +:+
              "[json.exception.type_error.302] type must be string, but is null")].
Proof.
  apply (release_parse_failure Windows (fun _ => true)
           record_error record_progress record_finish
           (Json (JObject [("message", JString "Not Found")]))
           (type_error 302 "type must be string, but is null")).
  - reflexivity.
  - reflexivity.
  - reflexivity.
Defined.

Lemma release_assets_defective CreateRequest selects msg
    errorFunc progressFunc finishFunc
    (good : list json) (assets : list asset) (bad : json) (rest : list json)
    (e : json_exception) :
  Forall2 describes good assets ->
  first_match selects assets = None ->
  json_at bad "name" ≫= get_string = inl e ->
  release_assets CreateRequest selects msg errorFunc progressFunc finishFunc
    (good ++ bad :: rest)
  = ([], inl e).
Proof.
  intros Hgood. induction Hgood as [|a d good assets [Hname Hurl] _ IH];
    intros Hnone Hbad; simpl.
  - by rewrite Hbad.
  - rewrite Hname. simpl. unfold first_match in Hnone. simpl in Hnone.
    destruct (selects (asset_name d)); [done|].
    by rewrite (IH Hnone Hbad).
Qed.

(** X19.  An asset without a name that comes before any matching one
    stops the selection: after the version has been reported, the error
    callback gets the parse error, and no download is requested, even if
    a later asset would match. *)
Theorem release_defective_asset
    (os : Platform) (CreateRequest : string -> bool)
    (errorFunc : DownloadErrorFunc) (progressFunc : DownloadProgressFunc)
    (finishFunc : DownloadFinishFunc)
    (j arr : json) (tag : string) (good : list json) (assets : list asset)
    (bad : json) (rest : list json) (e : json_exception) :
  CreateRequest loader_feed = true ->
  json_at j "tag_name" = inr (JString tag) ->
  json_at j "assets" = inr arr ->
  json_items arr = good ++ bad :: rest ->
  Forall2 describes good assets ->
  first_match (found (PLATFORM_ASSET_IDENTIFIER os)) assets = None ->
  json_at bad "name" ≫= get_string = inl e ->
  react (downloadLoader os CreateRequest errorFunc progressFunc finishFunc)
    (completed (ok_response (Json j)))
  = call_progress progressFunc ("Downloading version " +:+ tag) 0 ++
    call_error errorFunc ("Unable to parse JSON: " +:+ what e).
Proof.
  intros Hl Htag Harr Hitems Hgood Hnone Hbad.
  rewrite downloadLoader_react by done.
  change (webRequest_handler _ _ _ _) with
    (release_finish CreateRequest (found (PLATFORM_ASSET_IDENTIFIER os))
       (loader_message os) errorFunc progressFunc finishFunc
       (ok_response (Json j))).
  unfold release_finish. simpl. rewrite Htag. simpl. rewrite Harr. simpl.
  rewrite Hitems.
  rewrite (release_assets_defective _ _ _ _ _ _ _ _ _ _ _ Hgood Hnone Hbad).
  simpl. rewrite ?app_nil_r. reflexivity.
Qed.

Definition flawed_release : json :=
  JObject
    [("assets",
      JArray [asset_json "Installer-mac.zip" "https://example.org/Installer-mac.zip";
              JObject [("browser_download_url",
                        JString "https://example.org/checksums.txt")];
              asset_json "Installer-win.zip" "https://example.org/Installer-win.zip"]);
     ("tag_name", JString "v1.0.0")].

Lemma release_defective_asset_witness :
  react (downloadLoader Windows (fun _ => true)
           record_error record_progress record_finish)
    (completed (ok_response (Json flawed_release)))
  = [OnProgress "Downloading version v1.0.0" 0;
     OnError ("Unable to parse JSON: " +:+
              "[json.exception.type_error.302] type must be string, but is null")].
Proof.
  apply (release_defective_asset Windows (fun _ => true)
           record_error record_progress record_finish flawed_release
           (JArray [asset_json "Installer-mac.zip" "https://example.org/Installer-mac.zip";
                    JObject [("browser_download_url",
                              JString "https://example.org/checksums.txt")];
                    asset_json "Installer-win.zip" "https://example.org/Installer-win.zip"])
           "v1.0.0"
           [asset_json "Installer-mac.zip" "https://example.org/Installer-mac.zip"]
           [ {| asset_name := "Installer-mac.zip";
                browser_download_url := "https://example.org/Installer-mac.zip" |} ]
           (JObject [("browser_download_url",
                      JString "https://example.org/checksums.txt")])
           [asset_json "Installer-win.zip" "https://example.org/Installer-win.zip"]
           (type_error 302 "type must be string, but is null")).
  - reflexivity.
  - reflexivity.
  - reflexivity.
  - reflexivity.
  - repeat constructor.
  - reflexivity.
  - reflexivity.
Defined.

(** ** Matching the asset name *)

Lemma substring_0_prefix (s : string) (l : nat) :
  exists post, s = substring 0 l s +:+ post.
Proof.
  revert l. induction s as [|c s IH]; intros l.
  - exists "". by destruct l.
  - destruct l as [|l]; simpl.
    + by eexists.
    + destruct (IH l) as [post Hpost]. exists post.
      exact (f_equal (String c) Hpost).
Qed.

Lemma substring_cut (s : string) (m l : nat) :
  exists pre post, s = pre +:+ substring m l s +:+ post.
Proof.
  revert m. induction s as [|c s IH]; intros m.
  - exists "", "". by destruct m, l.
  - destruct m as [|m].
    + exists "". apply substring_0_prefix.
    + simpl. destruct (IH m) as (pre & post & Hs).
      exists (String c pre), post. exact (f_equal (String c) Hs).
Qed.

Lemma substring_0_append (n post : string) :
  substring 0 (String.length n) (n +:+ post) = n.
Proof.
  induction n as [|c n IH]; [by destruct post|].
  exact (f_equal (String c) IH).
Qed.

Lemma substring_append (pre n post : string) :
  substring (String.length pre) (String.length n) (pre +:+ n +:+ post) = n.
Proof.
  induction pre as [|c pre IH]; [exact (substring_0_append n post)|exact IH].
Qed.

Lemma found_iff (needle name : string) :
  found needle name = true <-> exists pre post, name = pre +:+ needle +:+ post.
Proof.
  unfold found. split.
  - destruct (index 0 needle name) as [m|] eqn:Hi; [|done]. intros _.
    apply index_correct1 in Hi.
    destruct (substring_cut name m (String.length needle)) as (pre & post & H).
    exists pre, post. by rewrite Hi in H.
  - intros (pre & post & ->).
    destruct (index 0 needle (pre +:+ needle +:+ post)) eqn:Hi; [done|].
    exfalso. destruct needle as [|c needle].
    + apply index_correct4 in Hi. lia.
    + eapply (index_correct3 0 (String.length pre)); [exact Hi|done|lia|].
      apply substring_append.
Qed.

(** X20.  The test on the asset name is a search for a substring: the
    first asset of the release is taken by [downloadLoader] as soon as the
    platform identifier occurs anywhere in its name, and by [downloadAPI]
    as soon as [.geode] does. *)
Theorem asset_name_substring
    (os : Platform) (CreateRequest : string -> bool)
    (errorFunc : DownloadErrorFunc) (progressFunc : DownloadProgressFunc)
    (finishFunc : DownloadFinishFunc)
    (j : json) (tag : string) (a : asset) (others : list asset) :
  is_release j tag (a :: others) ->
  CreateRequest loader_feed = true ->
  CreateRequest api_feed = true ->
  ((exists pre post,
      asset_name a = pre +:+ PLATFORM_ASSET_IDENTIFIER os +:+ post) ->
   react (downloadLoader os CreateRequest errorFunc progressFunc finishFunc)
     (completed (ok_response (Json j)))
   = call_progress progressFunc ("Downloading version " +:+ tag) 0 ++
     webRequest CreateRequest (browser_download_url a) true
       errorFunc progressFunc finishFunc) /\
  ((exists pre post, asset_name a = pre +:+ ".geode" +:+ post) ->
   react (downloadAPI CreateRequest errorFunc progressFunc finishFunc)
     (completed (ok_response (Json j)))
   = call_progress progressFunc ("Downloading version " +:+ tag) 0 ++
     webRequest CreateRequest (browser_download_url a) true
       errorFunc progressFunc finishFunc).
Proof.
  intros Hrel Hl Ha. split; intros Hsub%found_iff.
  - rewrite downloadLoader_react by done.
    change (webRequest_handler _ _ _ _) with
      (release_finish CreateRequest (found (PLATFORM_ASSET_IDENTIFIER os))
         (loader_message os) errorFunc progressFunc finishFunc
         (ok_response (Json j))).
    rewrite (release_finish_first_match _ _ _ _ _ _ _ _ _ Hrel).
    unfold first_match. simpl. by rewrite Hsub.
  - rewrite downloadAPI_react by done.
    change (webRequest_handler _ _ _ _) with
      (release_finish CreateRequest (found ".geode")
         api_message errorFunc progressFunc finishFunc (ok_response (Json j))).
    rewrite (release_finish_first_match _ _ _ _ _ _ _ _ _ Hrel).
    unfold first_match. simpl. by rewrite Hsub.
Qed.

Definition darwin_release : json :=
  JObject
    [("assets",
      JArray [asset_json "geode-darwin.zip" "https://example.org/geode-darwin.zip";
              asset_json "geode-win.zip" "https://example.org/geode-win.zip"]);
     ("tag_name", JString "v1.0.0")].

Lemma asset_name_substring_witness :
  react (downloadLoader Windows (fun _ => true)
           record_error record_progress record_finish)
    (completed (ok_response (Json darwin_release)))
  = [OnProgress "Downloading version v1.0.0" 0;
     RequestStarted "https://example.org/geode-darwin.zip" true
       (webRequest_handler record_error record_progress record_finish)].
Proof.
  refine (proj1 (asset_name_substring Windows (fun _ => true)
           record_error record_progress record_finish darwin_release "v1.0.0"
           {| asset_name := "geode-darwin.zip";
              browser_download_url := "https://example.org/geode-darwin.zip" |}
           [ {| asset_name := "geode-win.zip";
                browser_download_url := "https://example.org/geode-win.zip" |} ]
           _ _ _) _).
  - split; [reflexivity|]. eexists. split; [reflexivity|]. repeat constructor.
  - reflexivity.
  - reflexivity.
  - exists "geode-dar", ".zip". reflexivity.
Defined.

(** ** Removing the data and the SDK *)

Lemma remove_all_count_pos (dir : path) (fs : filesystem) (n : node) :
  fs !! dir = Some n -> remove_all_count dir fs <> 0%nat.
Proof.
  intros H. unfold remove_all_count. intros Hz.
  apply map_size_empty_iff in Hz.
  assert (filter (fun kv : path * node => dir `prefix_of` kv.1) fs !! dir = Some n) as Hf.
  { apply map_lookup_filter_Some. split; [exact H|]. simpl. done. }
  rewrite Hz in Hf. by rewrite lookup_empty in Hf.
Qed.

Lemma delete_directory_outcome (dir : path) (w : World) :
  dir <> [] ->
  (delete_directory dir w).1 = Ok () /\
  mgr (delete_directory dir w).2 = mgr w /\
  HKLM_GeodeSDK (delete_directory dir w).2 = HKLM_GeodeSDK w /\
  disk (delete_directory dir w).2 !! dir = None /\
  (forall q, ~ dir `prefix_of` q ->
     disk (delete_directory dir w).2 !! q = disk w !! q) /\
  (is_tree (disk w) ->
   forall q, dir `prefix_of` q -> disk (delete_directory dir w).2 !! q = None).
Proof.
  intros Hdir. unfold delete_directory.
  destruct (fs_exists (disk w) dir) eqn:Hex.
  - destruct (fs_exists_true _ _ Hdir Hex) as [n Hn].
    pose proof (remove_all_count_pos dir (disk w) n Hn) as Hc.
    apply Nat.eqb_neq in Hc. rewrite Hc. simpl.
    repeat split.
    + apply remove_all_lookup.
    + intros q Hq. by apply remove_all_other.
    + intros _ q Hq. by apply remove_all_under.
  - simpl. assert (disk w !! dir = None) as Hnone.
    { unfold fs_exists, lookup_node in Hex. destruct dir; [done|].
      apply bool_decide_eq_false in Hex. by apply eq_None_not_Some. }
    repeat split; [done|].
    intros Htree q Hq. by apply (is_tree_below (disk w) dir q).
Qed.


Definition sdk_world : World :=
  {| mgr := {| m_sdkDirectory := ["C:"; "Program Files"; "GeodeSDK"];
               m_sdkInstalled := true;
               m_dataDirectory := ["C:"; "Users"; "u"; "AppData"; "Local"; "GeodeSDK"];
               m_installations := [GeometryDash];
               m_dataLoaded := true |};
     disk := {[ ["C:"] := Dir 493;
                ["C:"; "Program Files"] := Dir 493;
                ["C:"; "Program Files"; "GeodeSDK"] := Dir 493;
                ["C:"; "Program Files"; "GeodeSDK"; "bin"] := Dir 493;
                ["C:"; "Users"] := Dir 493;
                ["C:"; "Users"; "u"] := Dir 493;
                ["C:"; "Users"; "u"; "AppData"] := Dir 493;
                ["C:"; "Users"; "u"; "AppData"; "Local"] := Dir 493;
                ["C:"; "Users"; "u"; "AppData"; "Local"; "GeodeSDK"] := Dir 493;
                ["C:"; "Users"; "u"; "AppData"; "Local"; "GeodeSDK"; "installer.json"] :=
                  File (Json (save_json (insert_installation GeometryDash Manager_new)));
                ["C:"; "Users"; "u"; "AppData"; "Local"; "GeometryDash"] := Dir 493;
                ["C:"; "Users"; "u"; "AppData"; "Local"; "GeometryDash"; "geode"] := Dir 493;
                ["C:"; "Users"; "u"; "AppData"; "Local"; "GeometryDash"; "geode"; "mods"] :=
                  Dir 493 ]};
     HKLM_GeodeSDK :=
       admin_key (Some "C:/Users/u/AppData/Local/GeodeSDK") |}.


Lemma deleteData_succeeds (env : Env) (DeleteSelf_ok : bool) (w : World) :
  m_dataDirectory (mgr w) <> [] ->
  os env = MacOS \/ DeleteSelf_ok = true ->
  (deleteData env DeleteSelf_ok w).1 = Ok () /\
  mgr (deleteData env DeleteSelf_ok w).2 = mgr w /\
  InstallInfo (HKLM_GeodeSDK (deleteData env DeleteSelf_ok w).2)
  = match os env with
    | Windows => None
    | MacOS => InstallInfo (HKLM_GeodeSDK w)
    end /\
  disk (deleteData env DeleteSelf_ok w).2 !! m_dataDirectory (mgr w) = None /\
  (forall q, ~ m_dataDirectory (mgr w) `prefix_of` q ->
     disk (deleteData env DeleteSelf_ok w).2 !! q = disk w !! q) /\
  (is_tree (disk w) ->
   forall q, m_dataDirectory (mgr w) `prefix_of` q ->
     disk (deleteData env DeleteSelf_ok w).2 !! q = None).
Proof.
  intros Hdir Hok. unfold deleteData. destruct (os env) eqn:Hos.
  - destruct Hok as [?| ->]; [done|]. simpl.
    destruct (delete_directory_outcome (m_dataDirectory (mgr w))
                (without_InstallInfo w) Hdir) as (H1 & H2 & H3 & H4 & H5 & H6).
    repeat split; try done. by rewrite H3.
  - destruct (delete_directory_outcome (m_dataDirectory (mgr w)) w Hdir)
      as (H1 & H2 & H3 & H4 & H5 & H6).
    repeat split; try done. by rewrite H3.
Qed.



(** X23.  After a successful [deleteData] of the default data directory,
    a new manager loads nothing: [loadData] succeeds with no installation
    and no SDK.  On Windows the manager then reports a first run; the
    macOS build never does. *)
Theorem deleteData_then_loadData (env : Env) (DeleteSelf_ok : bool) (w : World) :
  os env = MacOS \/ DeleteSelf_ok = true ->
  is_tree (disk w) ->
  m_dataDirectory (mgr w) = getDefaultDataDirectory env ->
  (deleteData env DeleteSelf_ok w).1 = Ok () /\
  let w' := with_mgr Manager_new (deleteData env DeleteSelf_ok w).2 in
  (loadData env w').1 = Ok () /\
  getInstallations (mgr (loadData env w').2) = [] /\
  isSDKInstalled (mgr (loadData env w').2) = false /\
  isFirstTime (mgr (loadData env w').2)
  = match os env with Windows => true | MacOS => false end.
Proof.
  intros Hok Htree Hdefault.
  assert (m_dataDirectory (mgr w) <> []) as Hdir.
  { rewrite Hdefault. unfold getDefaultDataDirectory, getDefaultSDKDirectory.
    destruct (os env); apply snoc_not_nil. }
  destruct (deleteData_succeeds env DeleteSelf_ok w Hdir Hok)
    as (H1 & _ & H3 & _ & _ & H6).
  split; [exact H1|]. intros w'.
  assert (disk w' !! (getDefaultDataDirectory env ++ [INSTALL_DATA_JSON]) = None) as Hfile.
  { apply (H6 Htree). rewrite Hdefault. by eexists. }
  assert (m_dataDirectory (locate env w') = getDefaultDataDirectory env) as Hloc.
  { unfold locate. destruct (os env) eqn:Hos; [|done].
    subst w'. simpl. simpl in H3. by rewrite H3. }
  unfold loadData, installJsonPath. rewrite Hloc, Hfile. simpl.
  unfold getInstallations, isSDKInstalled, isFirstTime, locate.
  destruct (os env) eqn:Hos; [|done].
  subst w'. simpl. simpl in H3. by rewrite H3.
Qed.

Lemma deleteData_then_loadData_witness :
  (deleteData windows true sdk_world).1 = Ok () /\
  (loadData windows
     (with_mgr Manager_new (deleteData windows true sdk_world).2)).1 = Ok () /\
  getInstallations
    (mgr (loadData windows
            (with_mgr Manager_new (deleteData windows true sdk_world).2)).2) = [] /\
  isSDKInstalled
    (mgr (loadData windows
            (with_mgr Manager_new (deleteData windows true sdk_world).2)).2) = false /\
  isFirstTime
    (mgr (loadData windows
            (with_mgr Manager_new (deleteData windows true sdk_world).2)).2) = true.
Proof.
  apply (deleteData_then_loadData windows true sdk_world).
  - by right.
  - apply (bool_decide_unpack _). vm_compute. reflexivity.
  - reflexivity.
Defined.

(** ** Installing the API *)

Lemma Mkdir_from_File (cur dirs : path) (mode : Z) (fs : filesystem)
    (q : path) (d : content) :
  (Mkdir_from cur dirs mode fs).2 !! q = Some (File d) -> fs !! q = Some (File d).
Proof.
  revert cur fs. induction dirs as [|x dirs IH]; intros cur fs; simpl; [done|].
  destruct (fs !! (cur ++ [x])) as [[m|dat]|] eqn:Hx; [apply IH|done|].
  intros H%IH. destruct (decide (q = cur ++ [x])) as [->|Hne].
  - by rewrite lookup_insert_eq in H.
  - by rewrite lookup_insert_ne in H.
Qed.

Lemma create_directories_File (p : path) (fs : filesystem) (q : path) (d : content) :
  (create_directories p fs).2 !! q = Some (File d) -> fs !! q = Some (File d).
Proof.
  unfold create_directories, Mkdir.
  pose proof (Mkdir_from_File [] p 511 fs q d) as H.
  by destruct (Mkdir_from [] p 511 fs) as [[] fs'].
Qed.

Lemma create_directories_never_false (p : path) (fs : filesystem) :
  fs_exists fs p = false -> (create_directories p fs).1 <> Return false.
Proof.
  intros Hex. unfold create_directories.
  destruct (Mkdir p 511 fs) as [[] fs']; simpl; [|done].
  destruct (wxDirExists fs p) eqn:Hd; [|done].
  apply wxDirExists_fs_exists in Hd. congruence.
Qed.

Lemma copy_api_outcome (zipLocation target : path) (w : World) :
  mgr (copy_api zipLocation target w).2 = mgr w /\
  HKLM_GeodeSDK (copy_api zipLocation target w).2 = HKLM_GeodeSDK w /\
  (forall q, q <> target ->
     disk (copy_api zipLocation target w).2 !! q = disk w !! q) /\
  match (copy_api zipLocation target w).1 with
  | Ok _ =>
      exists data,
        disk w !! zipLocation = Some (File data) /\
        disk (copy_api zipLocation target w).2 !! target = Some (File data) /\
        wxDirExists (disk (copy_api zipLocation target w).2) (parent_path target)
        = true
  | Err msg =>
      msg = "Unable to copy Geode API" \/
      exists e, msg = "Unable to copy Geode API: " +:+ e
  end.
Proof.
  unfold copy_api, copy_file.
  destruct (lookup_node (disk w) zipLocation) as [[m|data]|] eqn:Hz; simpl.
  - repeat split; auto.
  - destruct (bool_decide (zipLocation = target)) eqn:Heq; simpl.
    { repeat split; eauto. }
    destruct (can_create (disk w) target) eqn:Hc; simpl.
    + split; [done|]. split; [done|]. split.
      * intros q Hq. unfold write_file. by rewrite lookup_insert_ne.
      * exists data. split; [|split].
        -- unfold lookup_node in Hz. by destruct zipLocation.
        -- unfold write_file. by rewrite lookup_insert_eq.
        -- apply can_create_true in Hc as (Hne & Hp & _).
           pose proof (parent_path_neq target Hne) as Hpar.
           unfold wxDirExists, lookup_node, write_file in Hp |- *.
           destruct (parent_path target) as [|c p]; [done|].
           by rewrite lookup_insert_ne.
    + repeat split; eauto.
  - repeat split; eauto.
Qed.

Lemma plain_name_string_path (s : string) :
  plain_name s = true -> string_path s = [s].
Proof.
  unfold plain_name. intros H.
  apply andb_prop in H as [H _]. apply andb_prop in H as [H _].
  apply andb_prop in H as [H _]. apply andb_prop in H as [H _].
  apply andb_prop in H as [Hne Hsep].
  unfold string_path. rewrite (split_no_separator s Hsep). simpl. by rewrite Hne.
Qed.


(** The game with the loader in place and the API package downloaded. *)
Definition downloaded_api : World :=
  {| mgr := mgr installed_world;
     disk := <[ ["C:"; "Temp"; "geode-api.geode"] := File (NotJson "PK" "syntax error") ]>
               (disk installed_world);
     HKLM_GeodeSDK := admin_key None |}.


(** ** Deleting the save data *)

Lemma last_dot_append (name ext : string) :
  last_dot ext = None ->
  last_dot (name +:+ String "."%char ext) = Some (String.length name).
Proof.
  intros Hext. induction name as [|c name IH].
  - change (last_dot (String "."%char ext) = Some 0%nat). simpl. by rewrite Hext.
  - change (last_dot (String c (name +:+ String "."%char ext))
            = Some (S (String.length name))).
    simpl. by rewrite IH.
Qed.

Lemma lacks_dot_last_dot (ext : string) :
  lacks "."%char ext = true -> last_dot ext = None.
Proof.
  induction ext as [|c ext IH]; simpl; [done|].
  intros [Hc Hext]%andb_prop. rewrite (IH Hext).
  apply negb_true_iff in Hc. by rewrite Hc.
Qed.

Lemma stem_append (name ext : string) :
  name <> "" -> name <> "." -> last_dot ext = None ->
  stem (name +:+ String "."%char ext) = name.
Proof.
  intros Hne Hdot Hext. unfold stem.
  rewrite bool_decide_eq_false_2.
  - rewrite (last_dot_append name ext Hext).
    destruct name as [|c name]; [done|].
    apply (substring_0_append (String c name)).
  - destruct name as [|c [|c' name]]; [done| |].
    + intros [= -> ->]. done.
    + destruct name; discriminate.
Qed.

Lemma no_separator_append (x y : string) :
  no_separator x = true -> no_separator y = true -> no_separator (x +:+ y) = true.
Proof.
  intros Hx Hy. induction x as [|c x IH]; [done|].
  change (no_separator (String c (x +:+ y)) = true).
  simpl in *. apply andb_prop in Hx as [Hc Hx]. by rewrite Hc, IH.
Qed.

(** X25.  For an executable called [name.ext], with [name] a plain
    name and [ext] free of dots and separators, [deleteSaveDataFrom]
    works on the directory [name/geode] beside the local data directory
    of the installer: when it exists it is removed with everything below
    it and the call succeeds, when it does not the call fails with
    ["Save data directory not found!"] and changes nothing.  No path
    outside that directory is touched, and the installation stays
    recorded. *)
Theorem deleteSaveDataFrom_outcome (env : Env) (inst : Installation) (w : World)
    (name ext : string) :
  m_exe inst = name +:+ "." +:+ ext ->
  plain_name name = true ->
  no_separator ext = true ->
  lacks "\"%char ext = true ->
  lacks "."%char ext = true ->
  let target := parent_path (UserLocalDataDir env) ++ [name; "geode"] in
  mgr (deleteSaveDataFrom env inst w).2 = mgr w /\
  (forall q, ~ target `prefix_of` q ->
     disk (deleteSaveDataFrom env inst w).2 !! q = disk w !! q) /\
  (fs_exists (disk w) target = true ->
   (deleteSaveDataFrom env inst w).1 = Ok () /\
   forall q, target `prefix_of` q ->
     disk (deleteSaveDataFrom env inst w).2 !! q = None) /\
  (fs_exists (disk w) target = false ->
   deleteSaveDataFrom env inst w = (Err "Save data directory not found!", w)).
Proof.
  intros Hexe Hplain Hsep _ Hext%lacks_dot_last_dot target.
  unfold plain_name in Hplain.
  apply andb_prop in Hplain as [Hplain _].
  apply andb_prop in Hplain as [Hplain Hdot].
  apply andb_prop in Hplain as [Hplain _].
  apply andb_prop in Hplain as [Hname _].
  apply negb_true_iff, String.eqb_neq in Hdot.
  apply andb_prop in Hname as [Hne Hnsep].
  assert (name <> "") as Hne' by (by destruct name).
  assert (string_path (m_exe inst) = [m_exe inst]) as Hpath.
  { unfold string_path. rewrite split_no_separator.
    - simpl. rewrite Hexe. by destruct name.
    - rewrite Hexe. apply no_separator_append; [done|].
      change (no_separator (String "."%char ext) = true). simpl. exact Hsep. }
  assert (parent_path (UserLocalDataDir env)
          ++ replace_extension (string_path (m_exe inst)) ++ ["geode"] = target)
    as Htarget.
  { rewrite Hpath. unfold replace_extension, target, parent_path, filename.
    cbn [removelast List.last app]. rewrite Hexe.
    change (name +:+ "." +:+ ext) with (name +:+ String "."%char ext).
    by rewrite stem_append. }
  unfold deleteSaveDataFrom. rewrite Htarget.
  destruct (fs_exists (disk w) target) eqn:Hex; simpl.
  - split; [done|]. split; [|split; [|done]].
    + intros q Hq. by apply remove_all_other.
    + intros _. split; [done|]. intros q Hq. by apply remove_all_under.
  - split; [done|]. split; [done|]. split; done.
Qed.

Lemma deleteSaveDataFrom_outcome_witness :
  (deleteSaveDataFrom windows GeometryDash sdk_world).1 = Ok () /\
  disk (deleteSaveDataFrom windows GeometryDash sdk_world).2
    !! ["C:"; "Users"; "u"; "AppData"; "Local"; "GeometryDash"; "geode"; "mods"] = None /\
  deleteSaveDataFrom windows GeometryDash first_run
  = (Err "Save data directory not found!", first_run).
Proof.
  destruct (deleteSaveDataFrom_outcome windows GeometryDash sdk_world
              "GeometryDash" "exe")
    as (_ & _ & Hthere & _); [reflexivity..|].
  destruct (deleteSaveDataFrom_outcome windows GeometryDash first_run
              "GeometryDash" "exe")
    as (_ & _ & _ & Hmissing); [reflexivity..|].
  destruct Hthere as [Hok Hgone]; [vm_compute; reflexivity|].
  split; [exact Hok|]. split.
  - apply Hgone. by exists ["mods"].
  - apply Hmissing. vm_compute. reflexivity.
Defined.
